(** * Joint slot tagging and intent detection: the evaluation and training driver

    A shallow embedding of [scripts/slot_tagging_and_intent_detection_by_HG.py].

    Conventions of the embedding.
    - Python floats that only ever hold counts ([TP], [FP], ...) are [nat];
      every other float (scores, losses, percentages) is a rational [Q]:
      a finite binary64 value is a rational and comparisons of finite
      floats are comparisons of rationals.  Rounding is not modelled.
    - Python dictionaries are [gmap]s, a failed lookup is [KeyError];
      lists are [list]s, an index out of range is [IndexError].
    - Code with effects is written in a state-and-exception monad [M].
    - Functions of the modules the script imports from its own repository
      (the models, [data_reader], [vocab_reader], [acc], ...) and numpy's
      generator are section variables; a call of one of them returns. *)

From Stdlib Require Import QArith Qminmax Lqa.
From stdpp Require Import base decidable option list strings gmap pretty.

#[local] Open Scope string_scope.
#[local] Open Scope list_scope.
#[local] Open Scope nat_scope.

(** ** Exceptions and the monad *)

Inductive exn : Type :=
| AssertionError
| NameError (name : string)
| KeyError
| IndexError
| TypeError
| ValueError
| ZeroDivisionError
| ExternalError (line : nat).

#[global] Instance exn_eq_dec : EqDecision exn.
Proof. solve_decision. Defined.

Definition res (A : Type) : Type := (exn + A)%type.

Definition OK {A} (a : A) : res A := inr a.
Definition Raise {A} (e : exn) : res A := inl e.

Definition res_bind {A B} (r : res A) (k : A → res B) : res B :=
  match r with
  | inl e => inl e
  | inr a => k a
  end.

(** A computation over a state [S] ends with a value or with an exception;
    the state reached is kept in both cases (what was written to a file
    before an exception stays written). *)
Definition M (S A : Type) : Type := S → res A * S.

Definition ret {S A} (a : A) : M S A := λ s, (OK a, s).
Definition raise {S A} (e : exn) : M S A := λ s, (Raise e, s).
Definition bind {S A B} (m : M S A) (k : A → M S B) : M S B :=
  λ s, match m s with
       | (inr a, s') => k a s'
       | (inl e, s') => (inl e, s')
       end.
Definition lift {S A} (r : res A) : M S A := λ s, (r, s).
Definition modify {S} (f : S → S) : M S unit := λ s, (OK tt, f s).
Definition gets {S A} (f : S → A) : M S A := λ s, (OK (f s), s).

Declare Scope py_scope.
Delimit Scope py_scope with py.
Notation "'let*' x := m 'in' k" := (bind m (λ x, k))
  (at level 10, x pattern, m at level 100, k at level 200) : py_scope.
Notation "m ;; k" := (bind m (λ _, k))
  (at level 100, k at level 200, right associativity) : py_scope.
Notation "'let?' x := r 'in' k" := (res_bind r (λ x, k))
  (at level 10, x pattern, r at level 100, k at level 200) : py_scope.
#[local] Open Scope py_scope.

(** [for x in l: body x] *)
Fixpoint for_each {S A} (l : list A) (body : A → M S unit) : M S unit :=
  match l with
  | [] => ret tt
  | x :: l' => body x ;; for_each l' body
  end.

(** [[f x for x in l]] where [f] may raise. *)
Fixpoint map_res {A B} (f : A → res B) (l : list A) : res (list B) :=
  match l with
  | [] => OK []
  | x :: l' =>
      let? y := f x in
      let? ys := map_res f l' in
      OK (y :: ys)
  end.

(** ** A few Python built-ins *)

Module Py.

(** [bool(x)] for an optional command-line string: [None] and [''] are
    false. *)
Definition bool_of (x : option string) : bool :=
  match x with
  | None => false
  | Some s => negb (String.eqb s "")
  end.

(** [l[i]] on a list. *)
Definition index {A} (l : list A) (i : nat) : res A :=
  match l !! i with
  | Some x => OK x
  | None => Raise IndexError
  end.

(** [d[k]] on a dictionary. *)
Definition getitem {K} `{Countable K} {V} (d : gmap K V) (k : K) : res V :=
  match d !! k with
  | Some v => OK v
  | None => Raise KeyError
  end.

(** [x / y] on floats. *)
Definition truediv (x y : Q) : res Q :=
  if Qeq_bool y 0 then Raise ZeroDivisionError else OK (x / y)%Q.

(** [range(0, stop, step)]; a zero step is a [ValueError]. *)
Definition range0 (stop step : nat) : res (list nat) :=
  if step =? 0 then Raise ValueError
  else OK ((λ k, k * step) <$> seq 0 ((stop + step - 1) / step)).

(** [l[i:i+n]] *)
Definition slice {A} (l : list A) (i n : nat) : list A := take n (drop i l).

(** [sep.join(l)] *)
Definition join (sep : string) (l : list string) : string :=
  String.concat sep l.

(** [str(n)] for a non-negative integer. *)
Definition str (n : nat) : string := pretty n.

(** [max(l)] on integers; empty argument is a [ValueError]. *)
Definition max_list (l : list nat) : res nat :=
  match l with
  | [] => Raise ValueError
  | x :: l' => OK (foldl Nat.max x l')
  end.

Definition sum (l : list nat) : nat := foldl Nat.add 0 l.

Definition nat_Q (n : nat) : Q := inject_Z (Z.of_nat n).

(** Reading a global name that some branch may have left unbound
    ([None]). *)
Definition global {A} (name : string) (v : option A) : res A :=
  match v with
  | Some x => OK x
  | None => Raise (NameError name)
  end.

End Py.

(** [x < y] on floats is decidable. *)
#[global] Instance Qlt_decision (x y : Q) : Decision (x < y)%Q :=
  match Qlt_le_dec x y with
  | left H => left H
  | right H => right (Qle_not_lt _ _ H)
  end.

#[global] Instance Q_eq_dec : EqDecision Q.
Proof. solve_decision. Defined.

Definition newline : string := String (Ascii.ascii_of_nat 10) EmptyString.

(** ** Data shared by the whole script *)

(** A Python value that is an [int] or a [str]: the raw gold labels of a
    minibatch are either vocabulary ids or label strings, and the script
    tests [type(x) == int] to tell them apart. *)
Inductive pyatom : Type :=
| PInt (n : nat)
| PStr (s : string).

#[global] Instance pyatom_eq_dec : EqDecision pyatom.
Proof. solve_decision. Defined.

(** [raw_classes[idx]]: an [int], or a sequence of atoms. *)
Inductive raw_class : Type :=
| RawInt (n : nat)
| RawSeq (l : list pyatom).

(** The [classes] tensor of a minibatch: class ids (single label) or
    multi-hot rows (multi label). *)
Inductive class_tensor : Type :=
| ClassIds (l : list nat)
| ClassMultiHot (l : list (list Q)).

(** What [data_reader.get_minibatch_with_class] returns; [mb_line_nums] is
    the seventh component, present when the reader returns seven values. *)
Record minibatch : Type := {
  mb_inputs : list (list nat);
  mb_tags : list (list nat);
  mb_raw_tags : list (list pyatom);
  mb_classes : class_tensor;
  mb_raw_classes : list raw_class;
  mb_lens : list nat;
  mb_line_nums : option (list nat);
}.

(** The namespace [opt] once lines 69-91 have run: the parsed arguments the
    rest of the script reads, with [test_batchSize], [multiClass], [crf] and
    [task_sc] as those lines leave them. *)
Record options : Type := {
  task_st : string;
  task_sc : option string;
  sc_type : string;
  st_weight : Q;
  testing : bool;
  read_model : option string;
  out_path : option string;
  read_input_sen2vec : string;
  batchSize : nat;
  test_batchSize : nat;
  max_epoch : nat;
  save_model : string;
  multiClass : bool;
  crf : bool;
}.

(** ** Loss functions (lines 252-260) *)

Module Loss.

(** [nn.NLLLoss(weight=w, size_average=False)(input, target)]: the sum
    over the rows of [- w[t] * input[i][t]]; without a weight every class
    weighs 1. *)
Definition nll_term (w : option (list Q)) (row : list Q) (t : nat) : res Q :=
  let? x := Py.index row t in
  let? wt := match w with
             | None => OK 1%Q
             | Some w => Py.index w t
             end in
  OK (- (wt * x))%Q.

Fixpoint nll_sum (w : option (list Q)) (input : list (list Q))
    (target : list nat) : res Q :=
  match input, target with
  | [], [] => OK 0%Q
  | row :: input', t :: target' =>
      let? x := nll_term w row t in
      let? rest := nll_sum w input' target' in
      OK (x + rest)%Q
  | _, _ => Raise ValueError
  end.

(** Lines 253-254:
    [weight_mask = torch.ones(len(tag_to_idx)); weight_mask[tag_to_idx['<pad>']] = 0] *)
Definition weight_mask (tag_to_idx : gmap string nat) : res (list Q) :=
  let ones := replicate (size tag_to_idx) 1%Q in
  let? pad := Py.getitem tag_to_idx "<pad>" in
  if decide (pad < length ones) then OK (<[pad := 0%Q]> ones)
  else Raise IndexError.

(** Line 255 *)
Definition tag_loss_function (weight_mask : list Q) :
    list (list Q) → list nat → res Q :=
  nll_sum (Some weight_mask).

(** [t.view(-1, c)] on the flattened elements of a tensor. *)
Fixpoint rows_of (fuel c : nat) (flat : list Q) : res (list (list Q)) :=
  match flat with
  | [] => OK []
  | _ :: _ =>
      match fuel with
      | 0 => Raise ValueError
      | S fuel' =>
          if decide (0 < c ∧ c ≤ length flat) then
            let? rest := rows_of fuel' c (drop c flat) in
            OK (take c flat :: rest)
          else Raise ValueError
      end
  end.

Definition view2 (c : nat) (t : list (list (list Q))) : res (list (list Q)) :=
  let flat := concat (concat t) in
  rows_of (length flat) c flat.

(** [x.argmax(axis=-1)] on one row: the first position of the largest
    entry; an empty row is a [ValueError]. *)
Fixpoint argmax_from (best : nat) (bestv : Q) (i : nat) (row : list Q) : nat :=
  match row with
  | [] => best
  | x :: row' =>
      if decide (bestv < x)%Q then argmax_from i x (S i) row'
      else argmax_from best bestv (S i) row'
  end.

Definition argmax (row : list Q) : res nat :=
  match row with
  | [] => Raise ValueError
  | x :: row' => OK (argmax_from 0 x 1 row')
  end.

End Loss.

(** ** The evaluation pass: [decode] (lines 277-400) *)

Module Eval.

(** The local variables of one call of [decode]: the eight counters, the
    per-batch losses, and the lines written so far to the output file. *)
Record state : Type := {
  TP : nat; FP : nat; FN : nat; TN : nat;
  TP2 : nat; FP2 : nat; FN2 : nat; TN2 : nat;
  losses : list (Q * Q);
  f : list string;
}.

(** Lines 279-282 *)
Definition init : state :=
  {| TP := 0; FP := 0; FN := 0; TN := 0;
     TP2 := 0; FP2 := 0; FN2 := 0; TN2 := 0;
     losses := []; f := [] |}.

Definition incr_TP (s : state) : state :=
  {| TP := TP s + 1; FP := FP s; FN := FN s; TN := TN s;
     TP2 := TP2 s; FP2 := FP2 s; FN2 := FN2 s; TN2 := TN2 s;
     losses := losses s; f := f s |}.
Definition incr_FP (s : state) : state :=
  {| TP := TP s; FP := FP s + 1; FN := FN s; TN := TN s;
     TP2 := TP2 s; FP2 := FP2 s; FN2 := FN2 s; TN2 := TN2 s;
     losses := losses s; f := f s |}.
Definition incr_FN (s : state) : state :=
  {| TP := TP s; FP := FP s; FN := FN s + 1; TN := TN s;
     TP2 := TP2 s; FP2 := FP2 s; FN2 := FN2 s; TN2 := TN2 s;
     losses := losses s; f := f s |}.
Definition incr_TP2 (s : state) : state :=
  {| TP := TP s; FP := FP s; FN := FN s; TN := TN s;
     TP2 := TP2 s + 1; FP2 := FP2 s; FN2 := FN2 s; TN2 := TN2 s;
     losses := losses s; f := f s |}.
Definition incr_FP2 (s : state) : state :=
  {| TP := TP s; FP := FP s; FN := FN s; TN := TN s;
     TP2 := TP2 s; FP2 := FP2 s + 1; FN2 := FN2 s; TN2 := TN2 s;
     losses := losses s; f := f s |}.
Definition incr_FN2 (s : state) : state :=
  {| TP := TP s; FP := FP s; FN := FN s; TN := TN s;
     TP2 := TP2 s; FP2 := FP2 s; FN2 := FN2 s + 1; TN2 := TN2 s;
     losses := losses s; f := f s |}.
(** [losses.append(l)] *)
Definition losses_append (l : Q * Q) (s : state) : state :=
  {| TP := TP s; FP := FP s; FN := FN s; TN := TN s;
     TP2 := TP2 s; FP2 := FP2 s; FN2 := FN2 s; TN2 := TN2 s;
     losses := losses s ++ [l]; f := f s |}.
(** [f.write(line)] *)
Definition f_write (line : string) (s : state) : state :=
  {| TP := TP s; FP := FP s; FN := FN s; TN := TN s;
     TP2 := TP2 s; FP2 := FP2 s; FN2 := FN2 s; TN2 := TN2 s;
     losses := losses s; f := f s ++ [line] |}.

(** The two membership loops, lines 339-346 (slot chunks) and 356-363
    (intent classes): they differ only in the counters they increment. *)
Section membership.
Context {A : Type} `{EqDecision A}.
Variables (hit miss_pred miss_gold : state → state).

Definition count_membership (pred gold : list A) : M state unit :=
  for_each pred (λ p,
    if decide (p ∈ gold) then modify hit else modify miss_pred) ;;
  for_each gold (λ g,
    if decide (g ∉ pred) then modify miss_gold else ret tt).
End membership.

(** Lines 389-397: the percentages of one task. *)
Definition prf (tp fp fn : nat) : res (Q * Q * Q) :=
  if tp =? 0 then OK (0, 0, 0)%Q
  else
    let? p := Py.truediv (100 * Py.nat_Q tp) (Py.nat_Q tp + Py.nat_Q fp) in
    let? r := Py.truediv (100 * Py.nat_Q tp) (Py.nat_Q tp + Py.nat_Q fn) in
    let? f1 := Py.truediv (100 * 2 * Py.nat_Q tp)
                 (2 * Py.nat_Q tp + Py.nat_Q fn + Py.nat_Q fp) in
    OK (p, r, f1).

(** [np.mean(losses, axis=0)]: the mean of each column; on an empty list
    numpy returns the scalar [nan], here [None]. *)
Definition np_mean (l : list (Q * Q)) : option (Q * Q) :=
  match l with
  | [] => None
  | _ =>
      let n := Py.nat_Q (length l) in
      Some (foldl Qplus 0%Q (fst <$> l) / n, foldl Qplus 0%Q (snd <$> l) / n)%Q
  end.

(** The value [decode] returns. *)
Record result : Type := {
  mean_losses : option (Q * Q);
  p : Q; r : Q; f1 : Q;
  cp : Q; cr : Q; cf : Q;
}.

#[global] Instance result_eq_dec : EqDecision result.
Proof. solve_decision. Defined.

(** Lines 389-400 *)
Definition finish : M state result :=
  let* s := gets id in
  let* (p, r, f1) := lift (prf (TP s) (FP s) (FN s)) in
  let* (cp, cr, cf) := lift (prf (TP2 s) (FP2 s) (FN2 s)) in
  ret {| mean_losses := np_mean (losses s);
         p := p; r := r; f1 := f1; cp := cp; cr := cr; cf := cf |}.

(** Intent predictions of a batch, as lines 323-326 leave them in
    [snt_probs]. *)
Inductive snt : Type :=
| SntProbs (rows : list (list Q))
| SntIds (ids : list nat).

Definition snt_probs_of (multi : bool) (class_scores : list (list Q)) : res snt :=
  if multi then OK (SntProbs class_scores)
  else let? ids := map_res Loss.argmax class_scores in OK (SntIds ids).

(** Line 354: [[i for i, p in enumerate(row) if p > 0.5]] *)
Definition over_threshold (row : list Q) : list nat :=
  fst <$> filter (λ ip, (1 # 2 < ip.2)%Q) (imap pair row).

Section decode.
Context {chunk : Type} `{EqDecision chunk}.
Context {Feat Tags Classes SenFeats Sens CrfFeats Info : Type}.

(** Globals of the script that [decode] reads. *)
Variable opt : options.
Variables idx_to_tag idx_to_word idx_to_class : gmap nat string.
Variable tag_to_idx : gmap string nat.
(** [train_data_index] is assigned at line 405 only, inside the training
    block: [None] stands for the unbound name. *)
Variable train_data_index : option (list nat).
Variable tag_loss_function : list (list Q) → list nat → res Q.
Variable class_loss_function : list (list Q) → class_tensor → res Q.

(** Imported functions: [acc.get_chunks], the two minibatch assemblers
    of [data_reader] (arguments: the corpus, the index array, the
    offset, the batch size; for the first also [multiClass] and
    [keep_order]), and the methods of the two models. *)
Variable get_chunks : list string → list chunk.
Variable get_minibatch_with_class :
  list Feat → Tags → Classes → list nat → nat → nat → bool → bool →
  minibatch.
Variable get_sen_minibatch : SenFeats → list nat → nat → nat → Sens.
Variable _get_lstm_features : Sens → list nat → CrfFeats * Info.
Variable forward : CrfFeats → list (list nat) → list Q * list (list nat).
Variable neg_log_likelihood :
  CrfFeats → list (list nat) → list (list nat) → Q.
Variable model_tag :
  list (list nat) → list nat → list (list (list Q)) * Info.
(** [model_class(encoder_info_filter(encoder_info))]; the two names are
    bound by the same branches of lines 208-232, or not at all. *)
Variable model_class : option (Info → list (list Q)).

(** Lines 334-336: the length, [pred_seq] and [lab_seq] of example
    [idx].  Every entry of [pred_line] is looked up before the list is
    cut to [length]. *)
Definition tag_seqs (mb : minibatch) (idx : nat) (pred_line : list nat) :
    res (nat * list string * list string) :=
  let? length := Py.index (mb_lens mb) idx in
  let? names := map_res (Py.getitem idx_to_tag) pred_line in
  let pred_seq := take length names in
  let? raw := Py.index (mb_raw_tags mb) idx in
  let? lab_seq :=
    map_res (λ tag, match tag with
                    | PInt i => Py.getitem idx_to_tag i
                    | PStr s => OK s
                    end) raw in
  OK (length, pred_seq, lab_seq).

(** Lines 337-346 *)
Definition score_slots (pred_seq lab_seq : list string) : M state unit :=
  let pred_chunks := get_chunks (["O"] ++ pred_seq ++ ["O"]) in
  let label_chunks := get_chunks (["O"] ++ lab_seq ++ ["O"]) in
  count_membership incr_TP incr_FP incr_FN pred_chunks label_chunks.

(** Lines 348-350 *)
Definition word_tag_line (mb : minibatch) (idx length : nat)
    (pred_seq lab_seq : list string) : res (list string) :=
  let? row := Py.index (mb_inputs mb) idx in
  let? words := map_res (Py.getitem idx_to_word) row in
  let input_line := take length words in
  map_res (λ _idx,
      let? w := Py.index input_line _idx in
      let? l := Py.index lab_seq _idx in
      let? p := Py.index pred_seq _idx in
      OK (w ++ ":" ++ l ++ ":" ++ p)%string)
    (seq 0 (List.length input_line)).

(** Lines 354-365: multi-label intents. *)
Definition score_intent_multi (mb : minibatch) (snt_probs : snt) (idx : nat) :
    M state (string * string) :=
  let* row := lift (match snt_probs with
                    | SntProbs rows => Py.index rows idx
                    | SntIds _ => Raise TypeError
                    end) in
  let* pred_classes :=
    lift (map_res (Py.getitem idx_to_class) (over_threshold row)) in
  let* raw := lift (Py.index (mb_raw_classes mb) idx) in
  let* gold_classes :=
    lift (match raw with
          | RawInt _ => Raise TypeError
          | RawSeq l =>
              map_res (λ i, match i with
                            | PInt i => Py.getitem idx_to_class i
                            | PStr _ => Raise KeyError
                            end) l
          end) in
  count_membership incr_TP2 incr_FP2 incr_FN2 pred_classes gold_classes ;;
  ret (Py.join ";" gold_classes, Py.join ";" pred_classes).

(** [';'.join(l)] on atoms: every item must be a [str]. *)
Definition join_atoms (sep : string) (l : list pyatom) : res string :=
  let? strs := map_res (λ a, match a with
                             | PStr s => OK s
                             | PInt _ => Raise TypeError
                             end) l in
  OK (Py.join sep strs).

(** Lines 367-378: single-label intents.  [gold_classes] is a Python
    set; it is kept as a duplicate-free list. *)
Definition score_intent_single (mb : minibatch) (snt_probs : snt) (idx : nat) :
    M state (string * string) :=
  let* i := lift (match snt_probs with
                  | SntIds ids => Py.index ids idx
                  | SntProbs _ => Raise TypeError
                  end) in
  let* pred_class := lift (Py.getitem idx_to_class i) in
  let* raw := lift (Py.index (mb_raw_classes mb) idx) in
  let* gold_classes :=
    lift (match raw with
          | RawInt g =>
              let? name := Py.getitem idx_to_class g in OK [PStr name]
          | RawSeq l => OK (remove_dups l)
          end) in
  (if decide (PStr pred_class ∈ gold_classes) then modify incr_TP2
   else (modify incr_FP2 ;; modify incr_FN2)) ;;
  let* gold_class_str := lift (join_atoms ";" gold_classes) in
  ret (gold_class_str, pred_class).

(** Lines 352-381 *)
Definition score_intent (mb : minibatch) (snt_probs : option snt) (idx : nat) :
    M state (string * string) :=
  match snt_probs with
  | Some snt_probs =>
      if multiClass opt then score_intent_multi mb snt_probs idx
      else score_intent_single mb snt_probs idx
  | None => ret ("", "")
  end.

(** Lines 383-387 *)
Definition write_line (mb : minibatch) (idx : nat) (word_tag_line : list string)
    (gold_class_str pred_class_str : string) : M state unit :=
  let rest := (Py.join " " word_tag_line ++ " <=> " ++ gold_class_str
               ++ " <=> " ++ pred_class_str ++ newline)%string in
  if testing opt then
    let* line_nums := lift (match mb_line_nums mb with
                            | Some l => OK l
                            | None => Raise ValueError
                            end) in
    let* n := lift (Py.index line_nums idx) in
    modify (f_write (Py.str n ++ " : " ++ rest)%string)
  else modify (f_write rest).

(** Lines 334-387: the body of the loop over the examples of a batch.
    [snt_probs] is [None] when the intent task is off. *)
Definition example_step (mb : minibatch) (snt_probs : option snt)
    (ip : nat * list nat) : M state unit :=
  let (idx, pred_line) := ip in
  let* (length, pred_seq, lab_seq) := lift (tag_seqs mb idx pred_line) in
  score_slots pred_seq lab_seq ;;
  let* wtl := lift (word_tag_line mb idx length pred_seq lab_seq) in
  let* (gold_class_str, pred_class_str) := score_intent mb snt_probs idx in
  write_line mb idx wtl gold_class_str pred_class_str.

(** Lines 284-304: the minibatch at offset [j].  The testing branch
    unpacks seven values and reads [train_data_index]; the other branch
    unpacks six. *)
Definition fetch (sen_feats : SenFeats) (data_feats : list Feat)
    (data_tags : Tags) (data_class : Classes) (data_index : list nat)
    (j : nat) : res (minibatch * Sens) :=
  let mb := get_minibatch_with_class data_feats data_tags data_class
              data_index j (test_batchSize opt) (multiClass opt)
              (testing opt) in
  if testing opt then
    let? _ := match mb_line_nums mb with
              | Some _ => OK tt
              | None => Raise ValueError
              end in
    let? index := Py.global "train_data_index" train_data_index in
    OK (mb, get_sen_minibatch sen_feats index j (batchSize opt))
  else
    let? _ := match mb_line_nums mb with
              | Some _ => Raise ValueError
              | None => OK tt
              end in
    OK (mb, get_sen_minibatch sen_feats data_index j (batchSize opt)).

(** Line 308 (and 429) *)
Definition masks_of (lens : list nat) : res (list (list nat)) :=
  let? max_len := Py.max_list lens in
  OK ((λ l, replicate l 1 ++ replicate (max_len - l) 0) <$> lens).

(** Lines 306-318: the tag loss, the predicted tag ids and the encoder
    information. *)
Definition tag_outputs (mb : minibatch) (input_sens : Sens) :
    res (Q * list (list nat) * Info) :=
  let lens := mb_lens mb in
  if crf opt then
    let? masks := masks_of lens in
    let (crf_feats, encoder_info) := _get_lstm_features input_sens lens in
    let (tag_path_scores, tag_path) := forward crf_feats masks in
    let tag_loss := neg_log_likelihood crf_feats masks (mb_tags mb) in
    OK (tag_loss, tag_path, encoder_info)
  else
    let (tag_scores, encoder_info) := model_tag (mb_inputs mb) lens in
    let? rows := Loss.view2 (size tag_to_idx) tag_scores in
    let? tag_loss := tag_loss_function rows (concat (mb_tags mb)) in
    let? top_pred_slots := map_res (map_res Loss.argmax) tag_scores in
    OK (tag_loss, top_pred_slots, encoder_info).

(** Lines 320-329: the intent predictions and the entry appended to
    [losses]. *)
Definition class_outputs (mb : minibatch) (tag_loss : Q) (encoder_info : Info) :
    M state (option snt) :=
  let lens := mb_lens mb in
  if Py.bool_of (task_sc opt) then
    let* model_class := lift (Py.global "model_class" model_class) in
    let class_scores := model_class encoder_info in
    let* class_loss :=
      lift (class_loss_function class_scores (mb_classes mb)) in
    let* snt_probs := lift (snt_probs_of (multiClass opt) class_scores) in
    let* l1 := lift (Py.truediv tag_loss (Py.nat_Q (Py.sum lens))) in
    let* l2 := lift (Py.truediv class_loss (Py.nat_Q (length lens))) in
    modify (losses_append (l1, l2)) ;;
    ret (Some snt_probs)
  else
    let* l1 := lift (Py.truediv tag_loss (Py.nat_Q (Py.sum lens))) in
    modify (losses_append (l1, 0%Q)) ;;
    ret None.

(** Lines 284-387: the body of the loop over the batch offsets. *)
Definition batch_step (sen_feats : SenFeats) (data_feats : list Feat)
    (data_tags : Tags) (data_class : Classes) (data_index : list nat)
    (j : nat) : M state unit :=
  let* (mb, input_sens) :=
    lift (fetch sen_feats data_feats data_tags data_class data_index j) in
  let* (tag_loss, top_pred_slots, encoder_info) :=
    lift (tag_outputs mb input_sens) in
  let* snt_probs := class_outputs mb tag_loss encoder_info in
  for_each (imap pair top_pred_slots) (example_step mb snt_probs).

(** Lines 277-400.  The caller supplies the state [init]; the lines of
    the file opened at [output_path] are the field [f] of the state. *)
Definition decode (sen_feats : SenFeats) (data_feats : list Feat)
    (data_tags : Tags) (data_class : Classes) : M state result :=
  let data_index := seq 0 (length data_feats) in
  let* offsets :=
    lift (Py.range0 (length data_index) (test_batchSize opt)) in
  for_each offsets
    (batch_step sen_feats data_feats data_tags data_class data_index) ;;
  finish.

End decode.
End Eval.

(** ** The script from top to bottom *)

Module Script.

(** The parsed command line (line 69), as far as the script reads it. *)
Record args : Type := {
  a_task_st : string;
  a_task_sc : string;
  a_sc_type : string;
  a_st_weight : Q;
  a_dataroot : string;
  a_save_model : string;
  a_testing : bool;
  a_read_model : option string;
  a_out_path : option string;
  a_read_input_sen2vec : string;
  a_read_sen2idx : string;
  a_random_seed : nat;
  a_batchSize : nat;
  a_test_batchSize : nat;
  a_max_epoch : nat;
  a_optim : string;
}.

Definition assert (b : bool) : res unit :=
  if b then OK tt else Raise AssertionError.

(** Lines 71-91: the checks of the arguments and the derived fields. *)
Definition configure (a : args) : res options :=
  let? _ := assert (bool_decide (a_testing a = Py.bool_of (a_out_path a))
                    && bool_decide (Py.bool_of (a_out_path a)
                                    = Py.bool_of (a_read_model a))) in
  let test_batchSize :=
    if a_test_batchSize a =? 0 then a_batchSize a else a_test_batchSize a in
  let? _ := assert (bool_decide (a_task_st a ∈
              ["slot_tagger_sen_level"; "slot_tagger_with_crf_sen_level"])) in
  let? _ := assert (bool_decide (a_task_sc a ∈
              ["none"; "2tails"; "maxPooling"; "hiddenCNN";
               "hiddenAttention"])) in
  let? _ := assert (bool_decide (a_sc_type a ∈
              ["single_cls_CE"; "multi_cls_BCE"])) in
  let multiClass := bool_decide (a_sc_type a = "multi_cls_BCE") in
  let crf := bool_decide (a_task_st a = "slot_tagger_with_crf_sen_level") in
  let? _ := assert (bool_decide (0 < a_st_weight a)%Q
                    && Qle_bool (a_st_weight a) 1) in
  let task_sc :=
    if Qeq_bool (a_st_weight a) 1 || bool_decide (a_task_sc a = "none")
    then None else Some (a_task_sc a) in
  OK {| task_st := a_task_st a;
        task_sc := task_sc;
        sc_type := a_sc_type a;
        st_weight := a_st_weight a;
        testing := a_testing a;
        read_model := a_read_model a;
        out_path := a_out_path a;
        read_input_sen2vec := a_read_input_sen2vec a;
        batchSize := a_batchSize a;
        test_batchSize := test_batchSize;
        max_epoch := a_max_epoch a;
        save_model := a_save_model a;
        multiClass := multiClass;
        crf := crf |}.

(** The lines [logger.info] writes during training (lines 460, 475, 483,
    496 and 510), with the values they print. *)
Inductive log_line : Type :=
| LogTraining (i : nat) (mean_loss : Q * Q)
| LogValidation (i : nat) (val : Eval.result)
| LogEvaluation (i : nat) (te : Eval.result)
| LogNewBest (i : nat) (val te : Eval.result)
| LogBestResult (i : nat) (val te : Eval.result).

#[global] Instance log_line_eq_dec : EqDecision log_line.
Proof. solve_decision. Defined.

(** What the script does to the outside, in order. *)
Inductive event : Type :=
| EnsureDir (path : string)
| OpenLog (path : string)
| ReadData (path : string)
| Shuffle
| OptimizerStep (j : nat)
| WriteOutput (path : string) (lines : list string)
| SaveModel (path : string)
| Log (line : log_line).

#[global] Instance event_eq_dec : EqDecision event.
Proof. solve_decision. Defined.

(** [os.path.join(a, b)] *)
Definition path_join (a b : string) : string :=
  if String.prefix "/" b then b
  else if String.eqb a "" then b
  else if String.eqb (String.substring (String.length a - 1) 1 a) "/"
       then (a ++ b)%string
       else (a ++ "/" ++ b)%string.

(** [s.lower()] *)
Definition lower_ascii (c : Ascii.ascii) : Ascii.ascii :=
  let n := Ascii.nat_of_ascii c in
  if (65 <=? n) && (n <=? 90) then Ascii.ascii_of_nat (n + 32) else c.

Fixpoint lower (s : string) : string :=
  match s with
  | EmptyString => EmptyString
  | String c s' => String (lower_ascii c) (lower s')
  end.

(** What the script imports from its repository, from torch and from
    numpy: the types of the values it only passes around, and the
    functions it calls.
    - [utils]: [exp_path_of] is the experiment directory that lines 95-105
      build with [util.hyperparam_string]; the readers of [vocab_reader],
      [read_wordEmb] and [data_reader]; the two minibatch assemblers
      (arguments: the corpus, the index array, the offset, the batch
      size; for the first also [multiClass] and [keep_order]);
      [acc.get_chunks].
    - [models]: the constructors (the options, then the sizes the script
      computes) and the methods of the tagger and of the classifier;
      [model_class_call m info] is [model_class(encoder_info_filter(info))].
    - [torch], [numpy]: [BCELoss], the optimizers, and
      [backward_step] for [total_loss.backward()], the clipping and
      [optimizer.step()]; the seeding and the shuffle of numpy's global
      generator. *)
Class Imports : Type := {
  chunk : Type;
  chunk_eq_dec :: EqDecision chunk;
  Feat : Type; Tags : Type; Classes : Type; SenFeats : Type; Sens : Type;
  CrfFeats : Type; Info : Type;
  TagModel : Type; ClassModel : Type; Optim : Type;
  SenEmb : Type; Sen2idx : Type; Rng : Type;
  exp_path_of : options → string;
  read_vocab_file : string → gmap string nat * gmap nat string;
  read_vocab_from_data_file : string → gmap string nat * gmap nat string;
  read_sen2vec_inText : string → SenEmb;
  len_sen_emb : SenEmb → nat;
  read_sen_bank : string → Sen2idx;
  read_seqtag_data_with_class :
    string → gmap string nat → gmap string nat → gmap string nat →
    bool → bool → list Feat * Tags * Classes;
  read_sen_feats : string → Sen2idx → SenFeats;
  len_sen_feats : SenFeats → nat;
  get_minibatch_with_class :
    list Feat → Tags → Classes → list nat → nat → nat → bool → bool →
    minibatch;
  get_sen_minibatch : SenFeats → list nat → nat → nat → Sens;
  get_chunks : list string → list chunk;
  LSTMTagger_CRF_sen_level : options → nat → nat → TagModel;
  sntClassifier : string → options → nat → ClassModel;
  tag_init_weights : TagModel → TagModel;
  class_init_weights : ClassModel → ClassModel;
  set_sen_embeddings : TagModel → SenEmb → nat → TagModel;
  tag_train : TagModel → TagModel;
  tag_eval : TagModel → TagModel;
  class_train : ClassModel → ClassModel;
  class_eval : ClassModel → ClassModel;
  _get_lstm_features : TagModel → Sens → list nat → CrfFeats * Info;
  forward : TagModel → CrfFeats → list (list nat) → list Q * list (list nat);
  neg_log_likelihood :
    TagModel → CrfFeats → list (list nat) → list (list nat) → Q;
  model_tag_call :
    TagModel → list (list nat) → list nat → list (list (list Q)) * Info;
  model_class_call : ClassModel → Info → list (list Q);
  BCELoss : list (list Q) → list (list Q) → Q;
  make_optimizer : string → TagModel → option ClassModel → Optim;
  backward_step :
    Optim → TagModel → option ClassModel → minibatch → Sens →
    TagModel * option ClassModel * Optim;
  np_seed : nat → Rng;
  np_shuffle : Rng → list nat → list nat * Rng;
}.

Section main.
Context `{Imports}.

(** The state outside the script's variables: numpy's global generator
    and the trace of the events so far. *)
Record world : Type := { np_random : Rng; trace : list event }.

Definition emit (e : event) : M world unit :=
  modify (λ w, {| np_random := np_random w; trace := trace w ++ [e] |}).

(** The names bound by lines 165-196, all in the branch
    [if not opt.testing]. *)
Record dataset : Type := {
  tag_to_idx : gmap string nat; idx_to_tag : gmap nat string;
  class_to_idx : gmap string nat; idx_to_class : gmap nat string;
  word_to_idx : gmap string nat; idx_to_word : gmap nat string;
  ext_sen_emb : SenEmb; ext_sen_size : nat; sen2idx : Sen2idx;
  train_feats : list Feat; train_tags : Tags; train_class : Classes;
  valid_feats : list Feat; valid_tags : Tags; valid_class : Classes;
  test_feats : list Feat; test_tags : Tags; test_class : Classes;
  train_sen_feats : SenFeats; valid_sen_feats : SenFeats;
  test_sen_feats : SenFeats;
}.

(** Lines 165-196 *)
Definition load_data (a : args) (opt : options) : M world dataset :=
  let dataroot := a_dataroot a in
  let tag_vocab_dir := (dataroot ++ "/vocab.slot")%string in
  let class_vocab_dir := (dataroot ++ "/vocab.intent")%string in
  let train_data_dir := (dataroot ++ "/train")%string in
  let valid_data_dir := (dataroot ++ "/valid")%string in
  let test_data_dir := (dataroot ++ "/test")%string in
  emit (ReadData tag_vocab_dir) ;;
  let (tag_to_idx, idx_to_tag) := read_vocab_file tag_vocab_dir in
  emit (ReadData class_vocab_dir) ;;
  let (class_to_idx, idx_to_class) := read_vocab_file class_vocab_dir in
  emit (ReadData train_data_dir) ;;
  let (word_to_idx, idx_to_word) :=
    read_vocab_from_data_file train_data_dir in
  emit (ReadData (read_input_sen2vec opt)) ;;
  let ext_sen_emb := read_sen2vec_inText (read_input_sen2vec opt) in
  let ext_sen_size := len_sen_emb ext_sen_emb in
  emit (ReadData (a_read_sen2idx a)) ;;
  let sen2idx := read_sen_bank (a_read_sen2idx a) in
  let read dir keep_order :=
    read_seqtag_data_with_class dir word_to_idx tag_to_idx class_to_idx
      (multiClass opt) keep_order in
  emit (ReadData train_data_dir) ;;
  let '(train_feats, train_tags, train_class) :=
    read train_data_dir false in
  emit (ReadData valid_data_dir) ;;
  let '(valid_feats, valid_tags, valid_class) :=
    read valid_data_dir (testing opt) in
  emit (ReadData test_data_dir) ;;
  let '(test_feats, test_tags, test_class) :=
    read test_data_dir (testing opt) in
  emit (ReadData train_data_dir) ;;
  emit (ReadData valid_data_dir) ;;
  emit (ReadData test_data_dir) ;;
  ret {| tag_to_idx := tag_to_idx; idx_to_tag := idx_to_tag;
         class_to_idx := class_to_idx; idx_to_class := idx_to_class;
         word_to_idx := word_to_idx; idx_to_word := idx_to_word;
         ext_sen_emb := ext_sen_emb; ext_sen_size := ext_sen_size;
         sen2idx := sen2idx;
         train_feats := train_feats; train_tags := train_tags;
         train_class := train_class;
         valid_feats := valid_feats; valid_tags := valid_tags;
         valid_class := valid_class;
         test_feats := test_feats; test_tags := test_tags;
         test_class := test_class;
         train_sen_feats := read_sen_feats train_data_dir sen2idx;
         valid_sen_feats := read_sen_feats valid_data_dir sen2idx;
         test_sen_feats := read_sen_feats test_data_dir sen2idx |}.

(** Lines 199-204: [model_tag] is assigned in this branch only. *)
Definition construct_model_tag (opt : options) (data : option dataset) :
    res (option TagModel) :=
  if bool_decide (task_st opt = "slot_tagger_with_crf_sen_level") then
    let? ext_sen_size := Py.global "ext_sen_size" (ext_sen_size <$> data) in
    let? tag_to_idx := Py.global "tag_to_idx" (tag_to_idx <$> data) in
    OK (Some (LSTMTagger_CRF_sen_level opt ext_sen_size (size tag_to_idx)))
  else OK None.

(** Lines 208-234: four branches that differ in the constructor (and in
    [encoder_info_filter], which is part of [model_class_call]). *)
Definition construct_model_class (opt : options) (data : option dataset) :
    res (option ClassModel) :=
  match task_sc opt with
  | Some kind =>
      if bool_decide (kind ∈ ["2tails"; "maxPooling"; "hiddenCNN";
                               "hiddenAttention"]) then
        let? class_to_idx := Py.global "class_to_idx" (class_to_idx <$> data) in
        OK (Some (sntClassifier kind opt (size class_to_idx)))
      else OK None
  | None => OK None
  end.

(** Lines 256-260 *)
Definition class_loss_function (opt : options) :
    list (list Q) → class_tensor → res Q :=
  λ class_scores classes,
    if multiClass opt then
      match classes with
      | ClassMultiHot t => OK (BCELoss class_scores t)
      | ClassIds _ => Raise TypeError
      end
    else
      match classes with
      | ClassIds t => Loss.nll_sum None class_scores t
      | ClassMultiHot _ => Raise TypeError
      end.

(** [if opt.task_sc: model_class = g(model_class)] *)
Definition on_model_class (opt : options) (g : ClassModel → ClassModel)
    (model_class : option ClassModel) : res (option ClassModel) :=
  if Py.bool_of (task_sc opt) then
    let? mc := Py.global "model_class" model_class in OK (Some (g mc))
  else OK model_class.

(** Lines 263-275: [optimizer] is bound for four names only. *)
Definition construct_optimizer (a : args) (opt : options)
    (model_tag : TagModel) (model_class : option ClassModel) :
    res (option Optim) :=
  let? model_class := on_model_class opt id model_class in
  let name := lower (a_optim a) in
  if bool_decide (name ∈ ["sgd"; "adam"; "adadelta"; "rmsprop"]) then
    OK (Some (make_optimizer name model_tag model_class))
  else OK None.

(** The variables the training block (lines 403-514) reads and
    updates; [None] is an unbound name. *)
Record train_state : Type := {
  model_tag : TagModel;
  model_class : option ClassModel;
  optimizer : option Optim;
  train_data_index : list nat;
  best_f1 : Q;
  best_result : option (nat * Eval.result * Eval.result);
}.

(** [for x in l: acc = body x acc] *)
Fixpoint for_fold {S A B} (l : list A) (body : A → B → M S B) (b : B) :
    M S B :=
  match l with
  | [] => ret b
  | x :: l' => let* b' := body x b in for_fold l' body b'
  end.

(** Line 412: [np.random.shuffle(train_data_index)] *)
Definition shuffle (index : list nat) : M world (list nat) :=
  λ w, let (index', rng') := np_shuffle (np_random w) index in
       (OK index', {| np_random := rng'; trace := trace w ++ [Shuffle] |}).

(** Lines 427-436: the tag loss of a training minibatch. *)
Definition train_tag_loss (opt : options) (d : dataset)
    (tag_loss_function : list (list Q) → list nat → res Q)
    (m : TagModel) (mb : minibatch) (input_sens : Sens) : res (Q * Info) :=
  let lens := mb_lens mb in
  if crf opt then
    let? masks := Eval.masks_of lens in
    let (crf_feats, encoder_info) := _get_lstm_features m input_sens lens in
    OK (neg_log_likelihood m crf_feats masks (mb_tags mb), encoder_info)
  else
    let (tag_scores, encoder_info) := model_tag_call m (mb_inputs mb) lens in
    let? rows := Loss.view2 (size (tag_to_idx d)) tag_scores in
    let? tag_loss := tag_loss_function rows (concat (mb_tags mb)) in
    OK (tag_loss, encoder_info).

(** Lines 438-445: the entry appended to [losses]. *)
Definition train_loss_entry (opt : options) (mc : option ClassModel)
    (mb : minibatch) (tag_loss : Q) (encoder_info : Info) : res (Q * Q) :=
  let lens := mb_lens mb in
  if Py.bool_of (task_sc opt) then
    let? mc := Py.global "model_class" mc in
    let class_scores := model_class_call mc encoder_info in
    let? class_loss :=
      class_loss_function opt class_scores (mb_classes mb) in
    let? l1 := Py.truediv tag_loss (Py.nat_Q (Py.sum lens)) in
    let? l2 := Py.truediv class_loss (Py.nat_Q (length lens)) in
    OK (l1, l2)
  else
    let? l1 := Py.truediv tag_loss (Py.nat_Q (Py.sum lens)) in
    OK (l1, 0%Q).

(** Lines 421-452: one training minibatch. *)
Definition train_batch (opt : options) (d : dataset)
    (tag_loss_function : list (list Q) → list nat → res Q)
    (j : nat) (acc : train_state * list (Q * Q)) :
    M world (train_state * list (Q * Q)) :=
  let (st, losses) := acc in
  let index := train_data_index st in
  let mb := get_minibatch_with_class (train_feats d) (train_tags d)
              (train_class d) index j (batchSize opt) (multiClass opt)
              false in
  let* _ := lift (match mb_line_nums mb with
                  | Some _ => Raise ValueError
                  | None => OK tt
                  end) in
  let input_sens :=
    get_sen_minibatch (train_sen_feats d) index j (batchSize opt) in
  let* (tag_loss, encoder_info) :=
    lift (train_tag_loss opt d tag_loss_function (model_tag st) mb
            input_sens) in
  let* entry :=
    lift (train_loss_entry opt (model_class st) mb tag_loss encoder_info) in
  let* optim := lift (Py.global "optimizer" (optimizer st)) in
  let '(m, mc, optim') :=
    backward_step optim (model_tag st) (model_class st) mb input_sens in
  emit (OptimizerStep j) ;;
  ret ({| model_tag := m; model_class := mc; optimizer := Some optim';
          train_data_index := index; best_f1 := best_f1 st;
          best_result := best_result st |},
       losses ++ [entry]).

(** A call [decode(sen_feats, feats, tags, class, output_path)] from
    the training block: what was written is kept even when the call
    raises. *)
Definition call_decode (opt : options) (d : dataset)
    (tag_loss_function : list (list Q) → list nat → res Q)
    (st : train_state) (sen_feats : SenFeats) (data_feats : list Feat)
    (data_tags : Tags) (data_class : Classes) (output_path : string) :
    M world Eval.result :=
  λ w,
    let m := model_tag st in
    let (r, s) :=
      Eval.decode opt (idx_to_tag d) (idx_to_word d) (idx_to_class d)
        (tag_to_idx d) (Some (train_data_index st)) tag_loss_function
        (class_loss_function opt) get_chunks get_minibatch_with_class
        get_sen_minibatch (_get_lstm_features m) (forward m)
        (neg_log_likelihood m) (model_tag_call m)
        (model_class_call <$> model_class st)
        sen_feats data_feats data_tags data_class Eval.init in
    (r, {| np_random := np_random w;
           trace := trace w ++ [WriteOutput output_path (Eval.f s)] |}).

(** Lines 487-490 *)
Definition val_f1_score (opt : options) (val : Eval.result) : Q :=
  if Py.bool_of (task_sc opt) then
    (st_weight opt * Eval.f1 val + (1 - st_weight opt) * Eval.cf val)%Q
  else Eval.f1 val.

(** Lines 491-503 *)
Definition checkpoint (opt : options) (exp_path : string) (i : nat)
    (val te : Eval.result) (st : train_state) : M world train_state :=
  let score := val_f1_score opt val in
  if decide (best_f1 st < score)%Q then
    emit (SaveModel (path_join exp_path (save_model opt ++ ".tag"))) ;;
    (if Py.bool_of (task_sc opt) then
       let* _ := lift (Py.global "model_class" (model_class st)) in
       emit (SaveModel (path_join exp_path (save_model opt ++ ".class")))
     else ret tt) ;;
    emit (Log (LogNewBest i val te)) ;;
    ret {| model_tag := model_tag st; model_class := model_class st;
           optimizer := optimizer st;
           train_data_index := train_data_index st;
           best_f1 := score; best_result := Some (i, val, te) |}
  else ret st.

(** [loss[0], loss[1]] on what [np.mean] returned. *)
Definition subscript_mean (m : option (Q * Q)) : res (Q * Q) :=
  match m with
  | Some l => OK l
  | None => Raise IndexError
  end.

(** Lines 409-485: the training and the two evaluation passes of
    epoch [i]. *)
Definition train_and_evaluate (opt : options) (exp_path : string)
    (d : dataset) (tag_loss_function : list (list Q) → list nat → res Q)
    (i : nat) (st : train_state) :
    M world (train_state * Eval.result * Eval.result) :=
  let* index := shuffle (train_data_index st) in
  let* mc := lift (on_model_class opt class_train (model_class st)) in
  let st := {| model_tag := tag_train (model_tag st);
               model_class := mc;
               optimizer := optimizer st; train_data_index := index;
               best_f1 := best_f1 st; best_result := best_result st |} in
  let nsentences := length index in
  let* _ := lift (if batchSize opt =? 0 then Raise ZeroDivisionError
                  else OK tt) in
  let* offsets := lift (Py.range0 nsentences (batchSize opt)) in
  let* (st, losses) :=
    for_fold offsets (train_batch opt d tag_loss_function) (st, []) in
  let* mean_loss := lift (subscript_mean (Eval.np_mean losses)) in
  emit (Log (LogTraining i mean_loss)) ;;
  let* mc := lift (on_model_class opt class_eval (model_class st)) in
  let st := {| model_tag := tag_eval (model_tag st);
               model_class := mc;
               optimizer := optimizer st;
               train_data_index := train_data_index st;
               best_f1 := best_f1 st; best_result := best_result st |} in
  let* val :=
    call_decode opt d tag_loss_function st (valid_sen_feats d)
      (valid_feats d) (valid_tags d) (valid_class d)
      (path_join exp_path ("valid.iter" ++ Py.str i)) in
  let* _ := lift (subscript_mean (Eval.mean_losses val)) in
  emit (Log (LogValidation i val)) ;;
  let* te :=
    call_decode opt d tag_loss_function st (test_sen_feats d)
      (test_feats d) (test_tags d) (test_class d)
      (path_join exp_path ("test.iter" ++ Py.str i)) in
  let* _ := lift (subscript_mean (Eval.mean_losses te)) in
  emit (Log (LogEvaluation i te)) ;;
  ret (st, val, te).

(** Lines 409-503: epoch [i]. *)
Definition epoch (opt : options) (exp_path : string) (d : dataset)
    (tag_loss_function : list (list Q) → list nat → res Q)
    (i : nat) (st : train_state) : M world train_state :=
  let* (st, val, te) :=
    train_and_evaluate opt exp_path d tag_loss_function i st in
  checkpoint opt exp_path i val te st.

(** Lines 403-514: the training block. *)
Definition training (opt : options) (exp_path : string) (d : dataset)
    (tag_loss_function : list (list Q) → list nat → res Q)
    (m : TagModel) (mc : option ClassModel) (optim : option Optim) :
    M world train_state :=
  let st := {| model_tag := m; model_class := mc; optimizer := optim;
               train_data_index := seq 0 (len_sen_feats (train_sen_feats d));
               best_f1 := (-1)%Q; best_result := None |} in
  let* st :=
    for_fold (seq 0 (max_epoch opt))
      (epoch opt exp_path d tag_loss_function) st in
  let* (i, val, te) := lift (match best_result st with
                              | Some best => OK best
                              | None => Raise KeyError
                              end) in
  emit (Log (LogBestResult i val te)) ;;
  ret st.

(** Lines 241-250: the initialisation of a training run. *)
Definition initialise (opt : options) (data : option dataset)
    (m : TagModel) (mc : option ClassModel) :
    res (TagModel * option ClassModel) :=
  let m := tag_init_weights m in
  let? mc := on_model_class opt class_init_weights mc in
  if negb (String.eqb (read_input_sen2vec opt) "") then
    let? ext_sen_size := Py.global "ext_sen_size" (ext_sen_size <$> data) in
    let? ext_sen_emb := Py.global "ext_sen_emb" (ext_sen_emb <$> data) in
    OK (set_sen_embeddings m ext_sen_emb ext_sen_size, mc)
  else OK (m, mc).

(** The script.  Lines 93-160 (the experiment directory, the log, the
    seeds) touch no name that a later branch leaves unbound; the choice
    of the device (lines 130-143) is not modelled. *)
Definition main (a : args) : M world unit :=
  (* lines 69-91 *)
  let* opt := lift (configure a) in
  (* lines 93-110 *)
  let* exp_path :=
    lift (if testing opt then
            match out_path opt with
            | Some path => OK path
            | None => Raise TypeError
            end
          else OK (exp_path_of opt)) in
  emit (EnsureDir exp_path) ;;
  (* lines 112-128 *)
  emit (OpenLog (exp_path ++ (if testing opt then "/log_test.txt"
                              else "/log_train.txt"))%string) ;;
  (* lines 145-152 *)
  modify (λ w, {| np_random := np_seed (a_random_seed a);
                  trace := trace w |}) ;;
  (* lines 162-196 *)
  let* data :=
    if negb (testing opt) then
      let* d := load_data a opt in ret (Some d)
    else ret None in
  (* lines 198-234 *)
  let* model_tag := lift (construct_model_tag opt data) in
  let* model_class := lift (construct_model_class opt data) in
  (* line 236 *)
  let* model_tag := lift (Py.global "model_tag" model_tag) in
  (* lines 237-238 *)
  let* model_class := lift (on_model_class opt id model_class) in
  (* lines 241-250 *)
  let* (model_tag, model_class) :=
    lift (if negb (testing opt) then
            initialise opt data model_tag model_class
          else OK (model_tag, model_class)) in
  (* lines 252-260 *)
  let* tag_to_idx := lift (Py.global "tag_to_idx" (tag_to_idx <$> data)) in
  let* weight_mask := lift (Loss.weight_mask tag_to_idx) in
  let tag_loss_function := Loss.tag_loss_function weight_mask in
  (* lines 262-275 *)
  let* optimizer :=
    lift (construct_optimizer a opt model_tag model_class) in
  (* lines 402-514 *)
  if negb (testing opt) then
    let* d := lift (Py.global "train_sen_feats" data) in
    let* _ := training opt exp_path d tag_loss_function model_tag
                model_class optimizer in
    ret tt
  else ret tt.

End main.
End Script.

(** ** Specifications used by the statements below *)

Module Spec.

(** The sum that [tag_loss_function] computes when the entries whose
    target is the pad tag are left out: [- row[t]] for every row whose
    target [t] is not [pad]. *)
Fixpoint nonpad_nll (pad : nat) (input : list (list Q)) (target : list nat) : Q :=
  match input, target with
  | row :: input', t :: target' =>
      ((if decide (t = pad) then 0 else - default 0 (row !! t))
       + nonpad_nll pad input' target')%Q
  | _, _ => 0%Q
  end.

(** A trace in which no file of the dataset has been read. *)
Definition no_data_read (tr : list Script.event) : Prop :=
  ∀ path, Script.ReadData path ∉ tr.

(** A trace without training and without evaluation: no shuffle, no
    optimizer step, no output file, no saved model. *)
Definition no_training_or_evaluation (tr : list Script.event) : Prop :=
  ∀ e, e ∈ tr →
    match e with
    | Script.Shuffle | Script.OptimizerStep _ | Script.WriteOutput _ _
    | Script.SaveModel _ | Script.Log _ => False
    | _ => True
    end.

(** The events of a trace that save a model. *)
Definition saves (tr : list Script.event) : list string :=
  omap (λ e, match e with Script.SaveModel path => Some path | _ => None end) tr.

(** The files a checkpoint writes: the tagger, and the classifier when
    the intent task is on. *)
Definition checkpoint_files (opt : options) (exp_path : string) : list string :=
  Script.path_join exp_path (save_model opt ++ ".tag")
  :: (if Py.bool_of (task_sc opt)
      then [Script.path_join exp_path (save_model opt ++ ".class")]
      else []).

(** Replaying the validation results that a run logged, epoch after
    epoch, against the best score so far: the best score at the end, and
    the files of the checkpoints taken, one checkpoint for every logged
    score that is strictly above the best score before it. *)
Fixpoint replay (opt : options) (exp_path : string) (best : Q)
    (tr : list Script.event) : Q * list string :=
  match tr with
  | [] => (best, [])
  | Script.Log (Script.LogValidation _ val) :: tr' =>
      let score := Script.val_f1_score opt val in
      if decide (best < score)%Q then
        let (best', files) := replay opt exp_path score tr' in
        (best', checkpoint_files opt exp_path ++ files)
      else replay opt exp_path best tr'
  | _ :: tr' => replay opt exp_path best tr'
  end.

(** Frame reasoning: a computation that leaves an observation of the state
    alone, whatever its outcome. *)
Definition preserves {S A X} (c : S → X) (m : M S A) : Prop :=
  ∀ s, c (m s).2 = c s.

(** The files of the dataset, in the order in which lines 165-196 read
    them. *)
Definition load_events (a : Script.args) (opt : options) : list Script.event :=
  let dataroot := Script.a_dataroot a in
  Script.ReadData <$>
    [dataroot ++ "/vocab.slot"; dataroot ++ "/vocab.intent";
     dataroot ++ "/train"; read_input_sen2vec opt; Script.a_read_sen2idx a;
     dataroot ++ "/train"; dataroot ++ "/valid"; dataroot ++ "/test";
     dataroot ++ "/train"; dataroot ++ "/valid"; dataroot ++ "/test"]%string.

(** The events before the models are constructed. *)
Definition setup_events (a : Script.args) (opt : options) (exp_path : string) :
    list Script.event :=
  [Script.EnsureDir exp_path;
   Script.OpenLog (exp_path ++ (if testing opt then "/log_test.txt"
                                else "/log_train.txt"))%string]
  ++ (if testing opt then [] else load_events a opt).

(** A testing run stops at the first name of the loading branch that the
    construction of the models reads, or at [model_tag]. *)
Definition testing_error (opt : options) : exn :=
  NameError (if crf opt then "ext_sen_size"
             else if Py.bool_of (task_sc opt) then "class_to_idx"
             else "model_tag").

(** The events of the training and of the evaluation passes. *)
Definition training_event (e : Script.event) : Prop :=
  match e with
  | Script.OptimizerStep _ | Script.WriteOutput _ _ | Script.Log _ => True
  | _ => False
  end.

(** Every event but a logged validation result. *)
Definition not_validation (e : Script.event) : Prop :=
  match e with
  | Script.Log (Script.LogValidation _ _) => False
  | _ => True
  end.

Section world.
Context `{Script.Imports}.

(** [w'] is [w] after some events that all satisfy [P], the generator
    untouched. *)
Definition extends (P : Script.event → Prop) (w w' : Script.world) : Prop :=
  Script.np_random w' = Script.np_random w
  ∧ ∃ evs, Script.trace w' = Script.trace w ++ evs ∧ Forall P evs.

Definition emits_only {A} (P : Script.event → Prop) (m : M Script.world A) :
    Prop :=
  ∀ w, extends P w (m w).2.

End world.

End Spec.

(** ** A small instance: the values used to run the definitions

    Three tags, three intents, a corpus of two utterances, and stand-ins
    for the models that return fixed scores. *)

Module Sample.

(** Modelled from the spec: [acc.get_chunks] is not among the sources.
    Section 4.5 of the specification: scan the tags left to right; a
    chunk of label X opens on a tag introducing X ([B-X], or [I-X] when
    no chunk of X is open) and closes at the position before the first
    tag that is not [I-X]; the sequence is bracketed by one ['O'] on each
    side and positions are those of the tokens. *)
Definition parse_tag (t : string) : option (bool * string) :=
  let x := String.substring 2 (String.length t - 2) t in
  if String.prefix "B-" t then Some (true, x)
  else if String.prefix "I-" t then Some (false, x)
  else None.

Definition close (cur : option (string * nat)) (i : nat) :
    list (string * nat * nat) :=
  match cur with
  | Some (x, start) => [(x, start - 1, i - 2)]
  | None => []
  end.

Fixpoint scan (i : nat) (cur : option (string * nat)) (tags : list string) :
    list (string * nat * nat) :=
  match tags with
  | [] => close cur i
  | t :: tags' =>
      match parse_tag t, cur with
      | Some (false, x), Some (y, start) =>
          if String.eqb x y then scan (S i) cur tags'
          else close cur i ++ scan (S i) (Some (x, i)) tags'
      | Some (_, x), _ => close cur i ++ scan (S i) (Some (x, i)) tags'
      | None, _ => close cur i ++ scan (S i) None tags'
      end
  end.

Definition get_chunks (tags : list string) : list (string * nat * nat) :=
  scan 0 None tags.

Definition tag_to_idx : gmap string nat :=
  list_to_map [("<pad>", 0); ("O", 1); ("B-obj", 2); ("I-obj", 3)].
Definition idx_to_tag : gmap nat string :=
  list_to_map [(0, "<pad>"); (1, "O"); (2, "B-obj"); (3, "I-obj")].
Definition class_to_idx : gmap string nat :=
  list_to_map [("A", 0); ("B", 1); ("C", 2)].
Definition idx_to_class : gmap nat string :=
  list_to_map [(0, "A"); (1, "B"); (2, "C")].
Definition word_to_idx : gmap string nat :=
  list_to_map [("<pad>", 0); ("book", 1); ("a", 2); ("flight", 3)].
Definition idx_to_word : gmap nat string :=
  list_to_map [(0, "<pad>"); (1, "book"); (2, "a"); (3, "flight")].

(** The corpus: word ids, gold tag ids and gold classes per utterance. *)
Definition feats : list (list nat) := [[1; 2; 3]; [3; 2]].
Definition tags : list (list nat) := [[1; 1; 2]; [2; 1]].
Definition classes (multi : bool) : list raw_class :=
  if multi then [RawSeq [PInt 0; PInt 1]; RawSeq [PInt 1]]
  else [RawInt 1; RawSeq [PStr "A"; PStr "B"]].

Definition pad_to {A} (n : nat) (x : A) (l : list A) : list A :=
  l ++ replicate (n - length l) x.

Definition multi_hot (r : raw_class) : list Q :=
  (λ i, match r with
        | RawSeq l => if decide (PInt i ∈ l) then 1 else 0
        | RawInt _ => 0
        end)%Q <$> seq 0 3.

Definition first_class (r : raw_class) : nat :=
  match r with
  | RawInt n => n
  | _ => 0
  end.

Definition get_minibatch_with_class (data_feats : list (list nat))
    (data_tags : list (list nat)) (data_class : list raw_class)
    (index : list nat) (j size : nat) (multi keep_order : bool) : minibatch :=
  let batch := Py.slice index j size in
  let rows (l : list (list nat)) := (λ i, default [] (l !! i)) <$> batch in
  let lens := length <$> rows data_feats in
  let max_len := foldl Nat.max 0 lens in
  let raw_classes := (λ i, default (RawInt 0) (data_class !! i)) <$> batch in
  {| mb_inputs := pad_to max_len 0 <$> rows data_feats;
     mb_tags := pad_to max_len 0 <$> rows data_tags;
     mb_raw_tags := (λ row : list nat, PInt <$> row) <$> rows data_tags;
     mb_classes := if multi then ClassMultiHot (multi_hot <$> raw_classes)
                   else ClassIds (first_class <$> raw_classes);
     mb_raw_classes := raw_classes;
     mb_lens := lens;
     mb_line_nums := if keep_order then Some batch else None |}.

(** The stand-in tagger predicts [O O B-obj O ...] for every utterance and
    the stand-in classifier scores the classes [0.1, 0.8, 0.6]. *)
Definition tag_path (lens : list nat) : list (list nat) :=
  (λ _, take (foldl Nat.max 0 lens) [1; 1; 2; 1; 1; 1; 1; 1]) <$> lens.

Definition log_probs (t : nat) : list Q :=
  (λ i, if decide (i = t) then - (1 # 4) else - 2)%Q <$> seq 0 4.

Definition get_sen_minibatch (sen_feats index : list nat) (j size : nat) :
    list nat :=
  (λ i, default 0 (sen_feats !! i)) <$> Py.slice index j size.

Definition model_tag_call (m : nat) (inputs : list (list nat))
    (lens : list nat) : list (list (list Q)) * nat :=
  ((λ row : list nat, log_probs <$> row) <$> tag_path lens, length lens).

Definition model_class_call (m n : nat) : list (list Q) :=
  replicate n [1 # 10; 8 # 10; 6 # 10]%Q.

Definition backward_step (optim m : nat) (mc : option nat) (mb : minibatch)
    (input_sens : list nat) : nat * option nat * nat :=
  (S m, S <$> mc, S optim).

Definition np_shuffle (rng : nat) (index : list nat) : list nat * nat :=
  (reverse index, S rng).

#[export] Instance imports : Script.Imports := {|
  Script.chunk := string * nat * nat;
  Script.Feat := list nat;
  Script.Tags := list (list nat);
  Script.Classes := list raw_class;
  Script.SenFeats := list nat;
  Script.Sens := list nat;
  Script.CrfFeats := list nat;
  Script.Info := nat;
  Script.TagModel := nat;
  Script.ClassModel := nat;
  Script.Optim := nat;
  Script.SenEmb := list nat;
  Script.Sen2idx := unit;
  Script.Rng := nat;
  Script.exp_path_of := λ _, "exp/run";
  Script.read_vocab_file := λ path,
    if String.eqb path "data/vocab.slot" then (tag_to_idx, idx_to_tag)
    else (class_to_idx, idx_to_class);
  Script.read_vocab_from_data_file := λ _, (word_to_idx, idx_to_word);
  Script.read_sen2vec_inText := λ _, [7; 8];
  Script.len_sen_emb := λ l : list nat, length l;
  Script.read_sen_bank := λ _, tt;
  Script.read_seqtag_data_with_class := λ _ _ _ _ multi _,
    (feats, tags, classes multi);
  Script.read_sen_feats := λ _ _, [0; 1];
  Script.len_sen_feats := λ l : list nat, length l;
  Script.get_minibatch_with_class := get_minibatch_with_class;
  Script.get_sen_minibatch := get_sen_minibatch;
  Script.get_chunks := get_chunks;
  Script.LSTMTagger_CRF_sen_level := λ _ _ _, 0;
  Script.sntClassifier := λ _ _ _, 0;
  Script.tag_init_weights := id;
  Script.class_init_weights := id;
  Script.set_sen_embeddings := λ m _ _, m;
  Script.tag_train := id;
  Script.tag_eval := id;
  Script.class_train := id;
  Script.class_eval := id;
  Script._get_lstm_features := λ _ _ lens, (lens, length lens);
  Script.forward := λ _ (lens : list nat) _, ([], tag_path lens);
  Script.neg_log_likelihood := λ _ _ _ _, 7%Q;
  Script.model_tag_call := model_tag_call;
  Script.model_class_call := model_class_call;
  Script.BCELoss := λ _ _, 3%Q;
  Script.make_optimizer := λ _ _ _, 0;
  Script.backward_step := backward_step;
  Script.np_seed := id;
  Script.np_shuffle := np_shuffle;
|}.

Definition args (task_st task_sc sc_type : string) (testing : bool)
    (paths : option string) : Script.args :=
  {| Script.a_task_st := task_st;
     Script.a_task_sc := task_sc;
     Script.a_sc_type := sc_type;
     Script.a_st_weight := 1 # 2;
     Script.a_dataroot := "data";
     Script.a_save_model := "model";
     Script.a_testing := testing;
     Script.a_read_model := paths;
     Script.a_out_path := paths;
     Script.a_read_input_sen2vec := "sen2vec.txt";
     Script.a_read_sen2idx := "sentences.txt";
     Script.a_random_seed := 999;
     Script.a_batchSize := 64;
     Script.a_test_batchSize := 0;
     Script.a_max_epoch := 2;
     Script.a_optim := "SGD" |}.

Definition world0 : Script.world := {| Script.np_random := 0; Script.trace := [] |}.

(** The options of a run of the sample. *)
Definition opt (crf multi testing : bool) (task_sc : option string) : options :=
  {| task_st := if crf then "slot_tagger_with_crf_sen_level"
                else "slot_tagger_sen_level";
     task_sc := task_sc;
     sc_type := if multi then "multi_cls_BCE" else "single_cls_CE";
     st_weight := 1 # 2;
     testing := testing;
     read_model := if testing then Some "model" else None;
     out_path := if testing then Some "out" else None;
     read_input_sen2vec := "sen2vec.txt";
     batchSize := 64;
     test_batchSize := 64;
     max_epoch := 2;
     save_model := "model";
     multiClass := multi;
     crf := crf |}.

(** What lines 165-196 bind when the readers are those of [imports]. *)
Definition dataset (multi : bool) : Script.dataset :=
  {| Script.tag_to_idx := tag_to_idx; Script.idx_to_tag := idx_to_tag;
     Script.class_to_idx := class_to_idx; Script.idx_to_class := idx_to_class;
     Script.word_to_idx := word_to_idx; Script.idx_to_word := idx_to_word;
     Script.ext_sen_emb := [7; 8]; Script.ext_sen_size := 2;
     Script.sen2idx := tt;
     Script.train_feats := feats; Script.train_tags := tags;
     Script.train_class := classes multi;
     Script.valid_feats := feats; Script.valid_tags := tags;
     Script.valid_class := classes multi;
     Script.test_feats := feats; Script.test_tags := tags;
     Script.test_class := classes multi;
     Script.train_sen_feats := [0; 1]; Script.valid_sen_feats := [0; 1];
     Script.test_sen_feats := [0; 1] |}.

(** The only minibatch of an evaluation pass over the corpus. *)
Definition minibatch (multi keep_order : bool) : minibatch :=
  get_minibatch_with_class feats tags (classes multi) [0; 1] 0 64 multi
    keep_order.

(** The weight mask of lines 253-254 for [tag_to_idx]. *)
Definition weight_mask : list Q := [0; 1; 1; 1]%Q.

(** The state of the training block before the first epoch. *)
Definition train_state0 : Script.train_state :=
  {| Script.model_tag := 0; Script.model_class := Some 0;
     Script.optimizer := Some 0; Script.train_data_index := [0; 1];
     Script.best_f1 := (-1)%Q; Script.best_result := None |}.

End Sample.

(** ** More specifications: configurations, scores and events of a run *)

Module Runs.

(** The command lines that the assertions of lines 71-89 let through. *)
Definition accepted (a : Script.args) : Prop :=
  Script.a_testing a = Py.bool_of (Script.a_out_path a)
  ∧ Py.bool_of (Script.a_out_path a) = Py.bool_of (Script.a_read_model a)
  ∧ Script.a_task_st a ∈ ["slot_tagger_sen_level"; "slot_tagger_with_crf_sen_level"]
  ∧ Script.a_task_sc a ∈ ["none"; "2tails"; "maxPooling"; "hiddenCNN";
                           "hiddenAttention"]
  ∧ Script.a_sc_type a ∈ ["single_cls_CE"; "multi_cls_BCE"]
  ∧ (0 < Script.a_st_weight a)%Q ∧ (Script.a_st_weight a <= 1)%Q.

(** Every metric of a result is a percentage. *)
Definition in_range (res : Eval.result) : Prop :=
  (0 <= Eval.p res)%Q ∧ (Eval.p res <= 100)%Q
  ∧ (0 <= Eval.r res)%Q ∧ (Eval.r res <= 100)%Q
  ∧ (0 <= Eval.f1 res)%Q ∧ (Eval.f1 res <= 100)%Q
  ∧ (0 <= Eval.cp res)%Q ∧ (Eval.cp res <= 100)%Q
  ∧ (0 <= Eval.cr res)%Q ∧ (Eval.cr res <= 100)%Q
  ∧ (0 <= Eval.cf res)%Q ∧ (Eval.cf res <= 100)%Q.

(** The validation results that a trace logs, with their epochs. *)
Definition validations (tr : list Script.event) : list (nat * Eval.result) :=
  omap (λ e, match e with
             | Script.Log (Script.LogValidation i val) => Some (i, val)
             | _ => None
             end) tr.

(** The events of the training and of the two evaluation passes of
    epoch [i]. *)
Definition epoch_events (exp_path : string) (i : nat) (offsets : list nat)
    (mean : Q * Q) (lines_val : list string) (val : Eval.result)
    (lines_te : list string) (te : Eval.result) : list Script.event :=
  [Script.Shuffle] ++ (Script.OptimizerStep <$> offsets)
  ++ [Script.Log (Script.LogTraining i mean);
      Script.WriteOutput (Script.path_join exp_path ("valid.iter" ++ Py.str i))
        lines_val;
      Script.Log (Script.LogValidation i val);
      Script.WriteOutput (Script.path_join exp_path ("test.iter" ++ Py.str i))
        lines_te;
      Script.Log (Script.LogEvaluation i te)].

(** The events of a checkpoint. *)
Definition checkpoint_events (opt : options) (exp_path : string) (i : nat)
    (val te : Eval.result) : list Script.event :=
  (Script.SaveModel <$> Spec.checkpoint_files opt exp_path)
  ++ [Script.Log (Script.LogNewBest i val te)].

Section world.
Context `{Script.Imports}.

(** The world after the shuffle that opens an epoch. *)
Definition shuffled (st : Script.train_state) (w : Script.world) : Script.world :=
  {| Script.np_random :=
       (Script.np_shuffle (Script.np_random w) (Script.train_data_index st)).2;
     Script.trace := Script.trace w ++ [Script.Shuffle] |}.

End world.

End Runs.

(** ** The sample instance: an evaluation pass, and a vocabulary
    without a pad tag *)

Module SamplePass.
(** An evaluation pass over the corpus of the sample instance, with its
    stand-in models. *)
Definition pass (opt : options) : M Eval.state Eval.result :=
  (Eval.decode opt Sample.idx_to_tag Sample.idx_to_word Sample.idx_to_class
     Sample.tag_to_idx None (Loss.tag_loss_function Sample.weight_mask)
     (Script.class_loss_function (H:=Sample.imports) opt)
     Sample.get_chunks Sample.get_minibatch_with_class
     Sample.get_sen_minibatch
     (λ (_ : list nat) (lens : list nat), (lens, length lens))
     (λ (lens : list nat) (_ : list (list nat)), ([], Sample.tag_path lens))
     (λ _ _ _, 7%Q)
     (Sample.model_tag_call 0) (Some (Sample.model_class_call 0))
     [0; 1] Sample.feats Sample.tags (Sample.classes (multiClass opt))).

(** The sample instance again, with a slot vocabulary that has no
    ["<pad>"]. *)
Definition unpadded : Script.Imports := {|
  Script.chunk := string * nat * nat;
  Script.Feat := list nat;
  Script.Tags := list (list nat);
  Script.Classes := list raw_class;
  Script.SenFeats := list nat;
  Script.Sens := list nat;
  Script.CrfFeats := list nat;
  Script.Info := nat;
  Script.TagModel := nat;
  Script.ClassModel := nat;
  Script.Optim := nat;
  Script.SenEmb := list nat;
  Script.Sen2idx := unit;
  Script.Rng := nat;
  Script.exp_path_of := λ _, "exp/run";
  Script.read_vocab_file := λ path,
    if String.eqb path "data/vocab.slot"
    then (list_to_map [("O", 0); ("B-obj", 1); ("I-obj", 2)],
          list_to_map [(0, "O"); (1, "B-obj"); (2, "I-obj")])
    else (Sample.class_to_idx, Sample.idx_to_class);
  Script.read_vocab_from_data_file := λ _,
    (Sample.word_to_idx, Sample.idx_to_word);
  Script.read_sen2vec_inText := λ _, [7; 8];
  Script.len_sen_emb := λ l : list nat, length l;
  Script.read_sen_bank := λ _, tt;
  Script.read_seqtag_data_with_class := λ _ _ _ _ multi _,
    (Sample.feats, Sample.tags, Sample.classes multi);
  Script.read_sen_feats := λ _ _, [0; 1];
  Script.len_sen_feats := λ l : list nat, length l;
  Script.get_minibatch_with_class := Sample.get_minibatch_with_class;
  Script.get_sen_minibatch := Sample.get_sen_minibatch;
  Script.get_chunks := Sample.get_chunks;
  Script.LSTMTagger_CRF_sen_level := λ _ _ _, 0;
  Script.sntClassifier := λ _ _ _, 0;
  Script.tag_init_weights := id;
  Script.class_init_weights := id;
  Script.set_sen_embeddings := λ m _ _, m;
  Script.tag_train := id;
  Script.tag_eval := id;
  Script.class_train := id;
  Script.class_eval := id;
  Script._get_lstm_features := λ _ _ lens, (lens, length lens);
  Script.forward := λ _ (lens : list nat) _, ([], Sample.tag_path lens);
  Script.neg_log_likelihood := λ _ _ _ _, 7%Q;
  Script.model_tag_call := Sample.model_tag_call;
  Script.model_class_call := Sample.model_class_call;
  Script.BCELoss := λ _ _, 3%Q;
  Script.make_optimizer := λ _ _ _, 0;
  Script.backward_step := Sample.backward_step;
  Script.np_seed := id;
  Script.np_shuffle := Sample.np_shuffle;
|}.

Definition unpadded_world0 : Script.world (H:=unpadded) :=
  @Script.Build_world unpadded (0 : nat) [].

End SamplePass.

(** * Proofs

    ** Inversion of the monad, and the counting loops *)

Lemma bind_inv {S A B} (m : M S A) (k : A → M S B) s b s' :
  bind m k s = (OK b, s') →
  ∃ a s1, m s = (OK a, s1) ∧ k a s1 = (OK b, s').
Proof.
  unfold bind. destruct (m s) as [[e|a] s1]; [discriminate|]. eauto.
Qed.

Lemma lift_inv {S A} (r : res A) (s : S) a s' :
  lift r s = (OK a, s') → r = OK a ∧ s' = s.
Proof. unfold lift. intros [= -> ->]. done. Qed.

Lemma res_bind_inv {A B} (r : res A) (k : A → res B) b :
  res_bind r k = OK b → ∃ a, r = OK a ∧ k a = OK b.
Proof. destruct r as [e|a]; [discriminate|]. simpl. eauto. Qed.

Lemma filter_length_split {A} (P : A → Prop) `{∀ x, Decision (P x)} (l : list A) :
  length (filter P l) + length (filter (λ x, ¬ P x) l) = length l.
Proof.
  induction l as [|x l IH]; [done|].
  rewrite !filter_cons. destruct (decide (P x)), (decide (¬ P x)); simpl; try lia; done.
Qed.

Section loops.
Context {A : Type} (P : A → Prop) `{∀ x, Decision (P x)}.
Variables hit miss : Eval.state → Eval.state.

Lemma for_each_modify l s :
  ∃ s', for_each l (λ x, if decide (P x) then modify hit else modify miss) s
        = (OK tt, s')
    ∧ (∀ (c : Eval.state → nat) a b,
         (∀ s, c (hit s) = c s + a) → (∀ s, c (miss s) = c s + b) →
         c s' = c s + a * length (filter P l)
                + b * length (filter (λ x, ¬ P x) l))
    ∧ (∀ X (c : Eval.state → X),
         (∀ s, c (hit s) = c s) → (∀ s, c (miss s) = c s) → c s' = c s).
Proof.
  revert s. induction l as [|x l IH]; intros s.
  - exists s. split; [done|]. split; [intros; simpl; lia | done].
  - simpl. unfold bind at 1.
    destruct (decide (P x)) as [Hx|Hx].
    + simpl. destruct (IH (hit s)) as (s' & -> & Hn & Hx').
      exists s'. split; [done|]. split.
      * intros c a b Ha Hb. rewrite (Hn c a b Ha Hb), Ha.
        rewrite !filter_cons. destruct (decide (P x)); [|done].
        destruct (decide (¬ P x)); [done|]. simpl. lia.
      * intros X c Ha Hb. rewrite (Hx' X c Ha Hb). apply Ha.
    + simpl. destruct (IH (miss s)) as (s' & -> & Hn & Hx').
      exists s'. split; [done|]. split.
      * intros c a b Ha Hb. rewrite (Hn c a b Ha Hb), Hb.
        rewrite !filter_cons. destruct (decide (P x)); [done|].
        destruct (decide (¬ P x)); [|done]. simpl. lia.
      * intros X c Ha Hb. rewrite (Hx' X c Ha Hb). apply Hb.
Qed.
End loops.

Section membership.
Context {A : Type} `{EqDecision A}.
Variables hit miss_pred miss_gold : Eval.state → Eval.state.

Lemma count_membership_spec (pred gold : list A) s :
  ∃ s', Eval.count_membership hit miss_pred miss_gold pred gold s = (OK tt, s')
    ∧ (∀ (c : Eval.state → nat) a b d,
         (∀ s, c (hit s) = c s + a) → (∀ s, c (miss_pred s) = c s + b) →
         (∀ s, c (miss_gold s) = c s + d) →
         c s' = c s + a * length (filter (λ x, x ∈ gold) pred)
                + b * length (filter (λ x, x ∉ gold) pred)
                + d * length (filter (λ x, x ∉ pred) gold))
    ∧ (∀ X (c : Eval.state → X),
         (∀ s, c (hit s) = c s) → (∀ s, c (miss_pred s) = c s) →
         (∀ s, c (miss_gold s) = c s) → c s' = c s).
Proof.
  unfold Eval.count_membership.
  destruct (for_each_modify (λ x, x ∈ gold) hit miss_pred pred s)
    as (s1 & E1 & N1 & X1).
  destruct (for_each_modify (λ x, x ∉ pred) miss_gold id gold s1)
    as (s2 & E2 & N2 & X2).
  exists s2. split.
  - unfold bind. rewrite E1. exact E2.
  - split.
    + intros c a b d Ha Hb Hd.
      rewrite (N2 c d 0 Hd) by (intros; unfold id; lia).
      rewrite (N1 c a b Ha Hb). lia.
    + intros X c Ha Hb Hd.
      rewrite (X2 X c Hd) by done. by apply X1.
Qed.
End membership.



Lemma preserves_ret {S A X} (c : S → X) (a : A) : Spec.preserves c (ret a).
Proof. done. Qed.
Lemma preserves_lift {S A X} (c : S → X) (r : res A) : Spec.preserves c (lift r).
Proof. done. Qed.
Lemma preserves_modify {S X} (c : S → X) (g : S → S) :
  (∀ s, c (g s) = c s) → Spec.preserves c (modify g).
Proof. intros Hg s. apply Hg. Qed.
Lemma preserves_bind {S A B X} (c : S → X) (m : M S A) (k : A → M S B) :
  Spec.preserves c m → (∀ a, Spec.preserves c (k a)) → Spec.preserves c (bind m k).
Proof.
  intros Hm Hk s. unfold bind. specialize (Hm s).
  destruct (m s) as [[e|a] s1]; simpl in *; [done|].
  rewrite <- Hm. apply Hk.
Qed.
Lemma preserves_for_each {S A X} (c : S → X) (l : list A) (body : A → M S unit) :
  (∀ x, Spec.preserves c (body x)) → Spec.preserves c (for_each l body).
Proof.
  intros Hb. induction l as [|x l IH]; simpl.
  - apply preserves_ret.
  - apply preserves_bind; [apply Hb | intros _; apply IH].
Qed.
Lemma preserves_run {S A X} (c : S → X) (m : M S A) s r s' :
  Spec.preserves c m → m s = (r, s') → c s' = c s.
Proof. intros Hm E. specialize (Hm s). by rewrite E in Hm. Qed.

Create HintDb frame discriminated.
#[local] Hint Resolve preserves_ret preserves_lift preserves_modify
  preserves_bind preserves_for_each : frame.

Ltac frame :=
  repeat first
    [ apply preserves_ret | apply preserves_lift
    | apply preserves_bind; [|intros ?]
    | apply preserves_for_each; intros ?
    | apply preserves_modify; intros []; reflexivity
    | match goal with
      | |- Spec.preserves _ (if ?b then _ else _) => destruct b
      | |- Spec.preserves _ (match ?x with _ => _ end) => destruct x
      | |- Spec.preserves _ (let (_, _) := ?x in _) => destruct x
      end ].

Section frames.
Context {chunk : Type} `{EqDecision chunk}.
Variable opt : options.
Variables idx_to_tag idx_to_word idx_to_class : gmap nat string.
Variable get_chunks : list string → list chunk.

Lemma count_membership_preserves {A X} `{EqDecision A} (c : Eval.state → X)
    (hit mp mg : Eval.state → Eval.state) (pred gold : list A) :
  (∀ s, c (hit s) = c s) → (∀ s, c (mp s) = c s) → (∀ s, c (mg s) = c s) →
  Spec.preserves c (Eval.count_membership hit mp mg pred gold).
Proof.
  intros Hh Hp Hg. unfold Eval.count_membership.
  apply preserves_bind; [|intros _]; apply preserves_for_each; intros x;
    case_decide; auto with frame.
Qed.


Lemma score_slots_intents pred_seq lab_seq :
  Spec.preserves (λ s, (Eval.TP2 s, Eval.FP2 s, Eval.FN2 s, Eval.f s, Eval.losses s))
    (Eval.score_slots get_chunks pred_seq lab_seq).
Proof.
  unfold Eval.score_slots.
  apply count_membership_preserves; intros []; reflexivity.
Qed.

End frames.


(** ** Precision, recall and F1 *)

Lemma nat_Q_nonneg n : (0 <= Py.nat_Q n)%Q.
Proof. unfold Py.nat_Q, Qle. simpl. lia. Qed.

Lemma nat_Q_pos n : n ≠ 0 → (0 < Py.nat_Q n)%Q.
Proof. intros Hn. unfold Py.nat_Q, Qlt. simpl. lia. Qed.

Lemma truediv_pos x y : (0 < y)%Q → Py.truediv x y = OK (x / y)%Q.
Proof.
  intros Hy. unfold Py.truediv.
  destruct (Qeq_bool y 0) eqn:E; [|done].
  apply Qeq_bool_eq in E. rewrite E in Hy. by apply Qlt_irrefl in Hy.
Qed.

Lemma truediv_inv x y z : Py.truediv x y = OK z → ¬ (y == 0)%Q ∧ z = (x / y)%Q.
Proof.
  unfold Py.truediv. destruct (Qeq_bool y 0) eqn:E; [discriminate|].
  intros [= <-]. split; [|done]. intros Hy. apply Qeq_eq_bool in Hy. congruence.
Qed.

Lemma prf_spec tp fp fn :
  Eval.prf tp fp fn =
    OK (if tp =? 0 then (0, 0, 0)%Q
        else (100 * Py.nat_Q tp / (Py.nat_Q tp + Py.nat_Q fp),
              100 * Py.nat_Q tp / (Py.nat_Q tp + Py.nat_Q fn),
              100 * 2 * Py.nat_Q tp
                / (2 * Py.nat_Q tp + Py.nat_Q fn + Py.nat_Q fp))%Q).
Proof.
  unfold Eval.prf. destruct (tp =? 0) eqn:E; [done|].
  apply Nat.eqb_neq in E. pose proof (nat_Q_pos tp E) as Htp.
  pose proof (nat_Q_nonneg fp) as Hfp. pose proof (nat_Q_nonneg fn) as Hfn.
  rewrite !truediv_pos; [done| | |].
  - apply Qlt_le_trans with (2 * Py.nat_Q tp + 0 + 0)%Q.
    + rewrite !Qplus_0_r. apply (Qmult_lt_0_compat 2); [reflexivity|done].
    + apply Qplus_le_compat; [apply Qplus_le_compat|]; [apply Qle_refl|done|done].
  - apply Qlt_le_trans with (Py.nat_Q tp + 0)%Q; [by rewrite Qplus_0_r|].
    apply Qplus_le_compat; [apply Qle_refl|done].
  - apply Qlt_le_trans with (Py.nat_Q tp + 0)%Q; [by rewrite Qplus_0_r|].
    apply Qplus_le_compat; [apply Qle_refl|done].
Qed.

(** C2 (lines 389-400): the metrics at the end of an evaluation pass.  The
    end of a pass cannot fail.  For the counters of either task, precision
    is [100*TP/(TP+FP)], recall is [100*TP/(TP+FN)] and F1 is
    [100*2*TP/(2*TP+FN+FP)] when [TP] is not 0, and then no divisor is 0;
    the three are exactly 0 when [TP] is 0, whatever [FP] and [FN] are,
    [TP = FP = FN = 0] included: no division takes place. *)
Theorem metrics_of_counters (s : Eval.state) :
  ∃ res : Eval.result,
    Eval.finish s = (OK res, s)
    ∧ Eval.prf (Eval.TP s) (Eval.FP s) (Eval.FN s)
      = OK (Eval.p res, Eval.r res, Eval.f1 res)
    ∧ Eval.prf (Eval.TP2 s) (Eval.FP2 s) (Eval.FN2 s)
      = OK (Eval.cp res, Eval.cr res, Eval.cf res)
    ∧ (∀ tp fp fn : nat,
         ∃ p r f1 : Q,
           Eval.prf tp fp fn = OK (p, r, f1)
           ∧ (tp = 0 → p = 0%Q ∧ r = 0%Q ∧ f1 = 0%Q)
           ∧ (tp ≠ 0 →
              ¬ (Py.nat_Q tp + Py.nat_Q fp == 0)%Q
              ∧ ¬ (Py.nat_Q tp + Py.nat_Q fn == 0)%Q
              ∧ ¬ (2 * Py.nat_Q tp + Py.nat_Q fn + Py.nat_Q fp == 0)%Q
              ∧ p = (100 * Py.nat_Q tp / (Py.nat_Q tp + Py.nat_Q fp))%Q
              ∧ r = (100 * Py.nat_Q tp / (Py.nat_Q tp + Py.nat_Q fn))%Q
              ∧ f1 = (100 * 2 * Py.nat_Q tp
                      / (2 * Py.nat_Q tp + Py.nat_Q fn + Py.nat_Q fp))%Q)).
Proof.
  unfold Eval.finish, bind, gets, lift, ret. simpl.
  destruct (Eval.prf (Eval.TP s) (Eval.FP s) (Eval.FN s)) as [e|[[p r] f1]] eqn:E1.
  { rewrite prf_spec in E1. discriminate. }
  destruct (Eval.prf (Eval.TP2 s) (Eval.FP2 s) (Eval.FN2 s)) as [e|[[cp cr] cf]] eqn:E2.
  { rewrite prf_spec in E2. discriminate. }
  eexists. split; [reflexivity|]. simpl. do 2 (split; [done|]).
  intros tp fp fn. rewrite prf_spec.
  destruct (tp =? 0) eqn:E.
  - apply Nat.eqb_eq in E. do 3 eexists. split; [reflexivity|]. split; [done|]. done.
  - apply Nat.eqb_neq in E. do 3 eexists. split; [reflexivity|]. split; [done|].
    intros _.
    pose proof (nat_Q_pos tp E) as Htp.
    pose proof (nat_Q_nonneg fp) as Hfp. pose proof (nat_Q_nonneg fn) as Hfn.
    repeat split.
    + intros H0. 
      assert (0 < Py.nat_Q tp + Py.nat_Q fp)%Q as H1.
      { apply Qlt_le_trans with (Py.nat_Q tp + 0)%Q; [by rewrite Qplus_0_r|].
        apply Qplus_le_compat; [apply Qle_refl|done]. }
      rewrite H0 in H1. by apply Qlt_irrefl in H1.
    + intros H0. 
      assert (0 < Py.nat_Q tp + Py.nat_Q fn)%Q as H1.
      { apply Qlt_le_trans with (Py.nat_Q tp + 0)%Q; [by rewrite Qplus_0_r|].
        apply Qplus_le_compat; [apply Qle_refl|done]. }
      rewrite H0 in H1. by apply Qlt_irrefl in H1.
    + intros H0.
      assert (0 < 2 * Py.nat_Q tp + Py.nat_Q fn + Py.nat_Q fp)%Q as H1.
      { apply Qlt_le_trans with (2 * Py.nat_Q tp + 0 + 0)%Q.
        - rewrite !Qplus_0_r. apply (Qmult_lt_0_compat 2); [reflexivity|done].
        - apply Qplus_le_compat; [apply Qplus_le_compat|]; [apply Qle_refl|done|done]. }
      rewrite H0 in H1. by apply Qlt_irrefl in H1.
Qed.

(** ** Intent decoding and intent scoring *)

Lemma index_inv {A} (l : list A) i x : Py.index l i = OK x → l !! i = Some x.
Proof. unfold Py.index. destruct (l !! i); intros [=]; by subst. Qed.

Lemma getitem_inv {K} `{Countable K} {V} (d : gmap K V) k v :
  Py.getitem d k = OK v → d !! k = Some v.
Proof. unfold Py.getitem. destruct (d !! k); intros [=]; by subst. Qed.

Lemma map_res_inv {A B} (g : A → res B) l ys :
  map_res g l = OK ys → Forall2 (λ x y, g x = OK y) l ys.
Proof.
  revert ys. induction l as [|x l IH]; simpl; intros ys.
  - intros [= <-]. constructor.
  - intros E. apply res_bind_inv in E as (y & Hy & E).
    apply res_bind_inv in E as (ys' & Hys & [= <-]).
    constructor; auto.
Qed.

Lemma argmax_from_spec (pre row : list Q) (best : nat) (bestv : Q) :
  pre !! best = Some bestv →
  (∀ j y, pre !! j = Some y → (y <= bestv)%Q) →
  (∀ j y, j < best → pre !! j = Some y → (y < bestv)%Q) →
  ∃ x, (pre ++ row) !! Loss.argmax_from best bestv (length pre) row = Some x
     ∧ (∀ j y, (pre ++ row) !! j = Some y → (y <= x)%Q)
     ∧ (∀ j y, j < Loss.argmax_from best bestv (length pre) row →
               (pre ++ row) !! j = Some y → (y < x)%Q).
Proof.
  revert pre best bestv. induction row as [|x row IH]; intros pre best bestv Hb Hle Hlt.
  - simpl. rewrite app_nil_r. eauto.
  - simpl. destruct (decide (bestv < x)%Q) as [Hx|Hx].
    + specialize (IH (pre ++ [x]) (length pre) x).
      rewrite length_app, <- app_assoc in IH. simpl in IH.
      replace (length pre + 1) with (S (length pre)) in IH by lia.
      apply IH.
      * rewrite lookup_app_r by lia. by rewrite Nat.sub_diag.
      * intros j y Hj. apply lookup_app_Some in Hj as [Hj|[Hlen Hj]].
        -- apply Qlt_le_weak. eapply Qle_lt_trans; [by eapply Hle|done].
        -- destruct (j - length pre) as [|k]; simpl in Hj; [|done].
           injection Hj as <-. apply Qle_refl.
      * intros j y Hjlt Hj. rewrite lookup_app_l in Hj by done.
        eapply Qle_lt_trans; [by eapply Hle|done].
    + apply Qnot_lt_le in Hx.
      specialize (IH (pre ++ [x]) best bestv).
      rewrite length_app, <- app_assoc in IH. simpl in IH.
      replace (length pre + 1) with (S (length pre)) in IH by lia.
      apply IH.
      * rewrite lookup_app_l; [done|]. by eapply lookup_lt_Some.
      * intros j y Hj. apply lookup_app_Some in Hj as [Hj|[Hlen Hj]].
        -- by eapply Hle.
        -- destruct (j - length pre) as [|k]; simpl in Hj; [|done].
           by injection Hj as <-.
      * intros j y Hjlt Hj.
        assert (best < length pre) by by eapply lookup_lt_Some.
        rewrite lookup_app_l in Hj by lia. by eapply Hlt.
Qed.

Lemma argmax_spec (row : list Q) (i : nat) :
  Loss.argmax row = OK i →
  ∃ x, row !! i = Some x
     ∧ (∀ j y, row !! j = Some y → (y <= x)%Q)
     ∧ (∀ j y, j < i → row !! j = Some y → (y < x)%Q).
Proof.
  destruct row as [|x row]; [discriminate|]. simpl. intros [= <-].
  apply (argmax_from_spec [x] row 0 x).
  - done.
  - intros [|j] y; simpl; [|done]. intros [= <-]. apply Qle_refl.
  - intros j y Hj. lia.
Qed.

Lemma argmax_total (row : list Q) : row ≠ [] → ∃ i, Loss.argmax row = OK i.
Proof. destruct row; [done|]. simpl. eauto. Qed.

Lemma over_threshold_spec (row : list Q) (i : nat) :
  i ∈ Eval.over_threshold row ↔ ∃ p, row !! i = Some p ∧ (1 # 2 < p)%Q.
Proof.
  unfold Eval.over_threshold. rewrite list_elem_of_fmap. split.
  - intros ([j p] & -> & Hin). apply list_elem_of_filter in Hin as [Hp Hin].
    apply list_elem_of_lookup in Hin as [k Hk].
    rewrite list_lookup_imap in Hk.
    destruct (row !! k) as [q|] eqn:E; [|done]. simpl in Hk. injection Hk as <- <-.
    simpl. eauto.
  - intros (p & Hi & Hp). exists (i, p). split; [done|].
    apply list_elem_of_filter. split; [done|].
    apply list_elem_of_lookup. exists i. rewrite list_lookup_imap, Hi. done.
Qed.

Lemma over_threshold_NoDup (row : list Q) : NoDup (Eval.over_threshold row).
Proof.
  unfold Eval.over_threshold.
  assert (fst <$> imap pair row = seq 0 (length row)) as E.
  { rewrite fmap_imap. change (imap _ row) with (imap (λ (j : nat) (_ : Q), id j) row).
    by rewrite imap_seq_0, list_fmap_id. }
  eapply sublist_NoDup; [apply (NoDup_seq 0 (length row))|].
  rewrite <- E. apply fmap_sublist, sublist_filter.
Qed.

(** C4 (lines 323-326 and 354): intent decoding.  In single-label mode
    every example gets one id, the position of the first greatest score of
    its row.  In multi-label mode the scores are kept as they are, and the
    predicted ids of a row are the positions whose score is above 1/2, each
    of them once: there may be none (a score of exactly 1/2 does not
    count), and there may be several. *)
Theorem intent_decoding (multi : bool) (class_scores : list (list Q))
    (snt_probs : Eval.snt) :
  Eval.snt_probs_of multi class_scores = OK snt_probs →
  if multi then
    snt_probs = Eval.SntProbs class_scores
    ∧ (∀ row i, i ∈ Eval.over_threshold row
                ↔ ∃ p, row !! i = Some p ∧ (1 # 2 < p)%Q)
    ∧ (∀ row, NoDup (Eval.over_threshold row))
    ∧ Eval.over_threshold [1 # 4; 1 # 2]%Q = []
    ∧ Eval.over_threshold [3 # 4; 1 # 4; 9 # 10]%Q = [0; 2]
  else
    ∃ ids, snt_probs = Eval.SntIds ids
      ∧ length ids = length class_scores
      ∧ ∀ idx row, class_scores !! idx = Some row →
          ∃ i x, ids !! idx = Some i ∧ row !! i = Some x
            ∧ (∀ j y, row !! j = Some y → (y <= x)%Q)
            ∧ (∀ j y, j < i → row !! j = Some y → (y < x)%Q).
Proof.
  unfold Eval.snt_probs_of. destruct multi.
  - intros [= <-]. split; [done|]. split; [apply over_threshold_spec|].
    split; [apply over_threshold_NoDup|]. split; reflexivity.
  - intros E. apply res_bind_inv in E as (ids & Hids & [= <-]).
    apply map_res_inv in Hids. exists ids. split; [done|].
    split; [symmetry; by eapply Forall2_length|].
    intros idx row Hrow.
    destruct (Forall2_lookup_l _ _ _ _ _ Hids Hrow) as (i & Hi & Harg).
    apply argmax_spec in Harg as (x & Hx & Hle & Hlt).
    exists i, x. eauto.
Qed.

Lemma names_membership (m : gmap nat string) (ids gids : list nat)
    (names gnames : list string) :
  (∀ i j n, m !! i = Some n → m !! j = Some n → i = j) →
  Forall2 (λ i n, m !! i = Some n) ids names →
  Forall2 (λ i n, m !! i = Some n) gids gnames →
  length (filter (λ n, n ∈ gnames) names) = length (filter (λ i, i ∈ gids) ids)
  ∧ length (filter (λ n, n ∉ gnames) names) = length (filter (λ i, i ∉ gids) ids).
Proof.
  intros Hinj Hids Hg.
  assert (∀ i n, m !! i = Some n → n ∈ gnames ↔ i ∈ gids) as Hiff.
  { intros i n Hi. split.
    - intros Hn. apply list_elem_of_lookup in Hn as [k Hk].
      destruct (Forall2_lookup_r _ _ _ _ _ Hg Hk) as (g & Hgk & Hm).
      rewrite (Hinj i g n Hi Hm). by eapply list_elem_of_lookup_2.
    - intros Hin. apply list_elem_of_lookup in Hin as [k Hk].
      destruct (Forall2_lookup_l _ _ _ _ _ Hg Hk) as (n' & Hn' & Hm).
      assert (n' = n) as -> by congruence. by eapply list_elem_of_lookup_2. }
  induction Hids as [|i n ids names Hi _ IH]; [done|].
  rewrite !filter_cons. specialize (Hiff i n Hi).
  destruct IH as [IH1 IH2].
  destruct (decide (n ∈ gnames)), (decide (i ∈ gids)),
    (decide (n ∉ gnames)), (decide (i ∉ gids)); simpl; try tauto; auto.
Qed.

Lemma gold_ids_inv (m : gmap nat string) (raw : list pyatom) (gold : list string) :
  map_res (λ i, match i with
                | PInt i => Py.getitem m i
                | PStr _ => Raise KeyError
                end) raw = OK gold →
  ∃ gids, raw = PInt <$> gids ∧ Forall2 (λ i n, m !! i = Some n) gids gold.
Proof.
  intros E. apply map_res_inv in E.
  induction E as [|a n raw gold Ha _ (gids & -> & IH)].
  - by exists [].
  - destruct a as [i|]; [|discriminate]. apply getitem_inv in Ha.
    exists (i :: gids). split; [done|]. by constructor.
Qed.

Lemma getitems_inv (m : gmap nat string) (ids : list nat) (names : list string) :
  map_res (Py.getitem m) ids = OK names →
  Forall2 (λ i n, m !! i = Some n) ids names.
Proof.
  intros E. apply map_res_inv in E.
  eapply Forall2_impl; [done|]. intros i n. apply getitem_inv.
Qed.

(** C3, amended (lines 352-378): intent scoring of one example.  In
    multi-label mode [TP2], [FP2] and [FN2] grow by the membership counts
    of the predicted names against the gold names, which are the counts of
    the predicted ids against the gold ids when no two ids share a name.
    In single-label mode the gold set is the singleton of the gold name
    when the raw class is an int, and otherwise the set of the raw classes
    as they are, which may hold several: a prediction that is in the gold
    set adds 1 to [TP2] and nothing else, any other prediction adds 1 to
    [FP2] and 1 to [FN2].  These are the membership counts when the gold
    set has one element. *)
Theorem intent_scoring (opt : options) (idx_to_class : gmap nat string)
    (mb : minibatch) (snt_probs : Eval.snt) (idx : nat) (s s' : Eval.state)
    (out : string * string) :
  Eval.score_intent opt idx_to_class mb (Some snt_probs) idx s = (OK out, s') →
  if multiClass opt then
    ∃ rows row pred_ids gold_ids pred_classes gold_classes,
      snt_probs = Eval.SntProbs rows ∧ rows !! idx = Some row
      ∧ pred_ids = Eval.over_threshold row
      ∧ mb_raw_classes mb !! idx = Some (RawSeq (PInt <$> gold_ids))
      ∧ Forall2 (λ i n, idx_to_class !! i = Some n) pred_ids pred_classes
      ∧ Forall2 (λ i n, idx_to_class !! i = Some n) gold_ids gold_classes
      ∧ Eval.TP2 s' = Eval.TP2 s
                      + length (filter (λ c, c ∈ gold_classes) pred_classes)
      ∧ Eval.FP2 s' = Eval.FP2 s
                      + length (filter (λ c, c ∉ gold_classes) pred_classes)
      ∧ Eval.FN2 s' = Eval.FN2 s
                      + length (filter (λ c, c ∉ pred_classes) gold_classes)
      ∧ ((∀ i j n, idx_to_class !! i = Some n → idx_to_class !! j = Some n →
                   i = j) →
         Eval.TP2 s' = Eval.TP2 s + length (filter (λ i, i ∈ gold_ids) pred_ids)
         ∧ Eval.FP2 s' = Eval.FP2 s + length (filter (λ i, i ∉ gold_ids) pred_ids)
         ∧ Eval.FN2 s' = Eval.FN2 s + length (filter (λ i, i ∉ pred_ids) gold_ids))
  else
    ∃ ids i pred_class gold_classes,
      snt_probs = Eval.SntIds ids ∧ ids !! idx = Some i
      ∧ idx_to_class !! i = Some pred_class
      ∧ match mb_raw_classes mb !! idx with
        | Some (RawInt g) =>
            ∃ name, idx_to_class !! g = Some name ∧ gold_classes = [PStr name]
        | Some (RawSeq l) => gold_classes = remove_dups l
        | None => False
        end
      ∧ (if decide (PStr pred_class ∈ gold_classes)
         then Eval.TP2 s' = Eval.TP2 s + 1 ∧ Eval.FP2 s' = Eval.FP2 s
              ∧ Eval.FN2 s' = Eval.FN2 s
         else Eval.TP2 s' = Eval.TP2 s ∧ Eval.FP2 s' = Eval.FP2 s + 1
              ∧ Eval.FN2 s' = Eval.FN2 s + 1)
      ∧ (length gold_classes = 1 →
         Eval.TP2 s' = Eval.TP2 s
           + length (filter (λ c, c ∈ gold_classes) [PStr pred_class])
         ∧ Eval.FP2 s' = Eval.FP2 s
           + length (filter (λ c, c ∉ gold_classes) [PStr pred_class])
         ∧ Eval.FN2 s' = Eval.FN2 s
           + length (filter (λ c, c ∉ [PStr pred_class]) gold_classes)).
Proof.
  unfold Eval.score_intent. destruct (multiClass opt).
  - unfold Eval.score_intent_multi. intros E.
    apply bind_inv in E as (row & s1 & Hrow & E). apply lift_inv in Hrow as [Hrow ->].
    apply bind_inv in E as (pred & s1 & Hpred & E). apply lift_inv in Hpred as [Hpred ->].
    apply bind_inv in E as (raw & s1 & Hraw & E). apply lift_inv in Hraw as [Hraw ->].
    apply bind_inv in E as (gold & s1 & Hgold & E). apply lift_inv in Hgold as [Hgold ->].
    apply bind_inv in E as ([] & s1 & Hcount & E). injection E as <- <-.
    destruct snt_probs as [rows|]; [|discriminate]. apply index_inv in Hrow.
    apply index_inv in Hraw. destruct raw as [|raw]; [discriminate|].
    apply gold_ids_inv in Hgold as (gids & -> & Hgold).
    apply getitems_inv in Hpred.
    destruct (count_membership_spec Eval.incr_TP2 Eval.incr_FP2 Eval.incr_FN2
                pred gold s) as (s2 & E & Hc & _).
    rewrite E in Hcount. injection Hcount as <-.
    pose proof (Hc Eval.TP2 1 0 0) as HTP.
    pose proof (Hc Eval.FP2 0 1 0) as HFP.
    pose proof (Hc Eval.FN2 0 0 1) as HFN.
    exists rows, row, (Eval.over_threshold row), gids, pred, gold.
    do 6 (split; [done|]).
    rewrite HTP, HFP, HFN by (intros []; simpl; lia).
    split; [lia|]. split; [lia|]. split; [lia|].
    intros Hinj.
    destruct (names_membership _ _ _ _ _ Hinj Hpred Hgold) as [-> ->].
    destruct (names_membership _ _ _ _ _ Hinj Hgold Hpred) as [_ ->]. lia.
  - unfold Eval.score_intent_single. intros E.
    apply bind_inv in E as (i & s1 & Hi & E). apply lift_inv in Hi as [Hi ->].
    apply bind_inv in E as (pc & s1 & Hpc & E). apply lift_inv in Hpc as [Hpc ->].
    apply bind_inv in E as (raw & s1 & Hraw & E). apply lift_inv in Hraw as [Hraw ->].
    apply bind_inv in E as (gold & s1 & Hgold & E). apply lift_inv in Hgold as [Hgold ->].
    apply bind_inv in E as ([] & s1 & Hcount & E).
    apply bind_inv in E as (gs & s2 & Hgs & E). apply lift_inv in Hgs as [Hgs ->].
    injection E as <- <-.
    destruct snt_probs as [|ids]; [discriminate|]. apply index_inv in Hi.
    apply index_inv in Hraw. apply getitem_inv in Hpc.
    exists ids, i, pc, gold. do 3 (split; [done|]).
    rewrite Hraw. split.
    { destruct raw as [g|l].
      - apply res_bind_inv in Hgold as (name & Hname & [= <-]).
        apply getitem_inv in Hname. eauto.
      - by injection Hgold as <-. }
    assert (if decide (PStr pc ∈ gold)
            then Eval.TP2 s1 = Eval.TP2 s + 1 ∧ Eval.FP2 s1 = Eval.FP2 s
                 ∧ Eval.FN2 s1 = Eval.FN2 s
            else Eval.TP2 s1 = Eval.TP2 s ∧ Eval.FP2 s1 = Eval.FP2 s + 1
                 ∧ Eval.FN2 s1 = Eval.FN2 s + 1) as Hcase.
    { destruct (decide (PStr pc ∈ gold)).
      - injection Hcount as <-. by destruct s.
      - unfold bind, modify in Hcount. injection Hcount as <-. by destruct s. }
    split; [done|].
    intros Hlen. destruct gold as [|g [|]]; try discriminate.
    rewrite !filter_cons, !filter_nil.
    destruct (decide (PStr pc ∈ [g])) as [Hin|Hin].
    + apply list_elem_of_singleton in Hin as <-.
      destruct (decide (PStr pc ∉ [PStr pc])) as [Hn|_]; [by destruct Hn; left|].
      simpl. lia.
    + destruct (decide (PStr pc ∉ [g])); [|done].
      destruct (decide (g ∉ [PStr pc])) as [|Hn]; [simpl; lia|].
      destruct Hin. apply dec_stable in Hn.
      apply list_elem_of_singleton in Hn as ->. by left.
Qed.

(** ** The logged losses *)

Lemma weight_mask_inv (tag_to_idx : gmap string nat) (w : list Q) :
  Loss.weight_mask tag_to_idx = OK w →
  ∃ pad, tag_to_idx !! "<pad>" = Some pad ∧ pad < size tag_to_idx
    ∧ w = <[pad := 0%Q]> (replicate (size tag_to_idx) 1%Q).
Proof.
  unfold Loss.weight_mask. intros E.
  apply res_bind_inv in E as (pad & Hpad & E). apply getitem_inv in Hpad.
  rewrite length_replicate in E. case_decide; [|discriminate].
  injection E as <-. eauto.
Qed.

Lemma nll_sum_nonpad (n pad : nat) (input : list (list Q)) (target : list nat) (L : Q) :
  Loss.nll_sum (Some (<[pad := 0%Q]> (replicate n 1%Q))) input target = OK L →
  (L == Spec.nonpad_nll pad input target)%Q.
Proof.
  revert target L. induction input as [|row input IH]; intros [|t target] L; simpl;
    try discriminate.
  - intros [= <-]. reflexivity.
  - intros E. apply res_bind_inv in E as (x & Hx & E).
    apply res_bind_inv in E as (rest & Hrest & [= <-]).
    rewrite (IH _ _ Hrest). apply Qplus_inj_r.
    unfold Loss.nll_term in Hx.
    apply res_bind_inv in Hx as (v & Hv & Hx).
    apply res_bind_inv in Hx as (wt & Hwt & [= <-]).
    apply index_inv in Hv. apply index_inv in Hwt. rewrite Hv. simpl.
    destruct (decide (t = pad)) as [->|Hne].
    + assert (pad < n) as Hlt.
      { apply lookup_lt_Some in Hwt. by rewrite length_insert, length_replicate in Hwt. }
      rewrite list_lookup_insert_eq in Hwt by (by rewrite length_replicate).
      injection Hwt as <-. ring.
    + rewrite list_lookup_insert_ne in Hwt by done.
      apply lookup_replicate in Hwt as [-> _]. ring.
Qed.

Lemma weight_mask_entries (n pad : nat) (i : nat) :
  pad < n → i < n →
  <[pad := 0%Q]> (replicate n 1%Q) !! i = Some (if decide (i = pad) then 0%Q else 1%Q).
Proof.
  intros Hp Hi. destruct (decide (i = pad)) as [->|Hne].
  - apply list_lookup_insert_eq. by rewrite length_replicate.
  - rewrite list_lookup_insert_ne by done. by apply lookup_replicate.
Qed.

Lemma nat_Q_nonzero n : ¬ (Py.nat_Q n == 0)%Q → n ≠ 0.
Proof. intros H ->. by apply H. Qed.

Section losses.
Context `{Script.Imports}.

(** C5, amended (lines 252-260, 327-329, 419-445): the losses logged for
    a batch.  The first entry is the tag loss divided by [sum(lens)], the
    second is the class loss divided by [len(lens)], or 0 without the
    intent task; an evaluation pass logs its entries the same way.  With
    the CRF tagger the tag loss is what the model's [neg_log_likelihood]
    returns on the length masks, and the weight mask plays no part in it.
    Otherwise the tag loss is [tag_loss_function] on the flattened scores:
    its weight mask is 0 at the id of ["<pad>"] and 1 at every other id,
    so that the loss is the sum of the negative log-likelihoods of the
    targets that are not the pad tag. *)
Theorem loss_reporting (opt : options) (d : Script.dataset)
    (tag_loss_function : list (list Q) → list nat → res Q)
    (m : Script.TagModel) (mc : option Script.ClassModel) (mb : minibatch)
    (input_sens : Script.Sens) (tag_loss : Q) (encoder_info : Script.Info)
    (entry : Q * Q) :
  Script.train_tag_loss opt d tag_loss_function m mb input_sens
    = OK (tag_loss, encoder_info) →
  Script.train_loss_entry opt mc mb tag_loss encoder_info = OK entry →
  let lens := mb_lens mb in
  (* the two divisors *)
  entry.1 = (tag_loss / Py.nat_Q (Py.sum lens))%Q ∧ Py.sum lens ≠ 0
  ∧ (if Py.bool_of (task_sc opt) then
       ∃ mc' class_loss,
         mc = Some mc'
         ∧ Script.class_loss_function opt
             (Script.model_class_call mc' encoder_info) (mb_classes mb)
           = OK class_loss
         ∧ entry.2 = (class_loss / Py.nat_Q (length lens))%Q
         ∧ length lens ≠ 0
     else entry.2 = 0%Q)
  (* the tag loss of either path *)
  ∧ (if crf opt then
       ∃ masks, Eval.masks_of lens = OK masks
         ∧ tag_loss = Script.neg_log_likelihood m
                        (Script._get_lstm_features m input_sens lens).1
                        masks (mb_tags mb)
     else
       ∃ rows, Loss.view2 (size (Script.tag_to_idx d))
                 (Script.model_tag_call m (mb_inputs mb) lens).1 = OK rows
         ∧ tag_loss_function rows (concat (mb_tags mb)) = OK tag_loss)
  (* the weight mask of [tag_loss_function] *)
  ∧ (∀ w, Loss.weight_mask (Script.tag_to_idx d) = OK w →
       ∃ pad, Script.tag_to_idx d !! "<pad>" = Some pad
         ∧ length w = size (Script.tag_to_idx d)
         ∧ (∀ i, i < length w →
                 w !! i = Some (if decide (i = pad) then 0%Q else 1%Q))
         ∧ ∀ input target L,
             Loss.tag_loss_function w input target = OK L →
             (L == Spec.nonpad_nll pad input target)%Q)
  (* the entries of an evaluation pass *)
  ∧ (∀ class_loss_function model_class tag_loss' (info : Script.Info) s
       snt_probs s',
       Eval.class_outputs opt class_loss_function model_class mb tag_loss'
         info s = (OK snt_probs, s') →
       ∃ l1 l2,
         Eval.losses s' = Eval.losses s ++ [(l1, l2)]
         ∧ l1 = (tag_loss' / Py.nat_Q (Py.sum lens))%Q
         ∧ (if Py.bool_of (task_sc opt) then
              ∃ g class_loss,
                model_class = Some g
                ∧ class_loss_function (g info) (mb_classes mb) = OK class_loss
                ∧ l2 = (class_loss / Py.nat_Q (length lens))%Q
            else l2 = 0%Q)).
Proof.
  intros Htag Hentry lens.
  assert (entry.1 = (tag_loss / Py.nat_Q (Py.sum lens))%Q ∧ Py.sum lens ≠ 0
          ∧ (if Py.bool_of (task_sc opt) then
               ∃ mc' class_loss,
                 mc = Some mc'
                 ∧ Script.class_loss_function opt
                     (Script.model_class_call mc' encoder_info) (mb_classes mb)
                   = OK class_loss
                 ∧ entry.2 = (class_loss / Py.nat_Q (length lens))%Q
                 ∧ length lens ≠ 0
             else entry.2 = 0%Q)) as (H1 & H2 & H3).
  { unfold Script.train_loss_entry in Hentry. fold lens in Hentry.
    destruct (Py.bool_of (task_sc opt)).
    - apply res_bind_inv in Hentry as (mc' & Hmc & Hentry).
      apply res_bind_inv in Hentry as (cl & Hcl & Hentry).
      apply res_bind_inv in Hentry as (l1 & Hl1 & Hentry).
      apply res_bind_inv in Hentry as (l2 & Hl2 & [= <-]).
      apply truediv_inv in Hl1 as [N1 ->]. apply truediv_inv in Hl2 as [N2 ->].
      split; [done|]. split; [by apply nat_Q_nonzero|].
      exists mc', cl. destruct mc; [|discriminate]. injection Hmc as ->.
      repeat split; try done. by apply nat_Q_nonzero.
    - apply res_bind_inv in Hentry as (l1 & Hl1 & [= <-]).
      apply truediv_inv in Hl1 as [N1 ->].
      split; [done|]. split; [by apply nat_Q_nonzero|done]. }
  do 3 (split; [done|]). split; [|split].
  - unfold Script.train_tag_loss in Htag. fold lens in Htag.
    destruct (crf opt).
    + apply res_bind_inv in Htag as (masks & Hmasks & Htag).
      exists masks. split; [done|].
      destruct (Script._get_lstm_features m input_sens lens) as [cf ei].
      by injection Htag as <- _.
    + destruct (Script.model_tag_call m (mb_inputs mb) lens) as [ts ei].
      apply res_bind_inv in Htag as (rows & Hrows & Htag).
      apply res_bind_inv in Htag as (tl & Htl & [= <- _]).
      by exists rows.
  - intros w Hw. apply weight_mask_inv in Hw as (pad & Hpad & Hlt & ->).
    exists pad. split; [done|].
    split; [by rewrite length_insert, length_replicate|].
    split.
    + intros i Hi. rewrite length_insert, length_replicate in Hi.
      by apply weight_mask_entries.
    + intros input target L. apply nll_sum_nonpad.
  - intros clf g tl info s snt s' E. unfold Eval.class_outputs in E. fold lens in E.
    destruct (Py.bool_of (task_sc opt)).
    + apply bind_inv in E as (g' & s1 & Hg & E). apply lift_inv in Hg as [Hg ->].
      apply bind_inv in E as (cl & s1 & Hcl & E). apply lift_inv in Hcl as [Hcl ->].
      apply bind_inv in E as (sp & s1 & Hsp & E). apply lift_inv in Hsp as [Hsp ->].
      apply bind_inv in E as (l1 & s1 & Hl1 & E). apply lift_inv in Hl1 as [Hl1 ->].
      apply bind_inv in E as (l2 & s1 & Hl2 & E). apply lift_inv in Hl2 as [Hl2 ->].
      apply bind_inv in E as ([] & s1 & Happ & E). injection Happ as <-.
      injection E as _ <-.
      apply truediv_inv in Hl1 as [_ ->]. apply truediv_inv in Hl2 as [_ ->].
      eexists _, _. split; [reflexivity|]. split; [done|].
      destruct g as [g|]; [|discriminate]. injection Hg as <-. eauto.
    + apply bind_inv in E as (l1 & s1 & Hl1 & E). apply lift_inv in Hl1 as [Hl1 ->].
      apply bind_inv in E as ([] & s1 & Happ & E). injection Happ as <-.
      injection E as _ <-. apply truediv_inv in Hl1 as [_ ->].
      eexists _, _. split; [reflexivity|]. done.
Qed.
End losses.

(** ** Configuration, and the runs that stop on an unbound name *)

Lemma assert_inv b : Script.assert b = OK tt → b = true.
Proof. by destruct b. Qed.

Lemma assert_cases b : Script.assert b = OK tt ∨ Script.assert b = Raise AssertionError.
Proof. destruct b; auto. Qed.

Lemma configure_raises a e : Script.configure a = Raise e → e = AssertionError.
Proof.
  unfold Script.configure.
  repeat match goal with
         | |- context [Script.assert ?b] =>
             destruct (assert_cases b) as [-> | ->]; simpl; [|by intros [= <-]]
         end.
  discriminate.
Qed.

Lemma configure_inv a opt :
  Script.configure a = OK opt →
  Script.a_testing a = Py.bool_of (Script.a_out_path a)
  ∧ Py.bool_of (Script.a_out_path a) = Py.bool_of (Script.a_read_model a)
  ∧ Script.a_task_st a ∈ ["slot_tagger_sen_level"; "slot_tagger_with_crf_sen_level"]
  ∧ Script.a_task_sc a ∈ ["none"; "2tails"; "maxPooling"; "hiddenCNN"; "hiddenAttention"]
  ∧ Script.a_sc_type a ∈ ["single_cls_CE"; "multi_cls_BCE"]
  ∧ (0 < Script.a_st_weight a)%Q ∧ (Script.a_st_weight a <= 1)%Q
  ∧ task_st opt = Script.a_task_st a
  ∧ testing opt = Script.a_testing a
  ∧ out_path opt = Script.a_out_path a
  ∧ st_weight opt = Script.a_st_weight a
  ∧ crf opt = bool_decide (Script.a_task_st a = "slot_tagger_with_crf_sen_level")
  ∧ multiClass opt = bool_decide (Script.a_sc_type a = "multi_cls_BCE")
  ∧ task_sc opt = (if Qeq_bool (Script.a_st_weight a) 1
                      || bool_decide (Script.a_task_sc a = "none")
                   then None else Some (Script.a_task_sc a)).
Proof.
  unfold Script.configure. intros E.
  apply res_bind_inv in E as ([] & H1 & E). apply assert_inv in H1.
  apply res_bind_inv in E as ([] & H2 & E). apply assert_inv in H2.
  apply res_bind_inv in E as ([] & H3 & E). apply assert_inv in H3.
  apply res_bind_inv in E as ([] & H4 & E). apply assert_inv in H4.
  apply res_bind_inv in E as ([] & H5 & E). apply assert_inv in H5.
  injection E as <-. simpl.
  apply andb_prop in H1 as [H1a H1b]. apply andb_prop in H5 as [H5a H5b].
  apply bool_decide_eq_true in H1a, H1b, H2, H3, H4, H5a.
  apply Qle_bool_iff in H5b. repeat split; done.
Qed.

Section script.
Context `{Script.Imports}.

(** C6 (lines 71 and 89): configuration errors.  A weight [st_weight]
    outside (0,1], a testing run without a model path or without an output
    path, and a run that is not testing but has one of the two paths, all
    stop on a failed assertion before anything else happens: the world is
    left as it was, so no file of the dataset has been read.  A path counts
    as given when Python takes it for true: it is not [None] and not the
    empty string. *)
Theorem configuration_errors (a : Script.args) (w : Script.world) :
  ¬ (0 < Script.a_st_weight a ∧ Script.a_st_weight a <= 1)%Q
  ∨ (Script.a_testing a = true
     ∧ (Py.bool_of (Script.a_read_model a) = false
        ∨ Py.bool_of (Script.a_out_path a) = false))
  ∨ (Script.a_testing a = false
     ∧ (Py.bool_of (Script.a_read_model a) = true
        ∨ Py.bool_of (Script.a_out_path a) = true)) →
  Script.configure a = Raise AssertionError
  ∧ Script.main a w = (Raise AssertionError, w)
  ∧ (∀ path, Script.ReadData path ∈ Script.trace (Script.main a w).2 →
             Script.ReadData path ∈ Script.trace w)
  ∧ Py.bool_of None = false
  ∧ ∀ s, Py.bool_of (Some s) = true ↔ s ≠ "".
Proof.
  intros Hbad.
  assert (Script.configure a = Raise AssertionError) as Hc.
  { destruct (Script.configure a) as [e|opt] eqn:E.
    - by rewrite (configure_raises a e E).
    - exfalso. apply configure_inv in E as (T1 & T2 & _ & _ & _ & W1 & W2 & _).
      destruct Hbad as [Hw|[[Ht Hp]|[Ht Hp]]].
      + by apply Hw.
      + rewrite Ht in T1. rewrite <- T2, <- T1 in Hp. by destruct Hp.
      + rewrite Ht in T1. rewrite <- T2, <- T1 in Hp. by destruct Hp. }
  assert (Script.main a w = (Raise AssertionError, w)) as Hm.
  { unfold Script.main, bind, lift. by rewrite Hc. }
  split; [done|]. split; [done|]. split; [by rewrite Hm|]. split; [done|].
  intros s. simpl. rewrite negb_true_iff. split.
  - intros E ->. done.
  - intros Hs. apply String.eqb_neq. done.
Qed.


Lemma load_data_spec (a : Script.args) (opt : options) (w : Script.world) :
  ∃ d, Script.load_data a opt w
       = (OK d, {| Script.np_random := Script.np_random w;
                   Script.trace := Script.trace w ++ Spec.load_events a opt |}).
Proof.
  unfold Script.load_data, Spec.load_events, bind, Script.emit, modify, ret. simpl.
  repeat match goal with
         | |- context [match ?x with _ => _ end] => destruct x; simpl
         end.
  eexists. rewrite <- !app_assoc. simpl. reflexivity.
Qed.


Lemma setup_events_quiet a opt exp_path :
  Spec.no_training_or_evaluation (Spec.setup_events a opt exp_path).
Proof.
  intros e He. unfold Spec.setup_events, Spec.load_events in He.
  destruct (testing opt); simpl in He;
    repeat (apply elem_of_cons in He as [->|He]; [done|]);
    by apply elem_of_nil in He.
Qed.

Lemma task_sc_kind a opt kind :
  Script.configure a = OK opt → task_sc opt = Some kind →
  kind ∈ ["2tails"; "maxPooling"; "hiddenCNN"; "hiddenAttention"]
  ∧ Py.bool_of (task_sc opt) = true.
Proof.
  intros Hc Hk.
  apply configure_inv in Hc
    as (_ & _ & _ & Hsc & _ & _ & _ & _ & _ & _ & _ & _ & _ & Htask).
  rewrite Hk in Htask.
  destruct (Qeq_bool (Script.a_st_weight a) 1); [done|]. simpl in Htask.
  case_bool_decide as Hnone; [done|]. injection Htask as ->.
  rewrite Hk. simpl.
  repeat (apply elem_of_cons in Hsc as [Hsc|Hsc]; [try done|]).
  - rewrite Hsc. split; [set_solver|done].
  - rewrite Hsc. split; [set_solver|done].
  - rewrite Hsc. split; [set_solver|done].
  - rewrite Hsc. split; [set_solver|done].
  - by apply elem_of_nil in Hsc.
Qed.

Lemma construct_model_class_unbound a opt :
  Script.configure a = OK opt →
  Script.construct_model_class opt None
  = if Py.bool_of (task_sc opt) then Raise (NameError "class_to_idx")
    else OK None.
Proof.
  intros Hc. unfold Script.construct_model_class.
  destruct (task_sc opt) as [kind|] eqn:E; [|done].
  destruct (task_sc_kind a opt kind Hc E) as [Hk Hb].
  rewrite E in Hb. rewrite Hb. by rewrite bool_decide_eq_true_2.
Qed.

Lemma construct_model_class_bound a opt d :
  Script.configure a = OK opt →
  ∃ mc, Script.construct_model_class opt (Some d) = OK mc.
Proof.
  intros Hc. unfold Script.construct_model_class.
  destruct (task_sc opt) as [kind|] eqn:E; [|eauto].
  case_bool_decide; simpl; eauto.
Qed.


Lemma main_testing a opt w :
  Script.configure a = OK opt → testing opt = true →
  ∃ path,
    Script.main a w
    = (Raise (Spec.testing_error opt),
       {| Script.np_random := Script.np_seed (Script.a_random_seed a);
          Script.trace := Script.trace w ++ Spec.setup_events a opt path |}).
Proof.
  intros Hc Ht.
  pose proof (configure_inv a opt Hc)
    as (T1 & _ & _ & _ & _ & _ & _ & Hst & Htest & Hout & _ & Hcrf & _).
  destruct (out_path opt) as [path|] eqn:Hp.
  2:{ rewrite <- Htest, Ht, <- Hout in T1. discriminate. }
  exists path.
  unfold Script.main, Spec.setup_events, Spec.testing_error, bind, lift, Script.emit,
    modify, ret.
  rewrite Hc. unfold OK at 1. cbn beta iota. rewrite !Ht, Hp. simpl.
  unfold Script.construct_model_tag. rewrite Hst, <- Hcrf.
  destruct (crf opt); simpl.
  { rewrite <- !app_assoc. done. }
  rewrite (construct_model_class_unbound a opt Hc).
  destruct (Py.bool_of (task_sc opt)); simpl; rewrite <- !app_assoc; done.
Qed.

Lemma main_training_plain a opt w :
  Script.configure a = OK opt → testing opt = false → crf opt = false →
  Script.main a w
  = (Raise (NameError "model_tag"),
     {| Script.np_random := Script.np_seed (Script.a_random_seed a);
        Script.trace := Script.trace w
                        ++ Spec.setup_events a opt (Script.exp_path_of opt) |}).
Proof.
  intros Hc Ht Hcrf'.
  pose proof (configure_inv a opt Hc)
    as (_ & _ & _ & _ & _ & _ & _ & Hst & _ & _ & _ & Hcrf & _).
  unfold Script.main, Spec.setup_events, bind, lift, Script.emit, modify, ret.
  rewrite Hc. unfold OK at 1. cbn beta iota. rewrite !Ht. simpl.
  match goal with
  | |- context [Script.load_data a opt ?w1] =>
      destruct (load_data_spec a opt w1) as (d & ->)
  end. simpl.
  unfold Script.construct_model_tag. rewrite Hst, <- Hcrf, Hcrf'. simpl.
  destruct (construct_model_class_bound a opt d Hc) as (mc & ->). simpl.
  rewrite <- !app_assoc. done.
Qed.

(** C9, amended (lines 76, 198-204, 236): the plain tagger.  The
    validation accepts ["slot_tagger_sen_level"], no branch binds
    [model_tag] for it (only the CRF branch does), and the run stops on an
    unbound name before any training or evaluation.  The name is
    [model_tag], at the move to the device, except in a testing run with
    the intent task on, which stops before that, on [class_to_idx], where
    the classifier is constructed. *)
Theorem plain_tagger_unbound (a : Script.args) (opt : options)
    (w : Script.world) :
  Script.configure a = OK opt →
  task_st opt = "slot_tagger_sen_level" →
  (∀ data, Script.construct_model_tag opt data = OK None)
  ∧ (∀ opt' data m,
       Script.construct_model_tag opt' data = OK (Some m) →
       task_st opt' = "slot_tagger_with_crf_sen_level")
  ∧ ∃ w' evs,
      Script.main a w
      = (Raise (NameError (if testing opt && Py.bool_of (task_sc opt)
                           then "class_to_idx" else "model_tag")), w')
      ∧ Script.trace w' = Script.trace w ++ evs
      ∧ Spec.no_training_or_evaluation evs.
Proof.
  intros Hc Hst.
  pose proof (configure_inv a opt Hc)
    as (_ & _ & _ & _ & _ & _ & _ & Hst' & _ & _ & _ & Hcrf & _).
  assert (crf opt = false) as Hplain.
  { by rewrite Hcrf, <- Hst', Hst. }
  split; [|split].
  - intros data. unfold Script.construct_model_tag. rewrite Hst.
    by rewrite bool_decide_eq_false_2.
  - intros opt' data m. unfold Script.construct_model_tag.
    destruct (decide (task_st opt' = "slot_tagger_with_crf_sen_level"))
      as [E|E]; [done|].
    rewrite bool_decide_eq_false_2 by done. intros [=].
  - destruct (testing opt) eqn:Ht.
    + destruct (main_testing a opt w Hc Ht) as (path & ->).
      unfold Spec.testing_error. rewrite Hplain. simpl.
      eexists _, _. split; [reflexivity|]. split; [reflexivity|].
      apply setup_events_quiet.
    + rewrite (main_training_plain a opt w Hc Ht Hplain). simpl.
      eexists _, _. split; [reflexivity|]. split; [reflexivity|].
      apply setup_events_quiet.
Qed.

(** C10 (lines 162-236 and 284-289): a testing run never completes.  It
    reads no file of the dataset and stops with an exception before any
    training, evaluation or result: on the assertion when the
    configuration is refused, and otherwise on the first unbound name that
    the construction of the models reads, [ext_sen_size] for the CRF
    tagger (its arguments are evaluated before [len(tag_to_idx)]), else
    [class_to_idx] with the intent task, else [model_tag].  The testing
    branch of [decode] itself, were it reached, stops on
    [train_data_index], which only the training block binds (or on the
    unpacking of the batch, when the assembler returns six values). *)
Theorem standalone_evaluation_fails (a : Script.args) (w : Script.world) :
  Script.a_testing a = true →
  ∃ e w' evs,
    Script.main a w = (Raise e, w')
    ∧ Script.trace w' = Script.trace w ++ evs
    ∧ Spec.no_data_read evs
    ∧ Spec.no_training_or_evaluation evs
    ∧ (∀ opt, Script.configure a = OK opt →
         e = NameError (if crf opt then "ext_sen_size"
                        else if Py.bool_of (task_sc opt) then "class_to_idx"
                        else "model_tag"))
    ∧ (∀ (opt : options) (sen_feats : Script.SenFeats)
         (data_feats : list Script.Feat) (data_tags : Script.Tags)
         (data_class : Script.Classes) (data_index : list nat) (j : nat),
         testing opt = true →
         Eval.fetch opt None Script.get_minibatch_with_class
           Script.get_sen_minibatch sen_feats data_feats data_tags
           data_class data_index j
         = Raise (match mb_line_nums
                          (Script.get_minibatch_with_class data_feats
                             data_tags data_class data_index j
                             (test_batchSize opt) (multiClass opt) true)
                  with
                  | Some _ => NameError "train_data_index"
                  | None => ValueError
                  end)).
Proof.
  intros Ht.
  assert (∀ (opt : options) (sen_feats : Script.SenFeats)
            (data_feats : list Script.Feat) (data_tags : Script.Tags)
            (data_class : Script.Classes) (data_index : list nat) (j : nat),
            testing opt = true →
            Eval.fetch opt None Script.get_minibatch_with_class
              Script.get_sen_minibatch sen_feats data_feats data_tags
              data_class data_index j
            = Raise (match mb_line_nums
                             (Script.get_minibatch_with_class data_feats
                                data_tags data_class data_index j
                                (test_batchSize opt) (multiClass opt) true)
                     with
                     | Some _ => NameError "train_data_index"
                     | None => ValueError
                     end))
    as Hfetch.
  { intros opt sf df dt dc di j Hopt. unfold Eval.fetch. rewrite Hopt.
    by destruct (mb_line_nums _). }
  destruct (Script.configure a) as [e|opt] eqn:Hc.
  - pose proof (configure_raises a e Hc) as ->.
    exists AssertionError, w, [].
    split; [unfold Script.main, bind, lift; by rewrite Hc|].
    split; [by rewrite app_nil_r|].
    split; [intros path Hin; by apply elem_of_nil in Hin|].
    split; [intros e' Hin; by apply elem_of_nil in Hin|].
    split; [|exact Hfetch].
    intros opt Hopt. by inversion Hopt.
  - pose proof (configure_inv a opt Hc)
      as (_ & _ & _ & _ & _ & _ & _ & _ & Htest & _).
    rewrite <- Htest in Ht.
    destruct (main_testing a opt w Hc Ht) as (path & Hm).
    eexists _, _, _. split; [exact Hm|]. split; [reflexivity|].
    split.
    { intros p Hin. unfold Spec.setup_events in Hin. rewrite Ht in Hin.
      simpl in Hin.
      repeat (apply elem_of_cons in Hin as [Hin|Hin]; [done|]).
      by apply elem_of_nil in Hin. }
    split; [apply setup_events_quiet|].
    split; [|exact Hfetch].
    intros opt' [= <-]. done.
Qed.
End script.

(** ** Checkpoints *)

Section training.
Context `{Script.Imports}.


Lemma extends_refl P w : Spec.extends P w w.
Proof. split; [done|]. exists []. by rewrite app_nil_r. Qed.

Lemma extends_trans P w1 w2 w3 :
  Spec.extends P w1 w2 → Spec.extends P w2 w3 → Spec.extends P w1 w3.
Proof.
  intros [R1 (e1 & T1 & F1)] [R2 (e2 & T2 & F2)]. split; [congruence|].
  exists (e1 ++ e2). split; [by rewrite T2, T1, app_assoc|].
  by apply Forall_app.
Qed.

Lemma emits_only_ret {A} P (a : A) : Spec.emits_only P (ret a).
Proof. intros w. apply extends_refl. Qed.
Lemma emits_only_lift {A} P (r : res A) : Spec.emits_only P (lift r).
Proof. intros w. apply extends_refl. Qed.
Lemma emits_only_emit (P : Script.event → Prop) e :
  P e → Spec.emits_only P (Script.emit e).
Proof.
  intros He w. split; [done|]. exists [e]. split; [done|]. by constructor.
Qed.
Lemma emits_only_bind {A B} P (m : M Script.world A) (k : A → M Script.world B) :
  Spec.emits_only P m → (∀ a, Spec.emits_only P (k a)) → Spec.emits_only P (bind m k).
Proof.
  intros Hm Hk w. unfold bind. specialize (Hm w).
  destruct (m w) as [[e|a] w1]; simpl in *; [done|].
  eapply extends_trans; [done|]. apply Hk.
Qed.
Lemma emits_only_for_fold {A B} P (l : list A) (body : A → B → M Script.world B) b :
  (∀ x b, Spec.emits_only P (body x b)) → Spec.emits_only P (Script.for_fold l body b).
Proof.
  intros Hb. revert b. induction l as [|x l IH]; intros b; simpl.
  - apply emits_only_ret.
  - apply emits_only_bind; [apply Hb|apply IH].
Qed.
Lemma emits_only_run {A} P (m : M Script.world A) w r w' :
  Spec.emits_only P m → m w = (r, w') → Spec.extends P w w'.
Proof. intros Hm E. specialize (Hm w). by rewrite E in Hm. Qed.

Ltac quiet :=
  repeat first
    [ apply emits_only_ret | apply emits_only_lift
    | apply emits_only_emit; done
    | apply emits_only_bind; [|intros ?]
    | apply emits_only_for_fold; intros ? ?
    | match goal with
      | |- Spec.emits_only _ (if ?b then _ else _) => destruct b
      | |- Spec.emits_only _ (match ?x with _ => _ end) => destruct x
      | |- Spec.emits_only _ (let (_, _) := ?x in _) => destruct x
      end ].


Lemma call_decode_emits opt d tlf st sen_feats data_feats data_tags data_class path :
  Spec.emits_only Spec.training_event
    (Script.call_decode opt d tlf st sen_feats data_feats data_tags
       data_class path).
Proof.
  intros w. unfold Script.call_decode.
  destruct (Eval.decode _ _ _ _ _ _ _ _ _ _ _ _ _ _ _ _ _ _ _ _ _) as [r s].
  simpl. split; [done|]. eexists. split; [done|]. by constructor.
Qed.

Lemma train_batch_emits opt d tlf j acc :
  Spec.emits_only Spec.training_event (Script.train_batch opt d tlf j acc).
Proof. unfold Script.train_batch. quiet. Qed.


Lemma emit_inv e w (u : unit) w' :
  Script.emit e w = (OK u, w') →
  w' = {| Script.np_random := Script.np_random w;
          Script.trace := Script.trace w ++ [e] |}.
Proof. by intros [= <-]. Qed.

Lemma train_batch_ok opt d tlf j st losses w st' losses' w' :
  Script.train_batch opt d tlf j (st, losses) w = (OK (st', losses'), w') →
  Script.np_random w' = Script.np_random w
  ∧ Script.trace w' = Script.trace w ++ [Script.OptimizerStep j]
  ∧ Script.train_data_index st' = Script.train_data_index st
  ∧ Script.best_f1 st' = Script.best_f1 st
  ∧ Script.best_result st' = Script.best_result st.
Proof.
  unfold Script.train_batch. intros E.
  apply bind_inv in E as ([] & w1 & H1 & E). apply lift_inv in H1 as [_ ->].
  apply bind_inv in E as ([tl info] & w1 & H1 & E). apply lift_inv in H1 as [_ ->].
  apply bind_inv in E as (entry & w1 & H1 & E). apply lift_inv in H1 as [_ ->].
  apply bind_inv in E as (optim & w1 & H1 & E). apply lift_inv in H1 as [_ ->].
  destruct (Script.backward_step _ _ _ _ _) as [[m mc] optim'].
  apply bind_inv in E as ([] & w1 & H1 & E). apply emit_inv in H1 as ->.
  by injection E as <- <- <-.
Qed.

Lemma train_batches_ok opt d tlf offsets st losses w st' losses' w' :
  Script.for_fold offsets (Script.train_batch opt d tlf) (st, losses) w
    = (OK (st', losses'), w') →
  Script.np_random w' = Script.np_random w
  ∧ Script.trace w' = Script.trace w ++ (Script.OptimizerStep <$> offsets)
  ∧ Script.train_data_index st' = Script.train_data_index st
  ∧ Script.best_f1 st' = Script.best_f1 st
  ∧ Script.best_result st' = Script.best_result st.
Proof.
  revert st losses w. induction offsets as [|j offsets IH]; intros st losses w; simpl.
  - intros [= <- <- <-]. by rewrite app_nil_r.
  - intros E. apply bind_inv in E as ([st1 losses1] & w1 & H1 & E).
    apply train_batch_ok in H1 as (R1 & T1 & I1 & B1 & BR1).
    apply IH in E as (R2 & T2 & I2 & B2 & BR2).
    repeat split; try congruence.
    rewrite T2, T1, <- app_assoc. done.
Qed.

Lemma call_decode_ok opt d tlf st sen_feats data_feats data_tags data_class
    path w r w' :
  Script.call_decode opt d tlf st sen_feats data_feats data_tags data_class
    path w = (r, w') →
  Script.np_random w' = Script.np_random w
  ∧ ∃ lines, Script.trace w' = Script.trace w ++ [Script.WriteOutput path lines].
Proof.
  unfold Script.call_decode.
  destruct (Eval.decode _ _ _ _ _ _ _ _ _ _ _ _ _ _ _ _ _ _ _ _ _) as [r0 s].
  intros [= <- <-]. simpl. eauto.
Qed.

Lemma train_and_evaluate_ok opt exp_path d tlf i st w st' val te w' :
  Script.train_and_evaluate opt exp_path d tlf i st w = (OK (st', val, te), w') →
  ∃ offsets mean lines_val lines_te,
    Py.range0 (length (Script.np_shuffle (Script.np_random w)
                         (Script.train_data_index st)).1) (batchSize opt)
      = OK offsets
    ∧ Script.np_random w'
      = (Script.np_shuffle (Script.np_random w) (Script.train_data_index st)).2
    ∧ Script.train_data_index st'
      = (Script.np_shuffle (Script.np_random w) (Script.train_data_index st)).1
    ∧ Script.best_f1 st' = Script.best_f1 st
    ∧ Script.best_result st' = Script.best_result st
    ∧ Script.trace w'
      = Script.trace w ++ [Script.Shuffle]
        ++ (Script.OptimizerStep <$> offsets)
        ++ [Script.Log (Script.LogTraining i mean);
            Script.WriteOutput
              (Script.path_join exp_path ("valid.iter" ++ Py.str i)) lines_val;
            Script.Log (Script.LogValidation i val);
            Script.WriteOutput
              (Script.path_join exp_path ("test.iter" ++ Py.str i)) lines_te;
            Script.Log (Script.LogEvaluation i te)].
Proof.
  unfold Script.train_and_evaluate. intros E.
  apply bind_inv in E as (index & w1 & H1 & E).
  unfold Script.shuffle in H1.
  destruct (Script.np_shuffle _ _) as [index' rng'] eqn:Hsh.
  injection H1 as <- <-. simpl.
  apply bind_inv in E as (mc & w1 & H1 & E). apply lift_inv in H1 as [_ ->].
  apply bind_inv in E as ([] & w1 & H1 & E). apply lift_inv in H1 as [_ ->].
  apply bind_inv in E as (offsets & w1 & H1 & E). apply lift_inv in H1 as [Hoff ->].
  apply bind_inv in E as ([st1 losses] & w1 & H1 & E).
  apply train_batches_ok in H1 as (R1 & T1 & I1 & B1 & BR1). simpl in *.
  apply bind_inv in E as (mean & w2 & H2 & E). apply lift_inv in H2 as [_ ->].
  apply bind_inv in E as ([] & w2 & H2 & E). apply emit_inv in H2 as ->.
  apply bind_inv in E as (mc2 & w2 & H2 & E). apply lift_inv in H2 as [_ ->].
  apply bind_inv in E as (val' & w2 & H2 & E).
  apply call_decode_ok in H2 as (R2 & lv & T2). simpl in *.
  apply bind_inv in E as (? & w3 & H3 & E). apply lift_inv in H3 as [_ ->].
  apply bind_inv in E as ([] & w3 & H3 & E). apply emit_inv in H3 as ->.
  apply bind_inv in E as (te' & w3 & H3 & E).
  apply call_decode_ok in H3 as (R3 & lt & T3). simpl in *.
  apply bind_inv in E as (? & w4 & H4 & E). apply lift_inv in H4 as [_ ->].
  apply bind_inv in E as ([] & w4 & H4 & E). apply emit_inv in H4 as ->.
  injection E as <- <- <- <-. simpl.
  exists offsets, mean, lv, lt.
  split; [done|]. split; [congruence|]. do 3 (split; [done|]).
  rewrite T3, T2, T1. simpl. rewrite <- !app_assoc. done.
Qed.

Lemma checkpoint_ok opt exp_path i val te st w st' w' :
  Script.checkpoint opt exp_path i val te st w = (OK st', w') →
  if decide (Script.best_f1 st < Script.val_f1_score opt val)%Q then
    Script.trace w'
    = Script.trace w
      ++ (Script.SaveModel <$> Spec.checkpoint_files opt exp_path)
      ++ [Script.Log (Script.LogNewBest i val te)]
    ∧ Script.np_random w' = Script.np_random w
    ∧ Script.best_f1 st' = Script.val_f1_score opt val
    ∧ Script.best_result st' = Some (i, val, te)
    ∧ Script.train_data_index st' = Script.train_data_index st
  else w' = w ∧ st' = st.
Proof.
  unfold Script.checkpoint, Spec.checkpoint_files.
  destruct (decide (Script.best_f1 st < Script.val_f1_score opt val)%Q);
    [|by intros [= <- <-]].
  intros E.
  apply bind_inv in E as ([] & w1 & H1 & E). apply emit_inv in H1 as ->.
  apply bind_inv in E as ([] & w2 & H2 & E).
  apply bind_inv in E as ([] & w3 & H3 & E). apply emit_inv in H3 as ->.
  injection E as <- <-. simpl.
  destruct (Py.bool_of (task_sc opt)).
  - apply bind_inv in H2 as (mc & w2' & H2' & H2).
    apply lift_inv in H2' as [_ ->]. apply emit_inv in H2 as ->. simpl.
    rewrite <- !app_assoc. done.
  - injection H2 as <-. simpl. rewrite <- !app_assoc. done.
Qed.


Lemma replay_skip opt exp_path best evs rest :
  Forall Spec.not_validation evs →
  Spec.replay opt exp_path best (evs ++ rest) = Spec.replay opt exp_path best rest.
Proof.
  induction 1 as [|e evs He _ IH]; [done|]. simpl.
  destruct e as [| | | | | | |[]]; try done.
Qed.

Lemma saves_app evs1 evs2 :
  Spec.saves (evs1 ++ evs2) = Spec.saves evs1 ++ Spec.saves evs2.
Proof. apply omap_app. Qed.

Lemma saves_fmap paths : Spec.saves (Script.SaveModel <$> paths) = paths.
Proof. induction paths as [|p paths IH]; [done|]. simpl. by rewrite <- IH at 2. Qed.

Lemma saves_none evs :
  Forall (λ e, ∀ path, e ≠ Script.SaveModel path) evs → Spec.saves evs = [].
Proof.
  induction 1 as [|e evs He _ IH]; [done|].
  destruct e; simpl; try done. by destruct (He path).
Qed.

Lemma epoch_ok opt exp_path d tlf i st w st' w' :
  Script.epoch opt exp_path d tlf i st w = (OK st', w') →
  ∃ evs,
    Script.trace w' = Script.trace w ++ evs
    ∧ ∀ rest,
        Spec.replay opt exp_path (Script.best_f1 st) (evs ++ rest)
        = let (best, files) := Spec.replay opt exp_path (Script.best_f1 st') rest in
          (best, Spec.saves evs ++ files).
Proof.
  unfold Script.epoch. intros E.
  apply bind_inv in E as ([[st1 val] te] & w1 & H1 & E).
  apply train_and_evaluate_ok in H1
    as (offsets & mean & lv & lt & _ & _ & _ & B1 & _ & T1).
  apply checkpoint_ok in E. rewrite B1 in E.
  set (pre := [Script.Shuffle] ++ (Script.OptimizerStep <$> offsets)
              ++ [Script.Log (Script.LogTraining i mean);
                  Script.WriteOutput
                    (Script.path_join exp_path ("valid.iter" ++ Py.str i)) lv]).
  set (post := [Script.WriteOutput
                  (Script.path_join exp_path ("test.iter" ++ Py.str i)) lt;
                Script.Log (Script.LogEvaluation i te)]).
  assert (Script.trace w1
          = Script.trace w ++ pre ++ Script.Log (Script.LogValidation i val) :: post)
    as T1'.
  { rewrite T1. unfold pre, post. rewrite <- !app_assoc. done. }
  assert (Forall Spec.not_validation pre) as Hpre.
  { unfold pre. apply Forall_app. split; [by repeat constructor|].
    apply Forall_app. split; [|by repeat constructor].
    apply Forall_fmap, Forall_true. done. }
  assert (Spec.saves pre = []) as Spre.
  { apply saves_none. unfold pre. apply Forall_app. split; [by repeat constructor|].
    apply Forall_app. split; [|by repeat constructor].
    apply Forall_fmap, Forall_true. done. }
  destruct (decide (Script.best_f1 st < Script.val_f1_score opt val)%Q) as [Hlt|Hge].
  - destruct E as (T2 & _ & B2 & _).
    eexists. split.
    { rewrite T2, T1', <- !app_assoc. reflexivity. }
    intros rest. rewrite <- !app_assoc. rewrite replay_skip by done.
    rewrite !saves_app, Spre. unfold Spec.checkpoint_files.
    simpl. destruct (decide _) as [_|]; [|done].
    rewrite B2.
    destruct (Py.bool_of (task_sc opt)); simpl;
      by destruct (Spec.replay opt exp_path _ rest) as [b files].
  - destruct E as [-> ->].
    eexists. split; [exact T1'|].
    intros rest. rewrite <- !app_assoc. rewrite replay_skip by done.
    rewrite !saves_app, Spre.
    simpl. destruct (decide _) as [|_]; [done|]. rewrite B1.
    by destruct (Spec.replay opt exp_path _ rest) as [b files].
Qed.

Lemma epochs_ok opt exp_path d tlf l st w st' w' :
  Script.for_fold l (Script.epoch opt exp_path d tlf) st w = (OK st', w') →
  ∃ evs,
    Script.trace w' = Script.trace w ++ evs
    ∧ ∀ rest,
        Spec.replay opt exp_path (Script.best_f1 st) (evs ++ rest)
        = let (best, files) := Spec.replay opt exp_path (Script.best_f1 st') rest in
          (best, Spec.saves evs ++ files).
Proof.
  revert st w. induction l as [|i l IH]; intros st w; simpl.
  - intros [= <- <-]. exists []. split; [by rewrite app_nil_r|].
    intros rest. simpl. by destruct (Spec.replay _ _ _ _).
  - intros E. apply bind_inv in E as (st1 & w1 & H1 & E).
    apply epoch_ok in H1 as (evs1 & T1 & R1).
    apply IH in E as (evs2 & T2 & R2).
    exists (evs1 ++ evs2). split; [by rewrite T2, T1, app_assoc|].
    intros rest. rewrite <- app_assoc, R1, R2.
    destruct (Spec.replay opt exp_path _ rest) as [b files].
    by rewrite saves_app, app_assoc.
Qed.

Lemma train_and_evaluate_any opt exp_path d tlf i st w r w' :
  Script.train_and_evaluate opt exp_path d tlf i st w = (r, w') →
  Script.np_random w'
  = (Script.np_shuffle (Script.np_random w) (Script.train_data_index st)).2
  ∧ ∃ rest, Script.trace w' = Script.trace w ++ Script.Shuffle :: rest
      ∧ Forall Spec.training_event rest.
Proof.
  unfold Script.train_and_evaluate. unfold bind at 1. unfold Script.shuffle.
  destruct (Script.np_shuffle _ _) as [index' rng']. simpl.
  intros E.
  eapply emits_only_run in E as [R (rest & T & F)].
  - simpl in *. split; [done|]. exists rest. split; [|done].
    by rewrite T, <- app_assoc.
  - quiet; first [apply train_batch_emits | apply call_decode_emits].
Qed.

Lemma training_event_weaken (P : Script.event → Prop) evs :
  (∀ e, Spec.training_event e → P e) → Forall Spec.training_event evs → Forall P evs.
Proof. intros HP F. eapply Forall_impl; [exact F|exact HP]. Qed.


(** C7 (lines 406, 487-503): checkpoints.  The score of an epoch is
    [st_weight * f1 + (1 - st_weight) * cf] with the intent task and the
    slot F1 alone without it.  After an epoch the models are saved (the
    tagger, and the classifier with the intent task) if and only if the
    score is strictly above the best score so far, which starts at -1 and
    becomes that score; on a tie or a decrease nothing is saved and the
    state is unchanged.  Nothing is saved anywhere else, so the files that
    a whole run saves are those of replaying its logged validation
    results against that test. *)
Theorem checkpoint_on_strict_improvement (opt : options) (exp_path : string)
    (d : Script.dataset) (tlf : list (list Q) → list nat → res Q)
    (m : Script.TagModel) (mc : option Script.ClassModel)
    (optim : option Script.Optim) (w : Script.world)
    (st : Script.train_state) (w' : Script.world) :
  Script.training opt exp_path d tlf m mc optim w = (OK st, w') →
  (* the whole run: the checkpoints are those of the logged scores *)
  (∃ evs, Script.trace w' = Script.trace w ++ evs
     ∧ Spec.replay opt exp_path (-1) evs = (Script.best_f1 st, Spec.saves evs))
  (* one epoch: the score and the test of lines 487-495 *)
  ∧ (∀ i val te st0 w0 st1 w1,
       Script.checkpoint opt exp_path i val te st0 w0 = (OK st1, w1) →
       Script.val_f1_score opt val
       = (if Py.bool_of (task_sc opt)
          then st_weight opt * Eval.f1 val + (1 - st_weight opt) * Eval.cf val
          else Eval.f1 val)%Q
       ∧ ∃ evs, Script.trace w1 = Script.trace w0 ++ evs
           ∧ if decide (Script.best_f1 st0 < Script.val_f1_score opt val)%Q
             then Spec.saves evs = Spec.checkpoint_files opt exp_path
                  ∧ Script.best_f1 st1 = Script.val_f1_score opt val
             else evs = [] ∧ st1 = st0)
  (* nothing is saved outside [checkpoint] *)
  ∧ (∀ i st0 w0 r w1,
       Script.train_and_evaluate opt exp_path d tlf i st0 w0 = (r, w1) →
       ∃ evs, Script.trace w1 = Script.trace w0 ++ evs ∧ Spec.saves evs = []).
Proof.
  intros E. split; [|split].
  - unfold Script.training in E.
    apply bind_inv in E as (st1 & w1 & H1 & E).
    apply epochs_ok in H1 as (evs & T1 & R1). simpl in R1.
    apply bind_inv in E as ([[i val] te] & w2 & H2 & E).
    apply lift_inv in H2 as [_ ->].
    apply bind_inv in E as ([] & w2 & H2 & E). apply emit_inv in H2 as ->.
    injection E as <- <-. simpl.
    exists (evs ++ [Script.Log (Script.LogBestResult i val te)]).
    split; [by rewrite T1, app_assoc|].
    rewrite R1. simpl. rewrite saves_app. simpl. by rewrite app_nil_r.
  - intros i val te st0 w0 st1 w1 Hck. split; [done|].
    apply checkpoint_ok in Hck.
    destruct (decide (Script.best_f1 st0 < Script.val_f1_score opt val)%Q).
    + destruct Hck as (T & _ & B & _). eexists. split; [exact T|].
      split; [|done]. rewrite saves_app, saves_fmap. simpl. by rewrite app_nil_r.
    + destruct Hck as [-> ->]. exists []. by rewrite app_nil_r.
  - intros i st0 w0 r w1 Hte.
    apply train_and_evaluate_any in Hte as (_ & rest & T & F).
    exists (Script.Shuffle :: rest). split; [done|].
    apply saves_none. constructor; [done|].
    eapply training_event_weaken; [|done]. by intros [].
Qed.
End training.

(** ** Order of the training data *)


Lemma range0_inv stop step offsets :
  Py.range0 stop step = OK offsets →
  0 < step ∧ offsets = (λ k, k * step) <$> seq 0 ((stop + step - 1) / step).
Proof.
  unfold Py.range0. destruct (step =? 0) eqn:E; [discriminate|].
  apply Nat.eqb_neq in E. intros [= <-]. split; [lia|done].
Qed.

(** The slices [index[j:j+step]] at the offsets of [range(0, n, step)],
    one after the other, are [index] itself. *)
Lemma slices_cover {A} (index : list A) (step : nat) :
  0 < step →
  concat ((λ j, Py.slice index j step)
            <$> ((λ k, k * step) <$> seq 0 ((length index + step - 1) / step)))
  = index.
Proof.
  intros Hstep. remember (length index) as n eqn:Hn.
  revert index Hn. induction (lt_wf n) as [n _ IH]. intros index Hn.
  destruct (decide (n = 0)) as [->|Hn0].
  { symmetry in Hn. apply length_zero_iff_nil in Hn as ->.
    replace ((0 + step - 1) / step) with 0; [done|].
    symmetry. apply Nat.div_small. lia. }
  assert ((n + step - 1) / step = S ((n - step + step - 1) / step)) as ->.
  { destruct (decide (n ≤ step)) as [Hle|Hgt].
    - replace (n - step) with 0 by lia.
      replace ((0 + step - 1) / step) with 0 by (symmetry; apply Nat.div_small; lia).
      replace (n + step - 1) with (1 * step + (n - 1)) by lia.
      rewrite Nat.div_add_l by lia. rewrite Nat.div_small by lia. done.
    - replace (n + step - 1) with (1 * step + (n - step + step - 1)) by lia.
      rewrite Nat.div_add_l by lia. lia. }
  rewrite <- cons_seq. simpl. unfold Py.slice at 1. rewrite drop_0.
  rewrite <- (fmap_S_seq 0), <- !list_fmap_compose.
  rewrite <- (take_drop step index) at 2. f_equal.
  etrans; [|apply (IH (n - step) ltac:(lia) (drop step index));
              by rewrite length_drop, Hn].
  rewrite <- list_fmap_compose.
  f_equal. apply list_fmap_ext. intros _ k _. simpl. unfold Py.slice.
  by rewrite drop_drop.
Qed.

Section decode_order.
Context {chunk : Type} `{EqDecision chunk}.
Context {Feat Tags Classes SenFeats Sens CrfFeats Info : Type}.
Variable opt : options.
Variables idx_to_tag idx_to_word idx_to_class : gmap nat string.
Variable tag_to_idx : gmap string nat.
Variable train_data_index : option (list nat).
Variable tag_loss_function : list (list Q) → list nat → res Q.
Variable class_loss_function : list (list Q) → class_tensor → res Q.
Variable get_chunks : list string → list chunk.
Variable _get_lstm_features : Sens → list nat → CrfFeats * Info.
Variable forward : CrfFeats → list (list nat) → list Q * list (list nat).
Variable neg_log_likelihood : CrfFeats → list (list nat) → list (list nat) → Q.
Variable model_tag : list (list nat) → list nat → list (list (list Q)) * Info.
Variable model_class : option (Info → list (list Q)).


End decode_order.


Section order.
Context `{Script.Imports}.
#[local] Existing Instance Script.chunk_eq_dec.

End order.

(** ** The sample instance, run *)

(** Running a definition on the sample instance: the left-hand side is
    evaluated, and the equation holds by computation. *)
Ltac run :=
  match goal with
  | |- ?l = _ =>
      let v := eval vm_compute in l in
      refine (eq_trans (y:=v) _ _);
      [vm_cast_no_check (eq_refl v) | reflexivity]
  end.


Lemma Forall2_getitems (m : gmap nat string) (ids : list nat) (names : list string) :
  Forall2 (λ i n, m !! i = Some n) ids names → map_res (Py.getitem m) ids = OK names.
Proof.
  induction 1 as [|i n ids names Hi _ IH]; [done|].
  simpl. unfold Py.getitem at 1. rewrite Hi. simpl. by rewrite IH.
Qed.

(** Gold {A, B} against predicted {B, C} in multi-label mode: one of
    each. *)
Lemma intent_scoring_witness :
  ∃ out s',
    Eval.score_intent (Sample.opt true true false (Some "2tails"))
      Sample.idx_to_class (Sample.minibatch true false)
      (Some (Eval.SntProbs (Sample.model_class_call 0 2))) 0 Eval.init
    = (OK out, s')
    ∧ out = ("A;B", "B;C")
    ∧ Eval.TP2 s' = 1 ∧ Eval.FP2 s' = 1 ∧ Eval.FN2 s' = 1.
Proof.
  eexists _, _. split; [vm_compute; reflexivity|]. split; [reflexivity|].
  match goal with
  | |- Eval.TP2 ?s' = _ ∧ _ =>
      assert (Eval.score_intent (Sample.opt true true false (Some "2tails"))
                Sample.idx_to_class (Sample.minibatch true false)
                (Some (Eval.SntProbs (Sample.model_class_call 0 2))) 0 Eval.init
              = (OK ("A;B", "B;C"), s')) as Hstep
        by (vm_compute; reflexivity)
  end.
  pose proof (intent_scoring _ _ _ _ _ _ _ _ Hstep) as Hc.
  change (multiClass (Sample.opt true true false (Some "2tails")))
    with true in Hc. cbv iota in Hc.
  destruct Hc as (rows & row & pred_ids & gold_ids & pred_classes & gold_classes
                  & Hrows & Hrow & Hpred & Hraw & Hp & Hg & HTP & HFP & HFN & _).
  injection Hrows as <-. injection Hrow as <-.
  vm_compute in Hpred. subst pred_ids.
  vm_compute in Hraw.
  destruct gold_ids as [|g0 [|g1 [|]]]; try discriminate.
  injection Hraw as <- <-.
  apply Forall2_getitems in Hp, Hg. vm_compute in Hp, Hg.
  injection Hp as <-. injection Hg as <-.
  rewrite HTP, HFP, HFN. vm_compute. done.
Defined.

(** Single-label mode, raw classes [A; B], prediction B: the gold set has
    two elements, and [FN2] does not grow by the gold classes that are not
    predicted. *)
Lemma intent_scoring_counterexample :
  ∃ s',
    Eval.score_intent (Sample.opt true false false (Some "2tails"))
      Sample.idx_to_class (Sample.minibatch false false)
      (Some (Eval.SntIds [1; 1])) 1 Eval.init
    = (OK ("A;B", "B"), s')
    ∧ mb_raw_classes (Sample.minibatch false false) !! 1
      = Some (RawSeq [PStr "A"; PStr "B"])
    ∧ ¬ (Eval.FN2 s'
         = Eval.FN2 Eval.init
           + length (filter (λ c, c ∉ [PStr "B"]) [PStr "A"; PStr "B"])).
Proof.
  eexists. split; [vm_compute; reflexivity|]. split; [reflexivity|].
  vm_compute. discriminate.
Qed.

(** The sample classifier in single-label mode. *)
Lemma intent_decoding_witness :
  ∃ snt_probs,
    Eval.snt_probs_of false (Sample.model_class_call 0 2) = OK snt_probs
    ∧ snt_probs = Eval.SntIds [1; 1].
Proof.
  eexists. split; [vm_compute; reflexivity|].
  assert (Eval.snt_probs_of false (Sample.model_class_call 0 2)
          = OK (Eval.SntIds [1; 1])) as Hd by (vm_compute; reflexivity).
  destruct (intent_decoding _ _ _ Hd) as (ids & Hids & _). reflexivity.
Defined.

(** A training batch of the sample instance. *)
Lemma loss_reporting_witness :
  ∃ tag_loss info entry,
    Script.train_tag_loss (H:=Sample.imports) (Sample.opt true false false (Some "2tails"))
      (Sample.dataset false) (Loss.tag_loss_function Sample.weight_mask) 0
      (Sample.minibatch false false) [0; 1] = OK (tag_loss, info)
    ∧ Script.train_loss_entry (H:=Sample.imports) (Sample.opt true false false (Some "2tails"))
        (Some 0) (Sample.minibatch false false) tag_loss info = OK entry
    ∧ tag_loss = 7%Q
    ∧ (entry.1 == 7 # 5)%Q ∧ (entry.2 == - (9 # 20))%Q.
Proof.
  eexists _, _, _. split; [vm_compute; reflexivity|].
  split; [vm_compute; reflexivity|]. split; [reflexivity|].
  match goal with
  | |- (?e.1 == _)%Q ∧ _ =>
      assert (Script.train_tag_loss (H:=Sample.imports) (Sample.opt true false false (Some "2tails"))
                (Sample.dataset false) (Loss.tag_loss_function Sample.weight_mask)
                0 (Sample.minibatch false false) [0; 1] = OK (7%Q, 2)) as Htag
        by (vm_compute; reflexivity);
      assert (Script.train_loss_entry (H:=Sample.imports) (Sample.opt true false false (Some "2tails"))
                (Some 0) (Sample.minibatch false false) 7%Q 2 = OK e) as Hentry
        by (vm_compute; reflexivity)
  end.
  destruct (loss_reporting _ _ _ _ _ _ _ _ _ _ Htag Hentry) as (H1 & _ & H2 & _).
  change (Py.bool_of (task_sc (Sample.opt true false false (Some "2tails"))))
    with true in H2. cbv iota in H2.
  destruct H2 as (mc' & class_loss & [= <-] & Hcl & H2 & _).
  vm_compute in Hcl. injection Hcl as <-.
  rewrite H1, H2. split; reflexivity.
Defined.

(** With the CRF tagger the tag loss of the batch is not the masked
    negative log-likelihood of [tag_loss_function]. *)
Lemma loss_reporting_counterexample :
  ∃ tag_loss info w rows masked,
    crf (Sample.opt true false false (Some "2tails")) = true
    ∧ Script.train_tag_loss (H:=Sample.imports) (Sample.opt true false false (Some "2tails"))
        (Sample.dataset false) (Loss.tag_loss_function w) 0
        (Sample.minibatch false false) [0; 1] = OK (tag_loss, info)
    ∧ Loss.weight_mask Sample.tag_to_idx = OK w
    ∧ Loss.view2 (size Sample.tag_to_idx)
        (Sample.model_tag_call 0 (mb_inputs (Sample.minibatch false false))
           (mb_lens (Sample.minibatch false false))).1 = OK rows
    ∧ Loss.tag_loss_function w rows
        (concat (mb_tags (Sample.minibatch false false))) = OK masked
    ∧ ¬ (tag_loss == masked)%Q.
Proof.
  eexists _, _, _, _, _. split; [reflexivity|].
  split; [vm_compute; reflexivity|]. split; [vm_compute; reflexivity|].
  split; [vm_compute; reflexivity|]. split; [vm_compute; reflexivity|].
  vm_compute. discriminate.
Qed.

(** A testing run without an output path. *)
Lemma configuration_errors_witness :
  Script.main (H:=Sample.imports)
    (Sample.args "slot_tagger_with_crf_sen_level" "2tails" "single_cls_CE"
       true None) Sample.world0
  = (Raise AssertionError, Sample.world0).
Proof.
  apply (configuration_errors (H:=Sample.imports)
           (Sample.args "slot_tagger_with_crf_sen_level" "2tails"
              "single_cls_CE" true None) Sample.world0).
  right. left. split; [reflexivity|]. left. reflexivity.
Defined.

(** Two epochs with the same validation score: the first one saves, the tie
    of the second does not. *)
Lemma checkpoint_on_strict_improvement_witness :
  ∃ st w',
    Script.training (H:=Sample.imports)
      (Sample.opt true false false (Some "2tails")) "exp/run"
      (Sample.dataset false) (Loss.tag_loss_function Sample.weight_mask)
      0 (Some 0) (Some 0) Sample.world0 = (OK st, w')
    ∧ (∃ evs, Script.trace w' = Script.trace Sample.world0 ++ evs
         ∧ Spec.replay (Sample.opt true false false (Some "2tails")) "exp/run"
             (-1) evs = (Script.best_f1 st, Spec.saves evs))
    ∧ Spec.saves (Script.trace w') = ["exp/run/model.tag"; "exp/run/model.class"]
    ∧ (Script.best_f1 st == 250 # 3)%Q.
Proof.
  eexists _, _. split; [run|].
  split; [|split; vm_compute; reflexivity].
  refine (proj1 (checkpoint_on_strict_improvement (H:=Sample.imports)
                   _ _ (Sample.dataset false)
                   (Loss.tag_loss_function Sample.weight_mask) 0 (Some 0)
                   (Some 0) Sample.world0 _ _ _)).
  run.
Defined.


(** A training run with the plain tagger. *)
Lemma plain_tagger_unbound_witness :
  ∃ opt w',
    Script.configure
      (Sample.args "slot_tagger_sen_level" "2tails" "single_cls_CE" false None)
    = OK opt
    ∧ task_st opt = "slot_tagger_sen_level"
    ∧ Script.main (H:=Sample.imports)
        (Sample.args "slot_tagger_sen_level" "2tails" "single_cls_CE" false None)
        Sample.world0
      = (Raise (NameError "model_tag"), w').
Proof.
  destruct (plain_tagger_unbound (H:=Sample.imports)
              (Sample.args "slot_tagger_sen_level" "2tails" "single_cls_CE"
                 false None) _ Sample.world0
              ltac:(vm_compute; reflexivity) eq_refl)
    as (_ & _ & w1 & evs & Hmain & _).
  eexists _, w1. split; [vm_compute; reflexivity|]. split; [reflexivity|].
  exact Hmain.
Defined.

(** A testing run with the plain tagger and the intent task stops on
    [class_to_idx], not on [model_tag]. *)
Lemma plain_tagger_unbound_counterexample :
  ∃ opt,
    Script.configure
      (Sample.args "slot_tagger_sen_level" "2tails" "single_cls_CE" true
         (Some "out")) = OK opt
    ∧ task_st opt = "slot_tagger_sen_level"
    ∧ (Script.main (H:=Sample.imports)
         (Sample.args "slot_tagger_sen_level" "2tails" "single_cls_CE" true
            (Some "out")) Sample.world0).1
      = Raise (NameError "class_to_idx")
    ∧ (Script.main (H:=Sample.imports)
         (Sample.args "slot_tagger_sen_level" "2tails" "single_cls_CE" true
            (Some "out")) Sample.world0).1
      ≠ Raise (NameError "model_tag").
Proof.
  eexists. split; [vm_compute; reflexivity|]. split; [reflexivity|].
  assert ((Script.main (H:=Sample.imports)
             (Sample.args "slot_tagger_sen_level" "2tails" "single_cls_CE" true
                (Some "out")) Sample.world0).1
          = Raise (NameError "class_to_idx")) as -> by run.
  split; [reflexivity|discriminate].
Qed.

(** A testing run with the CRF tagger. *)
Lemma standalone_evaluation_fails_witness :
  ∃ e w',
    Script.main (H:=Sample.imports)
      (Sample.args "slot_tagger_with_crf_sen_level" "2tails" "single_cls_CE"
         true (Some "out")) Sample.world0 = (Raise e, w')
    ∧ e = NameError "ext_sen_size"
    ∧ Spec.no_data_read (Script.trace w').
Proof.
  destruct (standalone_evaluation_fails (H:=Sample.imports)
              (Sample.args "slot_tagger_with_crf_sen_level" "2tails"
                 "single_cls_CE" true (Some "out")) Sample.world0 eq_refl)
    as (e & w' & evs & Hmain & Htrace & Hread & _ & Hname & _).
  exists e, w'. split; [exact Hmain|]. split.
  - pose proof (Hname _ ltac:(vm_compute; reflexivity)) as He. exact He.
  - rewrite Htrace. exact Hread.
Defined.

(** * More properties of the script

    ** The range of the metrics *)



Lemma Qdiv_bounds (x d c : Q) :
  (0 < d)%Q → (0 <= x)%Q → (x <= c * d)%Q → (0 <= x / d)%Q ∧ (x / d <= c)%Q.
Proof.
  intros Hd Hx Hc. split.
  - apply Qle_shift_div_l; [done|]. by rewrite Qmult_0_l.
  - by apply Qle_shift_div_r.
Qed.

Lemma prf_range (tp fp fn : nat) (p r f1 : Q) :
  Eval.prf tp fp fn = OK (p, r, f1) →
  (0 <= p)%Q ∧ (p <= 100)%Q ∧ (0 <= r)%Q ∧ (r <= 100)%Q
  ∧ (0 <= f1)%Q ∧ (f1 <= 100)%Q.
Proof.
  rewrite prf_spec. destruct (tp =? 0) eqn:E.
  - intros [= <- <- <-]. repeat split; done.
  - apply Nat.eqb_neq in E. intros [= <- <- <-].
    pose proof (nat_Q_pos tp E) as Ht.
    pose proof (nat_Q_nonneg fp) as Hfp. pose proof (nat_Q_nonneg fn) as Hfn.
    set (t := Py.nat_Q tp) in *. set (a := Py.nat_Q fp) in *.
    set (b := Py.nat_Q fn) in *.
    destruct (Qdiv_bounds (100 * t) (t + a) 100) as [P1 P2]; [lra..|].
    destruct (Qdiv_bounds (100 * t) (t + b) 100) as [R1 R2]; [lra..|].
    destruct (Qdiv_bounds (100 * 2 * t) (2 * t + b + a) 100) as [F1 F2]; [lra..|].
    done.
Qed.


(** ** The accepted command lines and the derived options *)

Lemma assert_true b : b = true → Script.assert b = OK tt.
Proof. by intros ->. Qed.

Lemma accepted_configure a : Runs.accepted a → ∃ opt, Script.configure a = OK opt.
Proof.
  intros (H1 & H2 & H3 & H4 & H5 & H6 & H7). unfold Script.configure.
  rewrite (assert_true (_ && _)).
  2:{ apply andb_true_intro. split; by apply bool_decide_eq_true. }
  simpl.
  rewrite (assert_true (bool_decide (Script.a_task_st a ∈ _)))
    by by apply bool_decide_eq_true.
  simpl.
  rewrite (assert_true (bool_decide (Script.a_task_sc a ∈ _)))
    by by apply bool_decide_eq_true.
  simpl.
  rewrite (assert_true (bool_decide (Script.a_sc_type a ∈ _)))
    by by apply bool_decide_eq_true.
  simpl.
  rewrite (assert_true (_ && _)).
  2:{ apply andb_true_intro. split; [by apply bool_decide_eq_true|].
      by apply Qle_bool_iff. }
  simpl. eauto.
Qed.

(** X1 (lines 71-89): the command lines that pass.  The five assertions
    let a command line through exactly when [testing] agrees with both
    paths being given, the two tasks and the loss type are among the
    listed names, and the weight is in (0,1]; any other command line
    stops on [AssertionError]. *)
Theorem configure_accepts (a : Script.args) :
  (Runs.accepted a ↔ ∃ opt, Script.configure a = OK opt)
  ∧ (¬ Runs.accepted a ↔ Script.configure a = Raise AssertionError).
Proof.
  assert ((∃ opt, Script.configure a = OK opt) → Runs.accepted a) as Hback.
  { intros [opt Hc]. apply configure_inv in Hc.
    destruct Hc as (H1 & H2 & H3 & H4 & H5 & H6 & H7 & _).
    by repeat split. }
  split; [split; [apply accepted_configure|exact Hback]|].
  split.
  - intros Hn. destruct (Script.configure a) as [e|opt] eqn:Hc.
    + by rewrite (configure_raises a e Hc).
    + destruct Hn. apply Hback. by exists opt.
  - intros Hc Ha. apply accepted_configure in Ha as [opt Ho].
    rewrite Ho in Hc. inversion Hc.
Qed.

(** X2 (lines 73-91): the options that the script derives.  The batch size
    of the evaluation passes is the one given, or the training batch size
    when 0 is given; [crf] and [multiClass] say which of the two accepted
    names was chosen; the intent task is switched off exactly when the
    weight of the slot task is 1 or the task is ["none"], and when it is
    on its name is one of the four classifiers and both tasks have a
    positive weight. *)
Theorem derived_options (a : Script.args) (opt : options) :
  Script.configure a = OK opt →
  (* the batch size of the evaluation passes *)
  (Script.a_test_batchSize a = 0 → test_batchSize opt = batchSize opt)
  ∧ (Script.a_test_batchSize a ≠ 0 →
     test_batchSize opt = Script.a_test_batchSize a)
  ∧ (test_batchSize opt = 0 ↔ batchSize opt = 0 ∧ Script.a_test_batchSize a = 0)
  (* the two flags *)
  ∧ (crf opt = true ↔ task_st opt = "slot_tagger_with_crf_sen_level")
  ∧ (crf opt = false ↔ task_st opt = "slot_tagger_sen_level")
  ∧ (multiClass opt = true ↔ sc_type opt = "multi_cls_BCE")
  ∧ (multiClass opt = false ↔ sc_type opt = "single_cls_CE")
  (* the intent task *)
  ∧ (task_sc opt = None
     ↔ (st_weight opt == 1)%Q ∨ Script.a_task_sc a = "none")
  ∧ (∀ kind, task_sc opt = Some kind →
       kind = Script.a_task_sc a
       ∧ kind ∈ ["2tails"; "maxPooling"; "hiddenCNN"; "hiddenAttention"]
       ∧ Py.bool_of (task_sc opt) = true
       ∧ (0 < st_weight opt)%Q ∧ (st_weight opt < 1)%Q
       ∧ (0 < 1 - st_weight opt)%Q).
Proof.
  intros Hc. pose proof (task_sc_kind a opt) as Hkind.
  specialize (Hkind) with (1 := Hc).
  unfold Script.configure in Hc.
  apply res_bind_inv in Hc as ([] & H1 & Hc). apply assert_inv in H1.
  apply res_bind_inv in Hc as ([] & H2 & Hc). apply assert_inv in H2.
  apply res_bind_inv in Hc as ([] & H3 & Hc). apply assert_inv in H3.
  apply res_bind_inv in Hc as ([] & H4 & Hc). apply assert_inv in H4.
  apply res_bind_inv in Hc as ([] & H5 & Hc). apply assert_inv in H5.
  injection Hc as <-. simpl in *.
  apply andb_prop in H5 as [H5a H5b].
  apply bool_decide_eq_true in H2, H3, H4, H5a. apply Qle_bool_iff in H5b.
  split; [by intros ->|].
  split; [intros Hn; by apply Nat.eqb_neq in Hn as ->|].
  split.
  { destruct (Script.a_test_batchSize a =? 0) eqn:E.
    - apply Nat.eqb_eq in E. split; [by intros ->|by intros [-> _]].
    - apply Nat.eqb_neq in E. split; [by intros ?|by intros [_ ?]]. }
  split; [apply bool_decide_eq_true|].
  split.
  { rewrite bool_decide_eq_false. split.
    - intros Hn. apply elem_of_cons in H2 as [H2|H2]; [done|].
      by apply list_elem_of_singleton in H2.
    - intros ->. done. }
  split; [apply bool_decide_eq_true|].
  split.
  { rewrite bool_decide_eq_false. split.
    - intros Hn. apply elem_of_cons in H4 as [H4|H4]; [done|].
      by apply list_elem_of_singleton in H4.
    - intros ->. done. }
  split.
  { destruct (Qeq_bool (Script.a_st_weight a) 1) eqn:E; simpl.
    - apply Qeq_bool_iff in E. split; [by left|done].
    - case_bool_decide as Hnone; [split; [by right|done]|].
      split; [done|]. intros [Hw|Hw]; [|done].
      apply Qeq_bool_iff in Hw. congruence. }
  intros kind Hk. destruct (Hkind kind Hk) as [Hin Hb].
  destruct (Qeq_bool (Script.a_st_weight a) 1) eqn:E; simpl in *; [done|].
  case_bool_decide as Hnone; [done|]. injection Hk as <-.
  split; [done|]. split; [done|]. split; [done|]. split; [done|].
  assert (¬ (Script.a_st_weight a == 1)%Q) as Hne.
  { intros Hw. apply Qeq_bool_iff in Hw. congruence. }
  split; lra.
Qed.

Lemma derived_options_witness :
  ∃ opt,
    Script.configure
      (Sample.args "slot_tagger_with_crf_sen_level" "2tails" "multi_cls_BCE"
         false None) = OK opt
    ∧ test_batchSize opt = 64 ∧ crf opt = true ∧ multiClass opt = true
    ∧ task_sc opt = Some "2tails".
Proof.
  eexists. split; [vm_compute; reflexivity|].
  edestruct (derived_options
               (Sample.args "slot_tagger_with_crf_sen_level" "2tails"
                  "multi_cls_BCE" false None))
    as (Hb & _ & _ & Hcrf & _ & Hmulti & _);
    [vm_compute; reflexivity|].
  split; [exact (Hb eq_refl)|]. split; [by apply Hcrf|].
  split; [by apply Hmulti|]. reflexivity.
Defined.

(** ** Balance of the slot counters *)

Lemma filter_members_length {A} `{EqDecision A} (l k : list A) :
  NoDup l → NoDup k →
  length (filter (λ x, x ∈ k) l) = length (filter (λ x, x ∈ l) k).
Proof.
  intros Hl Hk. apply Permutation_length, NoDup_Permutation.
  - by apply NoDup_filter.
  - by apply NoDup_filter.
  - intros x. rewrite !list_elem_of_filter. tauto.
Qed.

Lemma filter_all {A} (P : A → Prop) `{∀ x, Decision (P x)} (l : list A) :
  Forall P l →
  length (filter P l) = length l ∧ length (filter (λ x, ¬ P x) l) = 0.
Proof.
  intros HP. pose proof (filter_length_split P l) as Hs.
  assert (length (filter P l) = length l) as E; [|lia].
  clear Hs. induction l as [|x l IH]; [done|].
  apply Forall_cons in HP as [Hx HP].
  rewrite filter_cons. destruct (decide (P x)); [|done].
  simpl. by rewrite IH.
Qed.

(** X4 (lines 337-346): balance of the slot counters of one example.
    When neither chunk list has a duplicate, the increase of [TP] plus
    that of [FN] is the number of gold chunks.  When both lists have the
    same members (in particular when the predicted tags are the gold
    tags) only [TP] moves, by the number of chunks; when both are empty
    nothing moves. *)
Theorem slot_counts_balance {chunk} `{EqDecision chunk}
    (get_chunks : list string → list chunk) (pred_seq lab_seq : list string)
    (s : Eval.state) :
  ∃ s' pred_chunks label_chunks,
    Eval.score_slots get_chunks pred_seq lab_seq s = (OK tt, s')
    ∧ pred_chunks = get_chunks ("O" :: pred_seq ++ ["O"])
    ∧ label_chunks = get_chunks ("O" :: lab_seq ++ ["O"])
    (* without duplicates, the gold chunks are the hits and the misses *)
    ∧ (NoDup pred_chunks → NoDup label_chunks →
       (Eval.TP s' - Eval.TP s) + (Eval.FN s' - Eval.FN s) = length label_chunks)
    (* the same chunks on both sides: hits only *)
    ∧ ((∀ c, c ∈ pred_chunks ↔ c ∈ label_chunks) →
       Eval.TP s' = Eval.TP s + length pred_chunks
       ∧ Eval.FP s' = Eval.FP s ∧ Eval.FN s' = Eval.FN s)
    ∧ (pred_seq = lab_seq →
       Eval.TP s' = Eval.TP s + length label_chunks
       ∧ Eval.FP s' = Eval.FP s ∧ Eval.FN s' = Eval.FN s)
    (* nothing to find and nothing found: no counter moves *)
    ∧ (pred_chunks = [] → label_chunks = [] →
       Eval.TP s' = Eval.TP s ∧ Eval.FP s' = Eval.FP s ∧ Eval.FN s' = Eval.FN s).
Proof.
  unfold Eval.score_slots.
  set (pred_chunks := get_chunks (["O"] ++ pred_seq ++ ["O"])).
  set (label_chunks := get_chunks (["O"] ++ lab_seq ++ ["O"])).
  destruct (count_membership_spec Eval.incr_TP Eval.incr_FP Eval.incr_FN
              pred_chunks label_chunks s) as (s' & E & Hn & _).
  exists s', pred_chunks, label_chunks. split; [exact E|].
  split; [done|]. split; [done|].
  pose proof (Hn Eval.TP 1 0 0 ltac:(by intros []) ltac:(by intros [])
                ltac:(by intros [])) as HTP.
  pose proof (Hn Eval.FP 0 1 0 ltac:(by intros []) ltac:(by intros [])
                ltac:(by intros [])) as HFP.
  pose proof (Hn Eval.FN 0 0 1 ltac:(by intros []) ltac:(by intros [])
                ltac:(by intros [])) as HFN.
  assert ((∀ c, c ∈ pred_chunks ↔ c ∈ label_chunks) →
          Eval.TP s' = Eval.TP s + length pred_chunks
          ∧ Eval.FP s' = Eval.FP s ∧ Eval.FN s' = Eval.FN s) as Hsame.
  { intros Hsame.
    destruct (filter_all (λ x, x ∈ label_chunks) pred_chunks) as [L1 L2].
    { apply Forall_forall. intros c Hc. by apply Hsame. }
    destruct (filter_all (λ x, x ∈ pred_chunks) label_chunks) as [L3 L4].
    { apply Forall_forall. intros c Hc. by apply Hsame. }
    cbv beta in *. lia. }
  split; [|split; [exact Hsame|split]].
  - intros Hp Hl.
    pose proof (filter_members_length pred_chunks label_chunks Hp Hl) as Hlen.
    pose proof (filter_length_split (λ x, x ∈ pred_chunks) label_chunks) as Hs.
    cbv beta in *. lia.
  - intros Heq. subst lab_seq.
    destruct Hsame as (H1 & H2 & H3); [done|]. done.
  - intros Hp Hl. rewrite Hp in HTP, HFP. rewrite Hl in HFN.
    simpl in *. lia.
Qed.

(** ** What an evaluation pass leaves alone, and its losses *)

Lemma preserves_gets {S A X} (c : S → X) (g : S → A) : Spec.preserves c (gets g).
Proof. done. Qed.

Lemma preserves_bind_post {S A B X} (c : S → X) (P : A → Prop) (m : M S A)
    (k : A → M S B) :
  Spec.preserves c m → (∀ s a s', m s = (OK a, s') → P a) →
  (∀ a, P a → Spec.preserves c (k a)) → Spec.preserves c (bind m k).
Proof.
  intros Hm HP Hk s. unfold bind. specialize (Hm s). specialize (HP s).
  destruct (m s) as [[e|a] s1]; simpl in *; [done|].
  rewrite <- Hm. apply Hk. by eapply HP.
Qed.


Lemma finish_inv (s s' : Eval.state) (res : Eval.result) :
  Eval.finish s = (OK res, s') →
  s' = s
  ∧ Eval.prf (Eval.TP s) (Eval.FP s) (Eval.FN s)
    = OK (Eval.p res, Eval.r res, Eval.f1 res)
  ∧ Eval.prf (Eval.TP2 s) (Eval.FP2 s) (Eval.FN2 s)
    = OK (Eval.cp res, Eval.cr res, Eval.cf res)
  ∧ Eval.mean_losses res = Eval.np_mean (Eval.losses s).
Proof.
  unfold Eval.finish. intros E.
  apply bind_inv in E as (s0 & s1 & H1 & E). injection H1 as <- <-.
  apply bind_inv in E as ([[p r] f1] & s1 & H1 & E).
  apply lift_inv in H1 as [H1 ->].
  apply bind_inv in E as ([[cp cr] cf] & s1 & H2 & E).
  apply lift_inv in H2 as [H2 ->].
  injection E as <- <-. done.
Qed.

Ltac frame' :=
  repeat first
    [ apply preserves_ret | apply preserves_lift | apply preserves_gets
    | apply preserves_bind; [|intros ?]
    | apply preserves_for_each; intros ?
    | apply preserves_modify; intros []; reflexivity
    | match goal with
      | |- Spec.preserves _ (if ?b then _ else _) => destruct b
      | |- Spec.preserves _ (match ?x with _ => _ end) => destruct x
      | |- Spec.preserves _ (let (_, _) := ?x in _) => destruct x
      end ].

Section passes.
Context {chunk : Type} `{EqDecision chunk}.
Context {Feat Tags Classes SenFeats Sens CrfFeats Info : Type}.
Variable opt : options.
Variables idx_to_tag idx_to_word idx_to_class : gmap nat string.
Variable tag_to_idx : gmap string nat.
Variable train_data_index : option (list nat).
Variable tag_loss_function : list (list Q) → list nat → res Q.
Variable class_loss_function : list (list Q) → class_tensor → res Q.
Variable get_chunks : list string → list chunk.
Variable get_minibatch_with_class :
  list Feat → Tags → Classes → list nat → nat → nat → bool → bool → minibatch.
Variable get_sen_minibatch : SenFeats → list nat → nat → nat → Sens.
Variable _get_lstm_features : Sens → list nat → CrfFeats * Info.
Variable forward : CrfFeats → list (list nat) → list Q * list (list nat).
Variable neg_log_likelihood : CrfFeats → list (list nat) → list (list nat) → Q.
Variable model_tag : list (list nat) → list nat → list (list (list Q)) * Info.
Variable model_class : option (Info → list (list Q)).

#[local] Abbreviation batch :=
  (Eval.batch_step opt idx_to_tag idx_to_word idx_to_class tag_to_idx
     train_data_index tag_loss_function class_loss_function get_chunks
     get_minibatch_with_class get_sen_minibatch _get_lstm_features forward
     neg_log_likelihood model_tag model_class).
#[local] Abbreviation pass :=
  (Eval.decode opt idx_to_tag idx_to_word idx_to_class tag_to_idx
     train_data_index tag_loss_function class_loss_function get_chunks
     get_minibatch_with_class get_sen_minibatch _get_lstm_features forward
     neg_log_likelihood model_tag model_class).

Lemma example_step_frame {X} (c : Eval.state → X) mb snt_probs ip :
  (∀ s, c (Eval.incr_TP s) = c s) → (∀ s, c (Eval.incr_FP s) = c s) →
  (∀ s, c (Eval.incr_FN s) = c s) →
  (∀ line s, c (Eval.f_write line s) = c s) →
  Spec.preserves c (Eval.score_intent opt idx_to_class mb snt_probs ip.1) →
  Spec.preserves c
    (Eval.example_step opt idx_to_tag idx_to_word idx_to_class get_chunks mb
       snt_probs ip).
Proof.
  intros H1 H2 H3 H4 H5. destruct ip as [idx pred_line].
  unfold Eval.example_step.
  apply preserves_bind; [apply preserves_lift|intros [[n pred_seq] lab_seq]].
  apply preserves_bind.
  { unfold Eval.score_slots. by apply count_membership_preserves. }
  intros _. apply preserves_bind; [apply preserves_lift|intros wtl].
  apply preserves_bind; [exact H5|intros [g p]].
  unfold Eval.write_line.
  destruct (testing opt);
    repeat first [ apply preserves_lift | apply preserves_bind; [|intros ?]
                 | apply preserves_modify; intros ?; apply H4 ].
Qed.

Lemma class_outputs_frame {X} (c : Eval.state → X) mb tag_loss info :
  (∀ l s, c (Eval.losses_append l s) = c s) →
  Spec.preserves c
    (Eval.class_outputs opt class_loss_function model_class mb tag_loss info).
Proof.
  intros H1. unfold Eval.class_outputs.
  destruct (Py.bool_of (task_sc opt));
    repeat first [ apply preserves_lift | apply preserves_ret
                 | apply preserves_bind; [|intros ?]
                 | apply preserves_modify; intros ?; apply H1 ].
Qed.

Lemma class_outputs_off mb tag_loss info s a s' :
  Py.bool_of (task_sc opt) = false →
  Eval.class_outputs opt class_loss_function model_class mb tag_loss info s
    = (OK a, s') →
  a = None.
Proof.
  intros Hb. unfold Eval.class_outputs. rewrite Hb. intros E.
  apply bind_inv in E as (l1 & s1 & _ & E).
  apply bind_inv in E as ([] & s2 & _ & E). by injection E as <- _.
Qed.



Lemma score_intent_negatives mb snt_probs idx :
  Spec.preserves (λ s, (Eval.TN s, Eval.TN2 s))
    (Eval.score_intent opt idx_to_class mb snt_probs idx).
Proof.
  unfold Eval.score_intent, Eval.score_intent_multi, Eval.score_intent_single.
  frame'; try (apply count_membership_preserves; intros []; reflexivity).
Qed.

Lemma pass_frame {X} (c : Eval.state → X) sen_feats data_feats data_tags
    data_class :
  (∀ j, Spec.preserves c
          (batch sen_feats data_feats data_tags data_class
             (seq 0 (length data_feats)) j)) →
  Spec.preserves c (pass sen_feats data_feats data_tags data_class).
Proof.
  intros Hb. unfold Eval.decode.
  apply preserves_bind; [apply preserves_lift|intros offsets].
  apply preserves_bind; [|intros _; unfold Eval.finish; frame'].
  apply preserves_for_each. exact Hb.
Qed.

Lemma batch_frame {X} (c : Eval.state → X) (P : option Eval.snt → Prop)
    sen_feats data_feats data_tags data_class data_index j :
  (∀ l s, c (Eval.losses_append l s) = c s) →
  (∀ mb tl info s a s',
     Eval.class_outputs opt class_loss_function model_class mb tl info s
       = (OK a, s') → P a) →
  (∀ mb sp ip, P sp →
     Spec.preserves c
       (Eval.example_step opt idx_to_tag idx_to_word idx_to_class get_chunks
          mb sp ip)) →
  Spec.preserves c
    (batch sen_feats data_feats data_tags data_class data_index j).
Proof.
  intros H1 H2 H3. unfold Eval.batch_step.
  apply preserves_bind; [apply preserves_lift|intros [mb input_sens]].
  apply preserves_bind; [apply preserves_lift|intros [[tl tps] info]].
  apply (preserves_bind_post c P).
  - by apply class_outputs_frame.
  - apply H2.
  - intros sp Hsp. apply preserves_for_each. intros ip. by apply H3.
Qed.

Lemma pass_negatives sen_feats data_feats data_tags data_class :
  Spec.preserves (λ s, (Eval.TN s, Eval.TN2 s))
    (pass sen_feats data_feats data_tags data_class).
Proof.
  apply pass_frame. intros j. apply (batch_frame _ (λ _, True)).
  - by intros ? [].
  - done.
  - intros mb sp ip _. apply example_step_frame; try by intros [].
    apply score_intent_negatives.
Qed.

Lemma pass_intents_off sen_feats data_feats data_tags data_class :
  Py.bool_of (task_sc opt) = false →
  Spec.preserves (λ s, (Eval.TP2 s, Eval.FP2 s, Eval.FN2 s))
    (pass sen_feats data_feats data_tags data_class).
Proof.
  intros Hoff. apply pass_frame. intros j.
  apply (batch_frame _ (λ sp, sp = None)).
  - by intros ? [].
  - intros mb tl info s a s'. by apply class_outputs_off.
  - intros mb sp ip ->. apply example_step_frame; by intros [].
Qed.

Lemma score_intent_balance mb snt_probs idx :
  multiClass opt = false →
  Spec.preserves (λ s, Z.of_nat (Eval.FP2 s) - Z.of_nat (Eval.FN2 s))%Z
    (Eval.score_intent opt idx_to_class mb snt_probs idx).
Proof.
  intros Hsingle. unfold Eval.score_intent. rewrite Hsingle.
  destruct snt_probs as [sp|]; [|apply preserves_ret].
  unfold Eval.score_intent_single.
  apply preserves_bind; [apply preserves_lift|intros i].
  apply preserves_bind; [apply preserves_lift|intros pred_class].
  apply preserves_bind; [apply preserves_lift|intros raw].
  apply preserves_bind; [apply preserves_lift|intros gold_classes].
  apply preserves_bind; [|intros _; frame'].
  destruct (decide _).
  - apply preserves_modify. by intros [].
  - intros s. unfold bind, modify. simpl. lia.
Qed.

Lemma pass_balance sen_feats data_feats data_tags data_class :
  multiClass opt = false →
  Spec.preserves (λ s, Z.of_nat (Eval.FP2 s) - Z.of_nat (Eval.FN2 s))%Z
    (pass sen_feats data_feats data_tags data_class).
Proof.
  intros Hsingle. apply pass_frame. intros j.
  apply (batch_frame _ (λ _, True)).
  - by intros ? [].
  - done.
  - intros mb sp ip _. apply example_step_frame; try by intros [].
    by apply score_intent_balance.
Qed.



Lemma pass_inv sen_feats data_feats data_tags data_class s res s' :
  pass sen_feats data_feats data_tags data_class s = (OK res, s') →
  ∃ offsets,
    Py.range0 (length data_feats) (test_batchSize opt) = OK offsets
    ∧ for_each offsets
        (batch sen_feats data_feats data_tags data_class
           (seq 0 (length data_feats))) s = (OK tt, s')
    ∧ Eval.finish s' = (OK res, s').
Proof.
  unfold Eval.decode. intros E.
  apply bind_inv in E as (offsets & s1 & H1 & E).
  apply lift_inv in H1 as [H1 ->]. rewrite length_seq in H1.
  apply bind_inv in E as ([] & s1 & H2 & E).
  pose proof (finish_inv _ _ _ E) as [-> _]. eauto.
Qed.


(** X5 (lines 277-400): what an evaluation pass never counts.  Whatever
    its outcome, a pass leaves [TN] and [TN2] as they were; without the
    intent task it also leaves [TP2], [FP2] and [FN2], so that the three
    intent metrics it returns are 0. *)
Theorem pass_untouched_counters sen_feats data_feats data_tags data_class
    (s : Eval.state) (r : res Eval.result) (s' : Eval.state) :
  pass sen_feats data_feats data_tags data_class s = (r, s') →
  Eval.TN s' = Eval.TN s ∧ Eval.TN2 s' = Eval.TN2 s
  ∧ (Py.bool_of (task_sc opt) = false →
     Eval.TP2 s' = Eval.TP2 s ∧ Eval.FP2 s' = Eval.FP2 s
     ∧ Eval.FN2 s' = Eval.FN2 s
     ∧ ∀ res, r = OK res → Eval.TP2 s = 0 →
         Eval.cp res = 0%Q ∧ Eval.cr res = 0%Q ∧ Eval.cf res = 0%Q).
Proof.
  intros E.
  pose proof (preserves_run _ _ _ _ _
                (pass_negatives sen_feats data_feats data_tags data_class) E)
    as [= -> ->].
  split; [done|]. split; [done|]. intros Hoff.
  pose proof (preserves_run _ _ _ _ _
                (pass_intents_off sen_feats data_feats data_tags data_class
                   Hoff) E) as [= H1 H2 H3].
  do 3 (split; [done|]). intros res -> Hz.
  apply pass_inv in E as (offsets & _ & _ & E).
  apply finish_inv in E as (_ & _ & E & _).
  rewrite H1, Hz in E. by injection E as <- <- <-.
Qed.

(** X6 (lines 366-375): single-label intents.  In single-label mode every
    miss adds to [FP2] and to [FN2] together, so a pass moves both by the
    same amount, whatever its outcome; from equal counters the intent
    precision and recall it returns are equal, and so is the F1. *)
Theorem single_label_balance sen_feats data_feats data_tags data_class
    (s : Eval.state) (r : res Eval.result) (s' : Eval.state) :
  multiClass opt = false →
  pass sen_feats data_feats data_tags data_class s = (r, s') →
  Eval.FP2 s' + Eval.FN2 s = Eval.FN2 s' + Eval.FP2 s
  ∧ ∀ res, r = OK res → Eval.FP2 s = Eval.FN2 s →
      Eval.cp res = Eval.cr res ∧ (Eval.cf res == Eval.cp res)%Q.
Proof.
  intros Hsingle E.
  pose proof (preserves_run _ _ _ _ _
                (pass_balance sen_feats data_feats data_tags data_class
                   Hsingle) E) as Hb.
  cbv beta in Hb. split; [lia|]. intros res -> Hs.
  assert (Eval.FP2 s' = Eval.FN2 s') as Heq by lia.
  apply pass_inv in E as (offsets & _ & _ & E).
  apply finish_inv in E as (_ & _ & E & _).
  rewrite <- Heq, prf_spec in E. injection E as E.
  destruct (Eval.TP2 s' =? 0) eqn:Hz.
  - by injection E as <- <- <-.
  - injection E as <- <- <-. split; [done|].
    apply Nat.eqb_neq in Hz. pose proof (nat_Q_pos _ Hz) as Ht.
    pose proof (nat_Q_nonneg (Eval.FP2 s')) as Hf.
    field. lra.
Qed.


(** X8 (lines 277-283, 389-400): a pass without work.  With a batch size
    of 0 the pass stops on the [ValueError] of [range], before any batch;
    on an empty corpus it returns metrics that are all 0 and no mean loss,
    and writes no line. *)
Theorem pass_edge_cases sen_feats data_feats data_tags data_class
    (s : Eval.state) :
  (test_batchSize opt = 0 →
   pass sen_feats data_feats data_tags data_class s = (Raise ValueError, s))
  ∧ (test_batchSize opt ≠ 0 →
     pass sen_feats [] data_tags data_class Eval.init
     = (OK {| Eval.mean_losses := None;
              Eval.p := 0; Eval.r := 0; Eval.f1 := 0;
              Eval.cp := 0; Eval.cr := 0; Eval.cf := 0 |}, Eval.init)).
Proof.
  split.
  - intros Hz. unfold Eval.decode, bind, lift, Py.range0. by rewrite Hz.
  - intros Hnz. unfold Eval.decode, bind, lift, Py.range0.
    apply Nat.eqb_neq in Hnz. rewrite Hnz. simpl.
    destruct (test_batchSize opt) as [|[|b]] eqn:Hb; [done|done|].
    rewrite Nat.div_small by lia. done.
Qed.

End passes.

(** ** Seeding, and the training block without an optimizer or without work *)

Section runs.
Context `{Script.Imports}.

(** X11 (lines 145-152): a run is seeded.  The outcome and the events of
    the script do not depend on the state of numpy's generator at the
    start; once the command line is accepted the whole final state does
    not: the generator is seeded from [random_seed] before it is used. *)
Theorem run_is_seeded (a : Script.args) (rng1 rng2 : Script.Rng)
    (tr : list Script.event) :
  (Script.main a {| Script.np_random := rng1; Script.trace := tr |}).1
  = (Script.main a {| Script.np_random := rng2; Script.trace := tr |}).1
  ∧ Script.trace
      (Script.main a {| Script.np_random := rng1; Script.trace := tr |}).2
    = Script.trace
        (Script.main a {| Script.np_random := rng2; Script.trace := tr |}).2
  ∧ ((∃ opt, Script.configure a = OK opt) →
     Script.main a {| Script.np_random := rng1; Script.trace := tr |}
     = Script.main a {| Script.np_random := rng2; Script.trace := tr |}).
Proof.
  destruct (Script.configure a) as [e|opt] eqn:Hc.
  - unfold Script.main, bind, lift. rewrite Hc. simpl.
    split; [done|]. split; [done|]. intros [opt Ho]. inversion Ho.
  - assert (Script.main a {| Script.np_random := rng1; Script.trace := tr |}
            = Script.main a {| Script.np_random := rng2; Script.trace := tr |})
      as E; [|by rewrite E].
    pose proof (configure_inv a opt Hc)
      as (T1 & _ & _ & _ & _ & _ & _ & _ & Htest & Hout & _).
    unfold Script.main, bind, lift, Script.emit, modify. rewrite Hc.
    unfold OK at 1 3. cbn beta iota.
    destruct (testing opt) eqn:Ht.
    + destruct (out_path opt) as [path|] eqn:Hp.
      2:{ rewrite <- Htest, <- Hout in T1. discriminate. }
      reflexivity.
    + reflexivity.
Qed.

Lemma bind_lift {S A B} (r : res A) (k : A → M S B) (s : S) :
  bind (lift r) k s = match r with inl e => (inl e, s) | inr a => k a s end.
Proof. by destruct r. Qed.

Lemma bind_raise {S A B} (m : M S A) (k : A → M S B) (s s' : S) e :
  m s = (Raise e, s') → bind m k s = (Raise e, s').
Proof. unfold bind. by intros ->. Qed.

Lemma bind_ok {S A B} (m : M S A) (k : A → M S B) (s s' : S) a :
  m s = (OK a, s') → bind m k s = k a s'.
Proof. unfold bind. by intros ->. Qed.

Lemma train_batch_unbound_optimizer opt d tlf j st losses w :
  Script.optimizer st = None →
  ∃ e, Script.train_batch opt d tlf j (st, losses) w = (Raise e, w).
Proof.
  intros Ho. unfold Script.train_batch. rewrite bind_lift.
  destruct (mb_line_nums _); [by eexists|].
  unfold OK at 1. cbn beta iota. rewrite bind_lift.
  destruct (Script.train_tag_loss _ _ _ _ _ _) as [e|[tl info]]; [by eexists|].
  rewrite bind_lift.
  destruct (Script.train_loss_entry _ _ _ _ _) as [e|entry]; [by eexists|].
  rewrite bind_lift, Ho. by eexists.
Qed.

Lemma train_batches_unbound_optimizer opt d tlf offsets acc w :
  Script.optimizer acc.1 = None → offsets ≠ [] →
  ∃ e, Script.for_fold offsets (Script.train_batch opt d tlf) acc w
       = (Raise e, w).
Proof.
  intros Ho Hne. destruct offsets as [|j offsets]; [done|].
  destruct acc as [st losses]. cbn [Script.for_fold].
  destruct (train_batch_unbound_optimizer opt d tlf j st losses w Ho) as [e He].
  exists e. by apply bind_raise.
Qed.


Lemma shuffle_run index w :
  Script.shuffle index w
  = (OK (Script.np_shuffle (Script.np_random w) index).1,
     {| Script.np_random := (Script.np_shuffle (Script.np_random w) index).2;
        Script.trace := Script.trace w ++ [Script.Shuffle] |}).
Proof. unfold Script.shuffle. by destruct (Script.np_shuffle _ _). Qed.

Lemma train_and_evaluate_unbound_optimizer opt exp_path d tlf i st w :
  Script.optimizer st = None →
  ∃ e, Script.train_and_evaluate opt exp_path d tlf i st w
       = (Raise e, Runs.shuffled st w).
Proof.
  intros Ho. unfold Script.train_and_evaluate.
  rewrite (bind_ok _ _ _ _ _ (shuffle_run _ _)). fold (Runs.shuffled st w).
  rewrite bind_lift.
  destruct (Script.on_model_class _ _ _) as [e|mc]; [by eexists|].
  rewrite bind_lift.
  destruct (batchSize opt =? 0); [by eexists|].
  unfold OK at 1. cbn beta iota. rewrite bind_lift.
  destruct (Py.range0 _ _) as [e|[|j offsets]]; [by eexists| |].
  - cbn [Script.for_fold]. unfold ret at 1.
    erewrite bind_ok by reflexivity. cbn beta iota. by eexists.
  - match goal with
    | |- context [Script.for_fold ?l ?b ?acc] =>
        destruct (train_batches_unbound_optimizer opt d tlf l acc
                    (Runs.shuffled st w)) as [e He]; [done|done|]
    end.
    exists e. by apply bind_raise.
Qed.

Lemma epoch_unbound_optimizer opt exp_path d tlf i st w :
  Script.optimizer st = None →
  ∃ e, Script.epoch opt exp_path d tlf i st w = (Raise e, Runs.shuffled st w).
Proof.
  intros Ho.
  destruct (train_and_evaluate_unbound_optimizer opt exp_path d tlf i st w Ho)
    as [e He].
  exists e. unfold Script.epoch. by apply bind_raise.
Qed.

Lemma training_no_epoch opt exp_path d tlf m mc optim w :
  max_epoch opt = 0 →
  Script.training opt exp_path d tlf m mc optim w = (Raise KeyError, w).
Proof. intros Hz. unfold Script.training. by rewrite Hz. Qed.

Lemma train_and_evaluate_empty opt exp_path d tlf i st w mc :
  Script.on_model_class opt Script.class_train (Script.model_class st) = OK mc →
  batchSize opt ≠ 0 →
  (Script.np_shuffle (Script.np_random w) (Script.train_data_index st)).1 = [] →
  Script.train_and_evaluate opt exp_path d tlf i st w
  = (Raise IndexError, Runs.shuffled st w).
Proof.
  intros Hmc Hnz Hnil. unfold Script.train_and_evaluate.
  rewrite (bind_ok _ _ _ _ _ (shuffle_run _ _)). fold (Runs.shuffled st w).
  rewrite bind_lift, Hmc. unfold OK at 1. cbn beta iota. rewrite bind_lift.
  apply Nat.eqb_neq in Hnz. rewrite Hnz, Hnil.
  unfold OK at 1. cbn beta iota. rewrite bind_lift.
  unfold Py.range0. rewrite Hnz. simpl.
  destruct (batchSize opt) as [|[|b]] eqn:Hb; [done|done|].
  rewrite Nat.div_small by lia. done.
Qed.

Lemma training_unbound_optimizer opt exp_path d tlf m mc w :
  ∃ e,
    Script.training opt exp_path d tlf m mc None w
    = (Raise e,
       if max_epoch opt =? 0 then w
       else {| Script.np_random :=
                 (Script.np_shuffle (Script.np_random w)
                    (seq 0 (Script.len_sen_feats (Script.train_sen_feats d)))).2;
               Script.trace := Script.trace w ++ [Script.Shuffle] |})
    ∧ (max_epoch opt = 0 → e = KeyError).
Proof.
  destruct (max_epoch opt) as [|n] eqn:Hn.
  - exists KeyError. split; [|done]. by apply training_no_epoch.
  - unfold Script.training. rewrite Hn.
    change (seq 0 (S n)) with (0 :: seq 1 n). cbn [Script.for_fold].
    match goal with
    | |- context [Script.epoch _ _ _ _ 0 ?st] =>
        destruct (epoch_unbound_optimizer opt exp_path d tlf 0 st w eq_refl)
          as [e He]
    end.
    exists e. split; [|done].
    apply bind_raise. apply bind_raise. exact He.
Qed.

(** X13 (lines 263-275, 452): the optimizer.  [optimizer] is left unbound
    exactly when the lower-cased name is none of [sgd], [adam],
    [adadelta], [rmsprop].  Without it the training block never
    completes: it stops in its first epoch right after the shuffle, with
    no optimizer step, no output file and no saved model (and on the
    [KeyError] of the last log line when there is no epoch at all). *)
Theorem unbound_optimizer (a : Script.args) (opt : options)
    (exp_path : string) (d : Script.dataset)
    (tlf : list (list Q) → list nat → res Q) (m : Script.TagModel)
    (mc : option Script.ClassModel) (w : Script.world) :
  (* which names bind [optimizer] *)
  (Script.construct_optimizer a opt m mc = OK None
   ↔ (∃ mc', Script.on_model_class opt id mc = OK mc')
     ∧ Script.lower (Script.a_optim a) ∉ ["sgd"; "adam"; "adadelta"; "rmsprop"])
  (* and what the training block does without it *)
  ∧ ∃ e,
      Script.training opt exp_path d tlf m mc None w
      = (Raise e,
         if max_epoch opt =? 0 then w
         else {| Script.np_random :=
                   (Script.np_shuffle (Script.np_random w)
                      (seq 0 (Script.len_sen_feats (Script.train_sen_feats d)))).2;
                 Script.trace := Script.trace w ++ [Script.Shuffle] |})
      ∧ (max_epoch opt = 0 → e = KeyError).
Proof.
  split.
  - unfold Script.construct_optimizer.
    destruct (Script.on_model_class opt id mc) as [e|mc'] eqn:Hmc; simpl.
    + split; [intros Hn; inversion Hn|intros [[mc' Hn] _]; inversion Hn].
    + case_bool_decide as Hin.
      * split; [intros Hn; inversion Hn|by intros [_ Hn]].
      * split; [intros _; eauto|done].
  - apply training_unbound_optimizer.
Qed.

(** X14 (lines 403-445, 459-461, 510-514): training without work.  With
    no epoch the last log line reads [best_result['iter']], which was
    never stored: [KeyError], nothing done.  With a batch size of 0 line
    417 divides by it: [ZeroDivisionError] right after the shuffle.  With
    no training example the mean of no loss has no component:
    [IndexError] right after the shuffle. *)
Theorem degenerate_training (opt : options) (exp_path : string)
    (d : Script.dataset) (tlf : list (list Q) → list nat → res Q) :
  (* no epoch: the final log line reads a result that was never stored *)
  (∀ m mc optim w,
     max_epoch opt = 0 →
     Script.training opt exp_path d tlf m mc optim w = (Raise KeyError, w))
  (* a batch size of 0: line 417 divides by it *)
  ∧ (∀ i st w mc,
       Script.on_model_class opt Script.class_train (Script.model_class st)
         = OK mc →
       batchSize opt = 0 →
       Script.train_and_evaluate opt exp_path d tlf i st w
       = (Raise ZeroDivisionError, Runs.shuffled st w))
  (* no training example: the mean of no loss has no component *)
  ∧ (∀ i st w mc,
       Script.on_model_class opt Script.class_train (Script.model_class st)
         = OK mc →
       batchSize opt ≠ 0 →
       (Script.np_shuffle (Script.np_random w) (Script.train_data_index st)).1
         = [] →
       Script.train_and_evaluate opt exp_path d tlf i st w
       = (Raise IndexError, Runs.shuffled st w)).
Proof.
  split; [intros; by apply training_no_epoch|]. split.
  - intros i st w mc Hmc Hz. unfold Script.train_and_evaluate.
    rewrite (bind_ok _ _ _ _ _ (shuffle_run _ _)). fold (Runs.shuffled st w).
    rewrite bind_lift, Hmc. unfold OK at 1. cbn beta iota.
    rewrite bind_lift, Hz. done.
  - intros i st w mc Hmc Hnz Hnil. by eapply train_and_evaluate_empty.
Qed.

End runs.

(** ** The events of the epochs and the best result *)

Lemma finish_range (s s' : Eval.state) (res : Eval.result) :
  Eval.finish s = (OK res, s') → Runs.in_range res.
Proof.
  intros E. apply finish_inv in E as (_ & H1 & H2 & _).
  apply prf_range in H1, H2. unfold Runs.in_range. tauto.
Qed.

Lemma score_range (opt : options) (val : Eval.result) :
  (0 < st_weight opt)%Q → (st_weight opt <= 1)%Q → Runs.in_range val →
  (0 <= Script.val_f1_score opt val)%Q ∧ (Script.val_f1_score opt val <= 100)%Q.
Proof.
  intros H0 H1 (_ & _ & _ & _ & F0 & F1 & _ & _ & _ & _ & C0 & C1).
  unfold Script.val_f1_score. destruct (Py.bool_of (task_sc opt)); [|done].
  split; nra.
Qed.

Section epochs.
Context `{Script.Imports}.

Lemma call_decode_range opt d tlf st sen_feats data_feats data_tags data_class
    path w val w' :
  Script.call_decode opt d tlf st sen_feats data_feats data_tags data_class
    path w = (OK val, w') →
  Runs.in_range val.
Proof.
  unfold Script.call_decode.
  destruct (Eval.decode _ _ _ _ _ _ _ _ _ _ _ _ _ _ _ _ _ _ _ _ _) as [r s] eqn:E.
  intros [= -> _]. apply pass_inv in E as (_ & _ & _ & E).
  by eapply finish_range.
Qed.

Lemma train_and_evaluate_range opt exp_path d tlf i st w st' val te w' :
  Script.train_and_evaluate opt exp_path d tlf i st w = (OK (st', val, te), w') →
  Runs.in_range val ∧ Runs.in_range te.
Proof.
  unfold Script.train_and_evaluate. intros E.
  apply bind_inv in E as (index & w1 & _ & E).
  apply bind_inv in E as (mc & w2 & _ & E).
  apply bind_inv in E as ([] & w3 & _ & E).
  apply bind_inv in E as (offsets & w4 & _ & E).
  apply bind_inv in E as ([st1 losses] & w5 & _ & E).
  apply bind_inv in E as (mean & w6 & _ & E).
  apply bind_inv in E as ([] & w7 & _ & E).
  apply bind_inv in E as (mc2 & w8 & _ & E).
  apply bind_inv in E as (val' & w9 & Hv & E).
  apply bind_inv in E as (? & w10 & _ & E).
  apply bind_inv in E as ([] & w11 & _ & E).
  apply bind_inv in E as (te' & w12 & Ht & E).
  apply bind_inv in E as (? & w13 & _ & E).
  apply bind_inv in E as ([] & w14 & _ & E).
  injection E as _ <- <- _.
  apply call_decode_range in Hv, Ht. done.
Qed.



Lemma epoch_inv opt exp_path d tlf i st w st' w' :
  Script.epoch opt exp_path d tlf i st w = (OK st', w') →
  ∃ offsets mean lv val lt te,
    Py.range0 (length (Script.np_shuffle (Script.np_random w)
                         (Script.train_data_index st)).1) (batchSize opt)
      = OK offsets
    ∧ Script.np_random w'
      = (Script.np_shuffle (Script.np_random w) (Script.train_data_index st)).2
    ∧ Script.train_data_index st'
      = (Script.np_shuffle (Script.np_random w) (Script.train_data_index st)).1
    ∧ Runs.in_range val ∧ Runs.in_range te
    ∧ if decide (Script.best_f1 st < Script.val_f1_score opt val)%Q then
        Script.trace w'
        = Script.trace w ++ Runs.epoch_events exp_path i offsets mean lv val lt te
          ++ Runs.checkpoint_events opt exp_path i val te
        ∧ Script.best_f1 st' = Script.val_f1_score opt val
        ∧ Script.best_result st' = Some (i, val, te)
      else
        Script.trace w'
        = Script.trace w ++ Runs.epoch_events exp_path i offsets mean lv val lt te
        ∧ Script.best_f1 st' = Script.best_f1 st
        ∧ Script.best_result st' = Script.best_result st.
Proof.
  unfold Script.epoch. intros E.
  apply bind_inv in E as ([[st1 val] te] & w1 & H1 & E).
  pose proof (train_and_evaluate_range _ _ _ _ _ _ _ _ _ _ _ H1) as [Rv Rt].
  apply train_and_evaluate_ok in H1
    as (offsets & mean & lv & lt & Hoff & R1 & I1 & B1 & BR1 & T1).
  apply checkpoint_ok in E. rewrite B1 in E.
  exists offsets, mean, lv, val, lt, te. split; [done|].
  destruct (decide (Script.best_f1 st < Script.val_f1_score opt val)%Q).
  - destruct E as (T2 & R2 & B2 & BR2 & I2).
    split; [congruence|]. split; [congruence|].
    do 2 (split; [done|]).
    split; [|done]. rewrite T2, T1. unfold Runs.epoch_events, Runs.checkpoint_events.
    by rewrite <- !app_assoc.
  - destruct E as [-> ->]. split; [done|]. split; [done|].
    do 2 (split; [done|]).
    split; [|done]. by rewrite T1.
Qed.

Lemma validations_app evs1 evs2 :
  Runs.validations (evs1 ++ evs2) = Runs.validations evs1 ++ Runs.validations evs2.
Proof. apply omap_app. Qed.

Lemma validations_epoch exp_path i offsets mean lv val lt te :
  Runs.validations (Runs.epoch_events exp_path i offsets mean lv val lt te) = [(i, val)].
Proof.
  unfold Runs.epoch_events. rewrite !validations_app.
  assert (Runs.validations (Script.OptimizerStep <$> offsets) = []) as ->; [|done].
  by induction offsets.
Qed.

Lemma validations_checkpoint opt exp_path i val te :
  Runs.validations (Runs.checkpoint_events opt exp_path i val te) = [].
Proof.
  unfold Runs.checkpoint_events, Spec.checkpoint_files.
  by destruct (Py.bool_of (task_sc opt)).
Qed.

Lemma saves_epoch exp_path i offsets mean lv val lt te :
  Spec.saves (Runs.epoch_events exp_path i offsets mean lv val lt te) = [].
Proof.
  unfold Runs.epoch_events. rewrite !saves_app.
  assert (Spec.saves (Script.OptimizerStep <$> offsets) = []) as ->; [|done].
  by induction offsets.
Qed.

Lemma saves_checkpoint opt exp_path i val te :
  Spec.saves (Runs.checkpoint_events opt exp_path i val te)
  = Spec.checkpoint_files opt exp_path.
Proof.
  unfold Runs.checkpoint_events. rewrite saves_app, saves_fmap. simpl.
  by rewrite app_nil_r.
Qed.

(** What a sequence of epochs leaves: the best score is above every
    logged score, and it is the score of the stored result, the first
    epoch that reached it. *)
Lemma epochs_inv opt exp_path d tlf n :
  ∀ a st w st' w',
    Script.for_fold (seq a n) (Script.epoch opt exp_path d tlf) st w
      = (OK st', w') →
    ∃ evs,
      Script.trace w' = Script.trace w ++ evs
      ∧ Forall (λ jv, (a ≤ jv.1 < a + n) ∧ Runs.in_range jv.2
                      ∧ (Script.val_f1_score opt jv.2 <= Script.best_f1 st')%Q)
          (Runs.validations evs)
      ∧ (Script.best_f1 st <= Script.best_f1 st')%Q
      ∧ ((Script.best_result st' = Script.best_result st
          ∧ Script.best_f1 st' = Script.best_f1 st ∧ Spec.saves evs = [])
         ∨ ∃ i val te,
             Script.best_result st' = Some (i, val, te)
             ∧ Script.best_f1 st' = Script.val_f1_score opt val
             ∧ (Script.best_f1 st < Script.val_f1_score opt val)%Q
             ∧ (i, val) ∈ Runs.validations evs
             ∧ Forall (λ jv, jv.1 < i →
                             (Script.val_f1_score opt jv.2
                              < Script.val_f1_score opt val)%Q)
                 (Runs.validations evs)
             ∧ Forall (λ p, p ∈ Spec.saves evs)
                 (Spec.checkpoint_files opt exp_path)
             ∧ Script.Log (Script.LogNewBest i val te) ∈ evs).
Proof.
  induction n as [|n IH]; intros a st w st' w'.
  - simpl. intros [= <- <-]. exists []. rewrite app_nil_r.
    split; [done|]. split; [constructor|]. split; [apply Qle_refl|].
    by left.
  - cbn [seq Script.for_fold]. intros E.
    apply bind_inv in E as (st1 & w1 & H1 & E).
    apply epoch_inv in H1
      as (offsets & mean & lv & val & lt & te & _ & _ & _ & Rv & _ & H1).
    apply IH in E as (evs2 & T2 & V2 & M2 & C2).
    set (ev1 := Runs.epoch_events exp_path a offsets mean lv val lt te) in *.
    pose proof (validations_epoch exp_path a offsets mean lv val lt te) as Vev.
    pose proof (saves_epoch exp_path a offsets mean lv val lt te) as Sev.
    fold ev1 in Vev, Sev. clearbody ev1.
    assert (Forall (λ jv, (a ≤ jv.1 < a + S n) ∧ Runs.in_range jv.2
                          ∧ (Script.val_f1_score opt jv.2
                             <= Script.best_f1 st')%Q) (Runs.validations evs2))
      as V2'.
    { eapply Forall_impl; [exact V2|]. intros [j v] (Hj & Hr & Hv). simpl in *.
      split; [lia|done]. }
    destruct (decide (Script.best_f1 st < Script.val_f1_score opt val)%Q)
      as [Hlt|Hge].
    + destruct H1 as (T1 & B1 & BR1).
      set (ck := Runs.checkpoint_events opt exp_path a val te) in *.
      pose proof (validations_checkpoint opt exp_path a val te) as Vck.
      pose proof (saves_checkpoint opt exp_path a val te) as Sck.
      fold ck in Vck, Sck.
      assert (Script.Log (Script.LogNewBest a val te) ∈ ck) as Hnew.
      { unfold ck, Runs.checkpoint_events. apply elem_of_app. right.
        apply list_elem_of_here. }
      clearbody ck.
      exists (ev1 ++ ck ++ evs2).
      split; [by rewrite T2, T1, <- !app_assoc|].
      rewrite !validations_app, Vev, Vck, !saves_app, Sev, Sck. cbn [app].
      rewrite B1 in M2.
      split.
      { constructor; [|done]. simpl. split; [lia|done]. }
      split; [lra|].
      right. destruct C2 as [(BR2 & B2 & S2)|(i & v & t & BR2 & B2 & L2 & I2 & F2 & P2 & N2)].
      * exists a, val, te. rewrite BR2, B2, BR1, B1, S2.
        do 3 (split; [done|]). split; [apply list_elem_of_here|].
        split.
        { constructor; [simpl; lia|].
          eapply Forall_impl; [exact V2|]. intros [j x] [Hj _]. simpl in *. lia. }
        split; [apply Forall_forall; intros p Hp; by rewrite app_nil_r|].
        apply elem_of_app. right. apply elem_of_app. by left.
      * exists i, v, t. rewrite B1 in L2.
        do 2 (split; [done|]). split; [lra|].
        split; [by apply list_elem_of_further|].
        split.
        { constructor; [simpl; intros _; done|done]. }
        split.
        { eapply Forall_impl; [exact P2|]. intros p Hp.
          apply elem_of_app. by right. }
        apply elem_of_app. right. apply elem_of_app. by right.
    + destruct H1 as (T1 & B1 & BR1).
      exists (ev1 ++ evs2).
      split; [by rewrite T2, T1, <- !app_assoc|].
      rewrite !validations_app, Vev, !saves_app, Sev. cbn [app].
      rewrite B1 in M2.
      assert (Script.val_f1_score opt val <= Script.best_f1 st)%Q as Hle.
      { by apply Qnot_lt_le. }
      split.
      { constructor; [|done]. simpl. split; [lia|]. split; [done|lra]. }
      split; [done|].
      destruct C2 as [(BR2 & B2 & S2)|(i & v & t & BR2 & B2 & L2 & I2 & F2 & P2 & N2)].
      * left. rewrite BR2, B2, BR1, B1. done.
      * right. exists i, v, t. rewrite B1 in L2.
        do 3 (split; [done|]).
        split; [by apply list_elem_of_further|].
        split.
        { constructor; [simpl; intros _; lra|done]. }
        split; [done|].
        apply elem_of_app. by right.
Qed.

Lemma training_inv opt exp_path d tlf m mc optim w st w' :
  Script.training opt exp_path d tlf m mc optim w = (OK st, w') →
  ∃ w1 i val te,
    Script.for_fold (seq 0 (max_epoch opt)) (Script.epoch opt exp_path d tlf)
      {| Script.model_tag := m; Script.model_class := mc;
         Script.optimizer := optim;
         Script.train_data_index :=
           seq 0 (Script.len_sen_feats (Script.train_sen_feats d));
         Script.best_f1 := (-1)%Q; Script.best_result := None |} w
    = (OK st, w1)
    ∧ Script.best_result st = Some (i, val, te)
    ∧ Script.trace w'
      = Script.trace w1 ++ [Script.Log (Script.LogBestResult i val te)].
Proof.
  unfold Script.training. intros E.
  apply bind_inv in E as (st1 & w1 & H1 & E).
  apply bind_inv in E as ([[i val] te] & w2 & H2 & E).
  apply lift_inv in H2 as [H2 ->].
  apply bind_inv in E as ([] & w2 & H3 & E). apply emit_inv in H3 as ->.
  injection E as <- <-. exists w1, i, val, te. split; [done|].
  split; [|done]. by destruct (Script.best_result st1) as [b|]; inversion H2.
Qed.

(** X17 (lines 406, 487-514): the best result.  When the training block
    completes, the result it reports last is that of an epoch of the run,
    the best score is that epoch's score, no logged validation score is
    above it and none of an earlier epoch reaches it (the first of the
    best epochs is kept), it is above -1, and the checkpoint files have
    been saved. *)
Theorem best_result_is_maximum (opt : options) (exp_path : string)
    (d : Script.dataset) (tlf : list (list Q) → list nat → res Q)
    (m : Script.TagModel) (mc : option Script.ClassModel)
    (optim : option Script.Optim) (w : Script.world)
    (st : Script.train_state) (w' : Script.world) :
  Script.training opt exp_path d tlf m mc optim w = (OK st, w') →
  ∃ evs i val te,
    Script.trace w'
    = Script.trace w ++ evs ++ [Script.Log (Script.LogBestResult i val te)]
    ∧ Script.best_result st = Some (i, val, te)
    ∧ Script.best_f1 st = Script.val_f1_score opt val
    ∧ i < max_epoch opt
    ∧ (i, val) ∈ Runs.validations evs
    ∧ Forall (λ jv,
        jv.1 < max_epoch opt
        ∧ (Script.val_f1_score opt jv.2 <= Script.val_f1_score opt val)%Q
        ∧ (jv.1 < i →
           (Script.val_f1_score opt jv.2 < Script.val_f1_score opt val)%Q))
        (Runs.validations evs)
    ∧ (-1 < Script.val_f1_score opt val)%Q
    ∧ Forall (λ p, p ∈ Spec.saves evs) (Spec.checkpoint_files opt exp_path).
Proof.
  intros E. apply training_inv in E as (w1 & i & val & te & E & BR & T).
  apply epochs_inv in E as (evs & T1 & V & _ & C).
  destruct C as [(BR' & _)|(i' & v & t & BR' & B & L & I & F & P & _)].
  { rewrite BR in BR'. discriminate. }
  rewrite BR in BR'. injection BR' as <- <- <-.
  exists evs, i, val, te. split; [by rewrite T, T1, <- app_assoc|].
  do 2 (split; [done|]).
  assert (Forall (λ jv, jv.1 < max_epoch opt
                        ∧ (Script.val_f1_score opt jv.2
                           <= Script.val_f1_score opt val)%Q
                        ∧ (jv.1 < i →
                           (Script.val_f1_score opt jv.2
                            < Script.val_f1_score opt val)%Q))
            (Runs.validations evs)) as Hall.
  { apply Forall_forall. intros jv Hjv.
    rewrite Forall_forall in V, F. destruct (V jv Hjv) as (Hj & _ & Hs).
    rewrite B in Hs. split; [lia|]. split; [done|]. by apply F. }
  split.
  { rewrite Forall_forall in Hall. by destruct (Hall (i, val) I) as [? _]. }
  done.
Qed.

Lemma epoch_made_a_step opt exp_path d tlf i st w st' w' :
  Script.epoch opt exp_path d tlf i st w = (OK st', w') →
  batchSize opt ≠ 0
  ∧ (Script.np_shuffle (Script.np_random w) (Script.train_data_index st)).1
    ≠ [].
Proof.
  unfold Script.epoch. intros E.
  apply bind_inv in E as ([[st1 val] te] & w1 & H1 & _).
  pose proof H1 as H2. apply train_and_evaluate_ok in H2
    as (offsets & _ & _ & _ & Hoff & _).
  apply range0_inv in Hoff as [Hb _]. split; [lia|]. intros Hnil.
  pose proof H1 as H3. unfold Script.train_and_evaluate in H3.
  apply bind_inv in H3 as (index & w2 & _ & H3).
  apply bind_inv in H3 as (mc & w3 & Hmc & _).
  apply lift_inv in Hmc as [Hmc _].
  rewrite (train_and_evaluate_empty opt exp_path d tlf i st w mc) in H1;
    [inversion H1|done|lia|done].
Qed.

(** X15 (lines 409-503): the events of an epoch.  A completed epoch
    shuffles, takes one optimizer step per offset [0, b, 2b, ...] below
    the number of training examples (there is at least one), logs the
    training
    loss, writes [valid.iter<i>] and logs the validation, writes
    [test.iter<i>] and logs the evaluation, and then takes its checkpoint
    if the score improved, in this order; the slices of the shuffled
    index at these offsets are the whole index, each position once. *)
Theorem epoch_schedule (opt : options) (exp_path : string)
    (d : Script.dataset) (tlf : list (list Q) → list nat → res Q) (i : nat)
    (st : Script.train_state) (w : Script.world)
    (st' : Script.train_state) (w' : Script.world) :
  Script.epoch opt exp_path d tlf i st w = (OK st', w') →
  ∃ mean lv val lt te,
    batchSize opt ≠ 0 ∧ Script.train_data_index st' ≠ []
    ∧ Script.trace w'
      = Script.trace w
        ++ Runs.epoch_events exp_path i
             ((λ k, k * batchSize opt)
                <$> seq 0 ((length (Script.train_data_index st')
                            + batchSize opt - 1) / batchSize opt))
             mean lv val lt te
        ++ (if decide (Script.best_f1 st < Script.val_f1_score opt val)%Q
            then Runs.checkpoint_events opt exp_path i val te else [])
    ∧ concat ((λ j, Py.slice (Script.train_data_index st') j (batchSize opt))
                <$> ((λ k, k * batchSize opt)
                       <$> seq 0 ((length (Script.train_data_index st')
                                   + batchSize opt - 1) / batchSize opt)))
      = Script.train_data_index st'.
Proof.
  intros E. pose proof (epoch_made_a_step _ _ _ _ _ _ _ _ _ E) as [Hb Hne].
  apply epoch_inv in E
    as (offsets & mean & lv & val & lt & te & Hoff & _ & Hidx & _ & _ & E).
  rewrite <- Hidx in Hoff, Hne.
  apply range0_inv in Hoff as [_ ->].
  exists mean, lv, val, lt, te. split; [done|]. split; [done|].
  split; [|apply slices_cover; lia].
  destruct (decide _); destruct E as (-> & _); [done|].
  by rewrite app_nil_r.
Qed.

Lemma epochs_index opt exp_path d tlf l :
  (∀ rng index, (Script.np_shuffle rng index).1 ≡ₚ index) →
  ∀ st w st' w',
    Script.for_fold l (Script.epoch opt exp_path d tlf) st w = (OK st', w') →
    Script.train_data_index st' ≡ₚ Script.train_data_index st.
Proof.
  intros Hperm. induction l as [|i l IH]; intros st w st' w'; simpl.
  - by intros [= <- <-].
  - intros E. apply bind_inv in E as (st1 & w1 & H1 & E).
    apply epoch_inv in H1 as (? & ? & ? & ? & ? & ? & _ & _ & Hidx & _).
    apply IH in E. rewrite E, Hidx. apply Hperm.
Qed.

(** X16 (lines 405, 412): the training index.  If numpy's shuffle
    permutes its argument, the index that the training block ends with is
    a permutation of [0, ..., n-1] for the [n] training sentences: every
    example, once. *)
Theorem index_stays_permutation (opt : options) (exp_path : string)
    (d : Script.dataset) (tlf : list (list Q) → list nat → res Q)
    (m : Script.TagModel) (mc : option Script.ClassModel)
    (optim : option Script.Optim) (w : Script.world)
    (st : Script.train_state) (w' : Script.world) :
  (∀ rng index, (Script.np_shuffle rng index).1 ≡ₚ index) →
  Script.training opt exp_path d tlf m mc optim w = (OK st, w') →
  Script.train_data_index st
    ≡ₚ seq 0 (Script.len_sen_feats (Script.train_sen_feats d))
  ∧ NoDup (Script.train_data_index st)
  ∧ ∀ k, k ∈ Script.train_data_index st
         ↔ k < Script.len_sen_feats (Script.train_sen_feats d).
Proof.
  intros Hperm E. apply training_inv in E as (w1 & _ & _ & _ & E & _).
  apply (epochs_index _ _ _ _ _ Hperm) in E. simpl in E.
  split; [done|]. split.
  - rewrite E. apply NoDup_seq.
  - intros k. rewrite E, elem_of_seq. lia.
Qed.

End epochs.

(** ** Runs that complete *)

Section completed.
Context `{Script.Imports}.

Lemma main_inv a w w' :
  Script.main a w = (OK tt, w') →
  ∃ opt d m mc optim st tlf,
    Script.configure a = OK opt
    ∧ testing opt = false ∧ crf opt = true
    ∧ (∃ pad, Script.tag_to_idx d !! "<pad>" = Some pad
              ∧ pad < size (Script.tag_to_idx d))
    ∧ Script.construct_optimizer a opt m mc = OK optim
    ∧ Script.training opt (Script.exp_path_of opt) d tlf m mc optim
        {| Script.np_random := Script.np_seed (Script.a_random_seed a);
           Script.trace :=
             Script.trace w
             ++ Spec.setup_events a opt (Script.exp_path_of opt) |}
      = (OK st, w').
Proof.
  intros E.
  destruct (Script.configure a) as [e|opt] eqn:Hc.
  { unfold Script.main in E. rewrite bind_lift, Hc in E. inversion E. }
  destruct (testing opt) eqn:Ht.
  { destruct (main_testing a opt w Hc Ht) as (path & Hm).
    rewrite Hm in E. inversion E. }
  destruct (crf opt) eqn:Hcrf.
  2:{ rewrite (main_training_plain a opt w Hc Ht Hcrf) in E. inversion E. }
  unfold Script.main in E.
  apply bind_inv in E as (opt' & w1 & H1 & E). apply lift_inv in H1 as [H1 ->].
  rewrite Hc in H1. injection H1 as <-.
  rewrite !Ht in E. simpl in E.
  apply bind_inv in E as (exp_path & w1 & H1 & E).
  apply lift_inv in H1 as [[= <-] ->].
  apply bind_inv in E as ([] & w1 & H1 & E). apply emit_inv in H1 as ->.
  apply bind_inv in E as ([] & w1 & H1 & E). apply emit_inv in H1 as ->.
  apply bind_inv in E as ([] & w1 & H1 & E). injection H1 as <-.
  apply bind_inv in E as (data & w1 & H1 & E).
  apply bind_inv in H1 as (d & w2 & H1 & H2). injection H2 as <- <-.
  match type of H1 with
  | Script.load_data a opt ?w0 = _ =>
      destruct (load_data_spec a opt w0) as (d' & Hd)
  end.
  rewrite Hd in H1. injection H1 as <- <-. simpl in E.
  apply bind_inv in E as (mt & w1 & H1 & E). apply lift_inv in H1 as [_ ->].
  apply bind_inv in E as (mc0 & w1 & H1 & E). apply lift_inv in H1 as [_ ->].
  apply bind_inv in E as (m0 & w1 & H1 & E). apply lift_inv in H1 as [_ ->].
  apply bind_inv in E as (mc1 & w1 & H1 & E). apply lift_inv in H1 as [_ ->].
  apply bind_inv in E as ([m mc] & w1 & H1 & E). apply lift_inv in H1 as [_ ->].
  apply bind_inv in E as (t2i & w1 & H1 & E).
  apply lift_inv in H1 as [[= <-] ->].
  apply bind_inv in E as (wm & w1 & H1 & E). apply lift_inv in H1 as [Hwm ->].
  apply bind_inv in E as (optim & w1 & H1 & E). apply lift_inv in H1 as [Hopt ->].
  apply bind_inv in E as (d2 & w1 & H1 & E).
  apply lift_inv in H1 as [[= <-] ->].
  apply bind_inv in E as (st & w1 & H1 & E). injection E as <-.
  exists opt, d', m, mc, optim, st, (Loss.tag_loss_function wm).
  do 3 (split; [done|]).
  split.
  { apply weight_mask_inv in Hwm. destruct Hwm as (pad & Hp & Hlt & _).
    eauto. }
  split; [done|].
  rewrite <- H1. f_equal. f_equal. unfold Spec.setup_events. rewrite Ht.
  by rewrite <- !app_assoc.
Qed.

Lemma epochs_trace opt exp_path d tlf l st w st' w' :
  Script.for_fold l (Script.epoch opt exp_path d tlf) st w = (OK st', w') →
  ∃ evs, Script.trace w' = Script.trace w ++ evs.
Proof.
  intros E. apply epochs_ok in E as (evs & T & _). eauto.
Qed.

Lemma training_first_checkpoint opt exp_path d tlf m mc optim w st w' :
  (0 < st_weight opt)%Q → (st_weight opt <= 1)%Q →
  Script.training opt exp_path d tlf m mc optim w = (OK st, w') →
  ∃ evs val te,
    Script.trace w' = Script.trace w ++ evs
    ∧ Script.Log (Script.LogNewBest 0 val te) ∈ evs.
Proof.
  intros W0 W1 E. apply training_inv in E as (w1 & i & val & te & E & BR & T).
  destruct (max_epoch opt) as [|n] eqn:Hn.
  { simpl in E. injection E as <- _. discriminate. }
  change (seq 0 (S n)) with (0 :: seq 1 n) in E. cbn [Script.for_fold] in E.
  apply bind_inv in E as (st1 & w2 & H1 & E).
  apply epoch_inv in H1
    as (offsets & mean & lv & val0 & lt & te0 & _ & _ & _ & Rv & _ & H1).
  destruct (score_range opt val0 W0 W1 Rv) as [S0 S1].
  destruct (decide _) as [_|Hn']; [|simpl in Hn'; destruct Hn'; lra].
  destruct H1 as (T0 & _). apply epochs_trace in E as (evs2 & T2).
  eexists _, val0, te0. split.
  { rewrite T, T2, T0, <- !app_assoc. reflexivity. }
  apply elem_of_app. right. apply elem_of_app. left.
  unfold Runs.checkpoint_events. apply elem_of_app. right.
  apply list_elem_of_here.
Qed.

(** X19 (whole script): a run that ends without an exception.  It was a
    training run with the CRF tagger, a known optimizer and at least one
    epoch; its events are the set-up and the loading, then those of the
    epochs, then the line of the best result; its first epoch was a new
    best, and the checkpoint files have been saved. *)
Theorem completed_run (a : Script.args) (w w' : Script.world) :
  Script.main a w = (OK tt, w') →
  ∃ opt evs i val te val0 te0,
    Script.configure a = OK opt
    ∧ testing opt = false ∧ crf opt = true ∧ max_epoch opt ≠ 0
    ∧ Script.lower (Script.a_optim a) ∈ ["sgd"; "adam"; "adadelta"; "rmsprop"]
    ∧ Script.trace w'
      = Script.trace w ++ Spec.setup_events a opt (Script.exp_path_of opt)
        ++ evs ++ [Script.Log (Script.LogBestResult i val te)]
    ∧ i < max_epoch opt
    ∧ Script.Log (Script.LogNewBest 0 val0 te0) ∈ evs
    ∧ Forall (λ p, p ∈ Spec.saves evs)
        (Spec.checkpoint_files opt (Script.exp_path_of opt)).
Proof.
  intros E.
  apply main_inv in E
    as (opt & d & m & mc & optim & st & tlf & Hc & Ht & Hcrf & _ & Hopt & E).
  destruct optim as [optim|].
  2:{ match type of E with
      | Script.training _ _ _ _ _ _ _ ?w0 = _ =>
          destruct (training_unbound_optimizer opt (Script.exp_path_of opt) d
                      tlf m mc w0) as (e & He & _)
      end.
      rewrite He in E. inversion E. }
  assert (Script.lower (Script.a_optim a)
            ∈ ["sgd"; "adam"; "adadelta"; "rmsprop"]) as Hname.
  { unfold Script.construct_optimizer in Hopt.
    apply res_bind_inv in Hopt as (mc' & _ & Hopt).
    case_bool_decide; [done|inversion Hopt]. }
  pose proof (configure_inv a opt Hc)
    as (_ & _ & _ & _ & _ & W0 & W1 & _ & _ & _ & Hw & _).
  rewrite <- Hw in W0, W1.
  pose proof (training_first_checkpoint _ _ _ _ _ _ _ _ _ _ W0 W1 E)
    as (evs0 & val0 & te0 & T0 & N0).
  apply training_inv in E as (w1 & i & val & te & E & BR & T).
  apply epochs_inv in E as (evs & T1 & V & _ & C).
  destruct C as [(BR' & _)|(i' & v & t & BR' & B & _ & I & _ & P & _)].
  { rewrite BR in BR'. discriminate. }
  rewrite BR in BR'. injection BR' as <- <- <-.
  simpl in T1.
  assert (evs0 = evs ++ [Script.Log (Script.LogBestResult i val te)]) as ->.
  { eapply app_inv_head. rewrite <- T0, T, T1, <- app_assoc. done. }
  exists opt, evs, i, val, te, val0, te0.
  do 3 (split; [done|]).
  rewrite Forall_forall in V. destruct (V (i, val) I) as [Hi _]. simpl in Hi.
  split; [lia|]. split; [done|].
  split; [by rewrite T, T1, <- !app_assoc|].
  split; [lia|]. split; [|done].
  apply elem_of_app in N0 as [N0|N0]; [done|].
  apply list_elem_of_singleton in N0. discriminate.
Qed.


End completed.

(** ** Files, masks, output lines and the pad tag *)

Lemma path_join_inj (a b1 b2 : string) :
  String.prefix "/" b1 = String.prefix "/" b2 →
  Script.path_join a b1 = Script.path_join a b2 → b1 = b2.
Proof.
  unfold Script.path_join. intros <-.
  destruct (String.prefix "/" b1); [done|].
  destruct (String.eqb a ""); [done|].
  destruct (String.eqb _ "/"); intros E.
  - by apply (inj (String.app a)) in E.
  - apply (inj (String.app a)) in E. by apply (inj (String.app "/")) in E.
Qed.

Lemma prefix_slash_app (s x y : string) :
  String.prefix "/" x = String.prefix "/" y →
  String.prefix "/" (s ++ x) = String.prefix "/" (s ++ y).
Proof.
  intros E. destruct s as [|c s]; [done|].
  change (String.prefix "/" (String c (s ++ x))
          = String.prefix "/" (String c (s ++ y))).
  unfold String.prefix.
  match goal with
  | |- context [Ascii.ascii_dec ?a ?b] => destruct (Ascii.ascii_dec a b)
  end; [|done].
  by destruct (s ++ x)%string, (s ++ y)%string.
Qed.

(** X20 (lines 468, 477, 492-494): files do not collide.  In one
    experiment directory the validation file and the test file of any two
    epochs differ, the files of two different epochs differ, and the
    checkpoint of the tagger is not that of the classifier. *)
Theorem output_files_distinct (exp_path save : string) (i j : nat) :
  Script.path_join exp_path ("valid.iter" ++ Py.str i)
  ≠ Script.path_join exp_path ("test.iter" ++ Py.str j)
  ∧ (Script.path_join exp_path ("valid.iter" ++ Py.str i)
     = Script.path_join exp_path ("valid.iter" ++ Py.str j) → i = j)
  ∧ (Script.path_join exp_path ("test.iter" ++ Py.str i)
     = Script.path_join exp_path ("test.iter" ++ Py.str j) → i = j)
  ∧ Script.path_join exp_path (save ++ ".tag")
    ≠ Script.path_join exp_path (save ++ ".class").
Proof.
  split; [|split; [|split]].
  - intros E. apply path_join_inj in E; [|done]. discriminate.
  - intros E. apply path_join_inj in E; [|done].
    apply (inj (String.app "valid.iter")) in E. by apply (inj pretty) in E.
  - intros E. apply path_join_inj in E; [|done].
    apply (inj (String.app "test.iter")) in E. by apply (inj pretty) in E.
  - intros E. apply path_join_inj in E; [|by apply prefix_slash_app].
    apply (inj (String.app save)) in E. discriminate.
Qed.

Lemma foldl_max_ge (l : list nat) (x : nat) :
  x ≤ foldl Nat.max x l ∧ Forall (λ y, y ≤ foldl Nat.max x l) l
  ∧ foldl Nat.max x l ∈ x :: l.
Proof.
  revert x. induction l as [|y l IH]; intros x; simpl.
  - split; [done|]. split; [constructor|apply list_elem_of_here].
  - destruct (IH (Nat.max x y)) as (H1 & H2 & H3).
    split; [lia|]. split; [constructor; [lia|done]|].
    apply elem_of_cons in H3 as [H3|H3].
    + rewrite H3. destruct (Nat.max_spec x y) as [[_ ->]|[_ ->]].
      * apply list_elem_of_further, list_elem_of_here.
      * apply list_elem_of_here.
    + by do 2 apply list_elem_of_further.
Qed.

Lemma sum_mask (l k : nat) : Py.sum (replicate l 1 ++ replicate k 0) = l.
Proof.
  unfold Py.sum.
  assert (∀ x, foldl Nat.add x (replicate l 1 ++ replicate k 0) = x + l) as Hs;
    [|by rewrite Hs].
  induction l as [|l IH]; intros x; simpl.
  - induction k as [|k IHk] in x |- *; simpl; [lia|]. rewrite IHk. lia.
  - rewrite IH. lia.
Qed.

(** X10 (lines 307-308, 429-430): the length masks of the CRF path.  An
    empty batch stops on the [ValueError] of [max].  Otherwise there is
    one mask per example, every mask is as long as the longest example
    of the batch, and the mask of an example of length [l] is [l] ones
    followed by zeros: it sums to [l]. *)
Theorem masks_shape (lens : list nat) :
  (lens = [] → Eval.masks_of lens = Raise ValueError)
  ∧ (lens ≠ [] →
     ∃ masks max_len,
       Eval.masks_of lens = OK masks
       ∧ max_len ∈ lens ∧ Forall (λ l, l ≤ max_len) lens
       ∧ length masks = length lens
       ∧ Forall (λ row, length row = max_len) masks
       ∧ ∀ i l, lens !! i = Some l →
           masks !! i = Some (replicate l 1 ++ replicate (max_len - l) 0)
           ∧ Py.sum (replicate l 1 ++ replicate (max_len - l) 0) = l).
Proof.
  split; [by intros ->|]. intros Hne.
  destruct lens as [|x lens]; [done|].
  destruct (foldl_max_ge lens x) as (H1 & H2 & H3).
  unfold Eval.masks_of, Py.max_list. simpl.
  set (max_len := foldl Nat.max x lens) in *.
  eexists _, max_len. split; [reflexivity|].
  split; [done|]. split; [by constructor|].
  split; [simpl; by rewrite length_fmap|].
  split.
  - change (Forall (λ row, length row = max_len)
              ((λ l, replicate l 1 ++ replicate (max_len - l) 0) <$> x :: lens)).
    apply Forall_fmap, Forall_forall. intros l Hl. simpl.
    rewrite length_app, !length_replicate.
    assert (l ≤ max_len); [|lia].
    apply elem_of_cons in Hl as [->|Hl]; [done|].
    rewrite Forall_forall in H2. by apply H2.
  - intros i l Hl. split; [|apply sum_mask].
    change (((λ l, replicate l 1 ++ replicate (max_len - l) 0) <$> x :: lens)
              !! i = Some (replicate l 1 ++ replicate (max_len - l) 0)).
    by rewrite list_lookup_fmap, Hl.
Qed.

(** X9 (lines 348-350): the tokens of an output line.  When the line of
    an example can be built, it has one [word:gold:predicted] entry per
    token, for the first [length] words of the input row (all of them
    when there are fewer), and the gold and the predicted tags cover these
    positions. *)
Theorem word_tag_line_shape (idx_to_word : gmap nat string) (mb : minibatch)
    (idx n : nat) (pred_seq lab_seq wtl : list string) :
  Eval.word_tag_line idx_to_word mb idx n pred_seq lab_seq = OK wtl →
  ∃ row words,
    mb_inputs mb !! idx = Some row
    ∧ Forall2 (λ i word, idx_to_word !! i = Some word) row words
    ∧ length wtl = n `min` length row
    ∧ length wtl ≤ length lab_seq ∧ length wtl ≤ length pred_seq
    ∧ ∀ k, k < length wtl →
        ∃ word l p,
          words !! k = Some word ∧ lab_seq !! k = Some l
          ∧ pred_seq !! k = Some p
          ∧ wtl !! k = Some (word ++ ":" ++ l ++ ":" ++ p)%string.
Proof.
  unfold Eval.word_tag_line. intros E.
  apply res_bind_inv in E as (row & Hrow & E). apply index_inv in Hrow.
  apply res_bind_inv in E as (words & Hwords & E).
  apply getitems_inv in Hwords.
  apply map_res_inv in E. rewrite length_take in E.
  pose proof (Forall2_length _ _ _ Hwords) as Hlen.
  pose proof (Forall2_length _ _ _ E) as Hlen2. rewrite length_seq in Hlen2.
  exists row, words. split; [done|]. split; [done|].
  split; [lia|].
  assert (∀ k, k < length wtl →
            ∃ word l p,
              words !! k = Some word ∧ lab_seq !! k = Some l
              ∧ pred_seq !! k = Some p
              ∧ wtl !! k = Some (word ++ ":" ++ l ++ ":" ++ p)%string) as Hk.
  { intros k Hk.
    destruct (lookup_lt_is_Some_2 wtl k Hk) as [line Hline].
    assert (seq 0 (length words `min` n) !! k = Some k) as Hseq.
    { rewrite lookup_seq. split; [done|lia]. }
    rewrite Nat.min_comm in Hseq.
    pose proof (Forall2_lookup_lr _ _ _ _ _ _ E Hseq Hline) as Hl.
    simpl in Hl.
    apply res_bind_inv in Hl as (word & Hw & Hl). apply index_inv in Hw.
    apply res_bind_inv in Hl as (l & Hlab & Hl). apply index_inv in Hlab.
    apply res_bind_inv in Hl as (p & Hp & Hl). apply index_inv in Hp.
    injection Hl as <-. rewrite lookup_take in Hw.
    destruct (decide (k < n)); [|done]. exists word, l, p. done. }
  split; [|split; [|exact Hk]].
  - destruct (length wtl) as [|k] eqn:Hw; [lia|].
    destruct (Hk k) as (_ & l & _ & _ & Hl & _); [lia|].
    apply lookup_lt_Some in Hl. lia.
  - destruct (length wtl) as [|k] eqn:Hw; [lia|].
    destruct (Hk k) as (_ & _ & p & _ & _ & Hp & _); [lia|].
    apply lookup_lt_Some in Hp. lia.
Qed.

Section vocabulary.
Context `{Script.Imports}.

Lemma load_data_vocab (a : Script.args) (opt : options) (w : Script.world) :
  ∃ d, Script.load_data a opt w
       = (OK d, {| Script.np_random := Script.np_random w;
                   Script.trace := Script.trace w ++ Spec.load_events a opt |})
    ∧ Script.tag_to_idx d
      = (Script.read_vocab_file (Script.a_dataroot a ++ "/vocab.slot")).1.
Proof.
  unfold Script.load_data, Spec.load_events, bind, Script.emit, modify, ret.
  simpl.
  destruct (Script.read_vocab_file (Script.a_dataroot a +:+ "/vocab.slot"))
    as [t2i i2t]. simpl.
  repeat match goal with
         | |- context [match ?x with _ => _ end] => destruct x; simpl
         end.
  eexists. rewrite <- !app_assoc. simpl. split; reflexivity.
Qed.

Lemma on_model_class_bound (opt : options) (g : Script.ClassModel → Script.ClassModel)
    (mc : option Script.ClassModel) :
  (Py.bool_of (task_sc opt) = true → is_Some mc) →
  ∃ mc', Script.on_model_class opt g mc = OK mc'
         ∧ (Py.bool_of (task_sc opt) = true → is_Some mc').
Proof.
  intros Hmc. unfold Script.on_model_class.
  destruct (Py.bool_of (task_sc opt)); [|eauto].
  destruct Hmc as [m ->]; [done|]. simpl. eauto.
Qed.

Lemma construct_model_class_some a opt d :
  Script.configure a = OK opt →
  ∃ mc, Script.construct_model_class opt (Some d) = OK mc
        ∧ (Py.bool_of (task_sc opt) = true → is_Some mc).
Proof.
  intros Hc. unfold Script.construct_model_class.
  destruct (task_sc opt) as [kind|] eqn:E; [|by eexists].
  destruct (task_sc_kind a opt kind Hc E) as [Hk _].
  rewrite bool_decide_eq_true_2 by done. simpl. eauto.
Qed.

Lemma initialise_bound opt d m mc :
  (Py.bool_of (task_sc opt) = true → is_Some mc) →
  ∃ r, Script.initialise opt (Some d) m mc = OK r.
Proof.
  intros Hmc. unfold Script.initialise.
  destruct (on_model_class_bound opt Script.class_init_weights mc Hmc)
    as (mc' & -> & _).
  simpl. destruct (negb _); eauto.
Qed.

Lemma main_reaches_mask a opt w :
  Script.configure a = OK opt → testing opt = false → crf opt = true →
  ∀ e,
    Loss.weight_mask
      (Script.read_vocab_file (Script.a_dataroot a ++ "/vocab.slot")).1
    = Raise e →
    Script.main a w
    = (Raise e,
       {| Script.np_random := Script.np_seed (Script.a_random_seed a);
          Script.trace := Script.trace w
                          ++ Spec.setup_events a opt (Script.exp_path_of opt) |}).
Proof.
  intros Hc Ht Hcrf' e Hmask.
  pose proof (configure_inv a opt Hc)
    as (_ & _ & _ & _ & _ & _ & _ & Hst & _ & _ & _ & Hcrf & _).
  unfold Script.main, Spec.setup_events, bind, lift, Script.emit, modify, ret.
  rewrite Hc. unfold OK at 1. cbn beta iota. rewrite !Ht. simpl.
  match goal with
  | |- context [Script.load_data a opt ?w1] =>
      destruct (load_data_vocab a opt w1) as (d & -> & Hvocab)
  end. simpl.
  unfold Script.construct_model_tag. rewrite Hst, <- Hcrf, Hcrf'. simpl.
  destruct (construct_model_class_some a opt d Hc) as (mc & -> & Hmc). simpl.
  destruct (on_model_class_bound opt id mc Hmc) as (mc1 & -> & Hmc1). simpl.
  destruct (initialise_bound opt d
              (Script.LSTMTagger_CRF_sen_level opt (Script.ext_sen_size d)
                 (size (Script.tag_to_idx d))) mc1 Hmc1) as ([m2 mc2] & ->).
  simpl. rewrite Hvocab, Hmask. simpl. rewrite <- !app_assoc. done.
Qed.

(** X12 (lines 252-254): the pad tag.  A training run with the CRF
    tagger whose slot vocabulary has no ["<pad>"] stops on [KeyError]
    where the weight mask is built, and on [IndexError] when the id of
    ["<pad>"] is not below the size of the vocabulary: after the models are
    constructed and before any training or evaluation. *)
Theorem vocabulary_without_pad (a : Script.args) (opt : options)
    (w : Script.world) :
  Script.configure a = OK opt → testing opt = false → crf opt = true →
  let tag_to_idx :=
    (Script.read_vocab_file (Script.a_dataroot a ++ "/vocab.slot")).1 in
  let w1 :=
    {| Script.np_random := Script.np_seed (Script.a_random_seed a);
       Script.trace := Script.trace w
                       ++ Spec.setup_events a opt (Script.exp_path_of opt) |} in
  (tag_to_idx !! "<pad>" = None → Script.main a w = (Raise KeyError, w1))
  ∧ (∀ pad, tag_to_idx !! "<pad>" = Some pad → size tag_to_idx ≤ pad →
       Script.main a w = (Raise IndexError, w1))
  ∧ Spec.no_training_or_evaluation
      (Spec.setup_events a opt (Script.exp_path_of opt)).
Proof.
  intros Hc Ht Hcrf tag_to_idx w1. split; [|split].
  - intros Hpad. apply main_reaches_mask; try done.
    unfold Loss.weight_mask, Py.getitem. fold tag_to_idx. by rewrite Hpad.
  - intros pad Hpad Hsize. apply main_reaches_mask; try done.
    unfold Loss.weight_mask, Py.getitem. fold tag_to_idx. rewrite Hpad. simpl.
    rewrite length_replicate. case_decide; [lia|done].
  - apply setup_events_quiet.
Qed.

End vocabulary.

(** ** The sample instance, run again *)

Lemma pass_untouched_counters_witness :
  ∃ r s',
    SamplePass.pass (Sample.opt true false false None) Eval.init = (r, s')
    ∧ Eval.TN s' = 0 ∧ Eval.TN2 s' = 0
    ∧ Eval.TP2 s' = 0 ∧ Eval.FP2 s' = 0 ∧ Eval.FN2 s' = 0.
Proof.
  eexists _, _. split; [run|].
  match goal with
  | |- Eval.TN ?s' = _ ∧ _ =>
      assert (SamplePass.pass (Sample.opt true false false None) Eval.init
              = (_, s')) as Hrun by run
  end.
  unfold SamplePass.pass in Hrun.
  apply pass_untouched_counters in Hrun as (H1 & H2 & H3).
  destruct (H3 eq_refl) as (H4 & H5 & H6 & _).
  exact (conj H1 (conj H2 (conj H4 (conj H5 H6)))).
Defined.

Lemma single_label_balance_witness :
  ∃ res s',
    SamplePass.pass (Sample.opt true false false (Some "2tails")) Eval.init
    = (OK res, s')
    ∧ Eval.FP2 s' = Eval.FN2 s' ∧ Eval.cp res = Eval.cr res.
Proof.
  eexists _, _. split; [run|].
  match goal with
  | |- Eval.FP2 ?s' = _ ∧ Eval.cp ?res = _ =>
      assert (SamplePass.pass (Sample.opt true false false (Some "2tails"))
                Eval.init = (OK res, s')) as Hrun by run
  end.
  unfold SamplePass.pass in Hrun.
  apply single_label_balance in Hrun as (H1 & H2); [|reflexivity].
  split.
  - change (Eval.FN2 Eval.init) with 0 in H1.
    change (Eval.FP2 Eval.init) with 0 in H1. by rewrite !Nat.add_0_r in H1.
  - by destruct (H2 _ eq_refl eq_refl).
Defined.


Lemma word_tag_line_shape_witness :
  Eval.word_tag_line Sample.idx_to_word (Sample.minibatch false false) 1 2
    ["B-obj"; "O"] ["B-obj"; "O"] = OK ["flight:B-obj:B-obj"; "a:O:O"]
  ∧ ∃ row, mb_inputs (Sample.minibatch false false) !! 1 = Some row
           ∧ 2 = 2 `min` length row.
Proof.
  assert (Eval.word_tag_line Sample.idx_to_word (Sample.minibatch false false)
            1 2 ["B-obj"; "O"] ["B-obj"; "O"]
          = OK ["flight:B-obj:B-obj"; "a:O:O"]) as Hrun
    by (vm_compute; reflexivity).
  split; [exact Hrun|].
  destruct (word_tag_line_shape _ _ _ _ _ _ _ Hrun)
    as (row & words & Hrow & _ & Hlen & _).
  exists row. split; [exact Hrow|exact Hlen].
Defined.

Lemma best_result_is_maximum_witness :
  ∃ st w',
    Script.training (H:=Sample.imports)
      (Sample.opt true false false (Some "2tails")) "exp/run"
      (Sample.dataset false) (Loss.tag_loss_function Sample.weight_mask)
      0 (Some 0) (Some 0) Sample.world0 = (OK st, w')
    ∧ ∃ i val te,
        Script.best_result st = Some (i, val, te) ∧ i < 2
        ∧ Script.best_f1 st
          = Script.val_f1_score (Sample.opt true false false (Some "2tails"))
              val.
Proof.
  eexists _, _. split; [run|].
  edestruct (best_result_is_maximum (H:=Sample.imports)
               (Sample.opt true false false (Some "2tails")) "exp/run"
               (Sample.dataset false)
               (Loss.tag_loss_function Sample.weight_mask) 0 (Some 0)
               (Some 0) Sample.world0)
    as (evs & i & val & te & _ & H1 & H2 & H3 & _); [run|].
  exists i, val, te. exact (conj H1 (conj H3 H2)).
Defined.

Lemma epoch_schedule_witness :
  ∃ st' w',
    Script.epoch (H:=Sample.imports)
      (Sample.opt true false false (Some "2tails")) "exp/run"
      (Sample.dataset false) (Loss.tag_loss_function Sample.weight_mask) 0
      Sample.train_state0 Sample.world0 = (OK st', w')
    ∧ Script.train_data_index st' ≠ []
    ∧ concat ((λ j, Py.slice (Script.train_data_index st') j 64)
                <$> ((λ k, k * 64)
                       <$> seq 0 ((length (Script.train_data_index st')
                                   + 64 - 1) / 64)))
      = Script.train_data_index st'.
Proof.
  eexists _, _. split; [run|].
  edestruct (epoch_schedule (H:=Sample.imports)
               (Sample.opt true false false (Some "2tails")) "exp/run"
               (Sample.dataset false)
               (Loss.tag_loss_function Sample.weight_mask) 0
               Sample.train_state0 Sample.world0)
    as (mean & lv & val & lt & te & _ & H1 & _ & H2); [run|].
  exact (conj H1 H2).
Defined.

Lemma sample_shuffle_permutes (rng : nat) (index : list nat) :
  (Sample.np_shuffle rng index).1 ≡ₚ index.
Proof. apply reverse_Permutation. Qed.

Lemma index_stays_permutation_witness :
  ∃ st w',
    Script.training (H:=Sample.imports)
      (Sample.opt true false false (Some "2tails")) "exp/run"
      (Sample.dataset false) (Loss.tag_loss_function Sample.weight_mask)
      0 (Some 0) (Some 0) Sample.world0 = (OK st, w')
    ∧ Script.train_data_index st ≡ₚ [0; 1].
Proof.
  eexists _, _. split; [run|].
  edestruct (index_stays_permutation (H:=Sample.imports)
               (Sample.opt true false false (Some "2tails")) "exp/run"
               (Sample.dataset false)
               (Loss.tag_loss_function Sample.weight_mask) 0 (Some 0)
               (Some 0) Sample.world0)
    as (H1 & _); [exact sample_shuffle_permutes|run|].
  exact H1.
Defined.

Lemma completed_run_witness :
  ∃ w',
    Script.main (H:=Sample.imports)
      (Sample.args "slot_tagger_with_crf_sen_level" "2tails" "single_cls_CE"
         false None) Sample.world0 = (OK tt, w')
    ∧ ∃ opt, Script.configure
               (Sample.args "slot_tagger_with_crf_sen_level" "2tails"
                  "single_cls_CE" false None) = OK opt
             ∧ crf opt = true ∧ max_epoch opt ≠ 0.
Proof.
  eexists. split; [run|].
  edestruct (completed_run (H:=Sample.imports)
               (Sample.args "slot_tagger_with_crf_sen_level" "2tails"
                  "single_cls_CE" false None) Sample.world0)
    as (opt & evs & i & val & te & val0 & te0 & H1 & _ & H2 & H3 & _); [run|].
  exists opt. exact (conj H1 (conj H2 H3)).
Defined.


Lemma vocabulary_without_pad_witness :
  Script.main (H:=SamplePass.unpadded)
    (Sample.args "slot_tagger_with_crf_sen_level" "2tails" "single_cls_CE"
       false None) SamplePass.unpadded_world0
  = (Raise KeyError,
     @Script.Build_world SamplePass.unpadded (999 : nat)
       (Spec.setup_events
          (Sample.args "slot_tagger_with_crf_sen_level" "2tails"
             "single_cls_CE" false None)
          (Sample.opt true false false (Some "2tails")) "exp/run")).
Proof.
  edestruct (vocabulary_without_pad (H:=SamplePass.unpadded)
               (Sample.args "slot_tagger_with_crf_sen_level" "2tails"
                  "single_cls_CE" false None)
               (Sample.opt true false false (Some "2tails"))
               SamplePass.unpadded_world0)
    as (H1 & _); [vm_compute; reflexivity|reflexivity|reflexivity|].
  apply H1. vm_compute. reflexivity.
Defined.
